(** * eCourts scraper: CAPTCHA resolution, dropdown enumeration and the
      search-and-extract protocol

    A shallow embedding of [captcha_solver.py], of the option filters of
    [enumerate_high_courts] / [enumerate_benches] and of
    [perform_search_and_extract] ([scapper.py]), with the callers in
    [main.py] and the search-log entry point of [database.py]; then of the
    page driver ([open_case_status_page], [handle_popup_if_present], the
    frame polling of [enumerate_benches], [initialize]), of the database
    manager with its global, and of [run_comprehensive_search].

    Conventions.
    - A Python [str] is a [string]; a character is its 8-bit code unit.
    - A Python exception is a value of [exn]; a call that may raise returns
      an [outcome].
    - Calls on the logger, on the HTTP session, on [asyncio.sleep] and on the
      database are recorded, in program order, as [event]s. *)

From Stdlib Require Import String Ascii List ZArith Bool Lia Arith.
From Stdlib Require Import DecimalString.
Import ListNotations.
Local Open Scope string_scope.
Local Open Scope list_scope.
Local Open Scope Z_scope.

Set Implicit Arguments.
Set Warnings "-register-all".

(* ================================================================== *)
(** ** Python values: strings, exceptions, truthiness                  *)
(* ================================================================== *)

Module Py.

(** [str.isspace] on one character (code points below 256). *)
Definition isspace (c : ascii) : bool :=
  let n := nat_of_ascii c in
  (((9 <=? n) && (n <=? 13)) || ((28 <=? n) && (n <=? 32))
   || (n =? 133) || (n =? 160))%nat.

Fixpoint lstrip (s : string) : string :=
  match s with
  | EmptyString => EmptyString
  | String c r => if isspace c then lstrip r else s
  end.

Fixpoint rstrip (s : string) : string :=
  match s with
  | EmptyString => EmptyString
  | String c r =>
      match rstrip r with
      | EmptyString => if isspace c then EmptyString else String c EmptyString
      | r' => String c r'
      end
  end.

(** [s.strip()] *)
Definition strip (s : string) : string := rstrip (lstrip s).

(** [s.replace(old, '')] for a one-character [old]. *)
Fixpoint replace_char_by_empty (old : ascii) (s : string) : string :=
  match s with
  | EmptyString => EmptyString
  | String c r =>
      if Ascii.eqb c old then replace_char_by_empty old r
      else String c (replace_char_by_empty old r)
  end.

(** [len(s)] *)
Definition len (s : string) : Z := Z.of_nat (String.length s).

(** [sub in s] *)
Fixpoint contains (sub s : string) : bool :=
  String.prefix sub s
  || match s with
     | EmptyString => false
     | String _ r => contains sub r
     end.

(** Truthiness of a [str]: non-empty. *)
Definition truthy (s : string) : bool :=
  match s with EmptyString => false | String _ _ => true end.

(** Truthiness of an [Optional[str]]: present and non-empty. *)
Definition truthy_opt (o : option string) : bool :=
  match o with None => false | Some s => truthy s end.

(** [str(n)] for an [int]. *)
Definition str_of_int (n : Z) : string := NilZero.string_of_int (Z.to_int n).

(** Exceptions below [Exception]; each carries what [str(e)] prints. *)
Inductive exn : Type :=
| IndexError (msg : string)
| HTTPError (msg : string)
| RequestException (msg : string)
| OtherException (msg : string).

Definition str_of_exn (e : exn) : string :=
  match e with
  | IndexError m | HTTPError m | RequestException m | OtherException m => m
  end.

Inductive outcome (A : Type) : Type :=
| Ok (a : A)
| Raise (e : exn).
Arguments Ok {A} a.
Arguments Raise {A} e.

(** [l[i]] on a list, for [i >= 0]. *)
Definition index {A : Type} (l : list A) (i : nat) : outcome A :=
  match nth_error l i with
  | Some x => Ok x
  | None => Raise (IndexError "list index out of range")
  end.

(** [range(n)] *)
Definition range (n : Z) : list Z := map Z.of_nat (seq 0 (Z.to_nat n)).

End Py.

Import Py.

(* ================================================================== *)
(** ** Observable effects                                              *)
(* ================================================================== *)

Inductive level : Type := DEBUG | INFO | WARNING | ERROR.

Record log_record : Type := LogRecord { lvl : level; message : string }.

Definition bytes := list Byte.byte.

(* ================================================================== *)
(** ** captcha_solver.py                                               *)
(* ================================================================== *)

Module Captcha.

Section Solver.

(** PIL and pytesseract, consumed as capabilities. *)
Variable image : Type.
Variable Image_open : bytes -> outcome image.
Variable convert : image -> string -> outcome image.
Variable image_to_string : image -> string -> outcome string.

Definition tesseract_config : string :=
  "--psm 8 -c tessedit_char_whitelist=0123456789ABCDEFGHIJKLMNOPQRSTUVWXYZabcdefghijklmnopqrstuvwxyz".

(** The clean-up of line 27. *)
Definition clean (captcha_text : string) : string :=
  replace_char_by_empty "010"%char
    (replace_char_by_empty " "%char (strip captcha_text)).

(** [OCRCaptchaSolver.solve_captcha_from_bytes] *)
Definition solve_captcha_from_bytes (image_bytes : bytes)
  : list log_record * option string :=
  let failed e :=
    ([LogRecord ERROR ("OCR CAPTCHA solving failed: " ++ str_of_exn e)%string], None) in
  match Image_open image_bytes with
  | Raise e => failed e
  | Ok img =>
      match convert img "L" with
      | Raise e => failed e
      | Ok img =>
          match image_to_string img tesseract_config with
          | Raise e => failed e
          | Ok captcha_text =>
              let captcha_text := clean captcha_text in
              if len captcha_text >=? 4 then
                ([LogRecord INFO ("OCR extracted CAPTCHA: " ++ captcha_text)%string],
                 Some captcha_text)
              else
                ([LogRecord WARNING
                    ("OCR extracted too short text: " ++ captcha_text)%string],
                 None)
          end
      end
  end.

(** [SimpleCaptchaSolver.solve_manual_captcha] *)
Definition solve_manual_captcha (image_bytes : bytes)
  : list log_record * option string :=
  ([LogRecord INFO "Manual CAPTCHA solving not implemented - using placeholder"],
   Some "1234").

(** [HybridCaptchaSolver.solve_captcha] *)
Definition hybrid_solve_captcha (image_bytes : bytes)
  : list log_record * option string :=
  let l0 := [LogRecord INFO "Attempting to solve CAPTCHA..."] in
  let (l1, solution) := solve_captcha_from_bytes image_bytes in
  if truthy_opt solution then
    (l0 ++ l1 ++ [LogRecord INFO "CAPTCHA solved using OCR"], solution)
  else
    let l2 := [LogRecord INFO "OCR failed, trying manual CAPTCHA solving..."] in
    let (l3, solution) := solve_manual_captcha image_bytes in
    if truthy_opt solution then
      (l0 ++ l1 ++ l2 ++ l3 ++ [LogRecord INFO "CAPTCHA solved manually"], solution)
    else
      (l0 ++ l1 ++ l2 ++ l3
          ++ [LogRecord ERROR "Both OCR and manual CAPTCHA solving failed"],
       None).

(** Module-level [solve_captcha]: the process-wide solver is a
    [HybridCaptchaSolver], created on first use and stateless. *)
Definition solve_captcha (image_bytes : bytes)
  : list log_record * option string :=
  hybrid_solve_captcha image_bytes.

(** What the OCR engine printed for an image, before the clean-up:
    [None] when opening, converting or reading the image raised. *)
Definition ocr_raw_text (image_bytes : bytes) : option string :=
  match Image_open image_bytes with
  | Raise _ => None
  | Ok img =>
      match convert img "L" with
      | Raise _ => None
      | Ok img =>
          match image_to_string img tesseract_config with
          | Raise _ => None
          | Ok t => Some t
          end
      end
  end.

End Solver.

End Captcha.

(* ================================================================== *)
(** ** Dropdown enumeration (scapper.py, lines 84-163)                 *)
(* ================================================================== *)

Module Topology.

(** An entry of a listing: the dict [{"value": ..., "text": ...}]. *)
Record entry : Type := Entry { value : string; text : string }.

(** An [<option>] as Playwright shows it to [enumerate_high_courts]:
    [get_attribute("value")] is [None] when the attribute is missing. *)
Record option_locator : Type :=
  OptionLocator { get_attribute_value : option string; inner_text : string }.

(** The court selector [#sess_state_code] as the page shows it. *)
Record court_select : Type :=
  CourtSelect { is_visible : bool; option_all : list option_locator }.

(** The test of line 99: [val and val.strip() and val != "0"]. *)
Definition court_option_kept (val : option string) : bool :=
  match val with
  | None => false
  | Some v => truthy v && truthy (strip v) && negb (String.eqb v "0")
  end.

(** The loop of lines 96-100. *)
Fixpoint collect_courts (options : list option_locator) (courts : list entry)
  : list entry :=
  match options with
  | [] => courts
  | opt :: rest =>
      let val := get_attribute_value opt in
      let text := inner_text opt in
      if court_option_kept val then
        match val with
        | Some v => collect_courts rest (courts ++ [Entry (strip v) (strip text)])
        | None => collect_courts rest courts
        end
      else collect_courts rest courts
  end.

(** [enumerate_high_courts]; an exception raised by the page anywhere in
    the body is caught and gives the empty list. *)
Definition enumerate_high_courts (page : outcome court_select)
  : list log_record * list entry :=
  match page with
  | Raise e =>
      ([LogRecord ERROR (" Failed to enumerate high courts: " ++ str_of_exn e)%string], [])
  | Ok select =>
      if negb (is_visible select) then
        ([LogRecord WARNING " High Court dropdown not visible"], [])
      else
        let courts := collect_courts (option_all select) [] in
        ([LogRecord INFO ("Enumerated " ++ str_of_int (Z.of_nat (length courts))
                            ++ " high courts")%string],
         courts)
  end.

(** An [<option>] element of the bench selector, in the browser. *)
Record dom_option : Type := DomOption { textContent : string; o_value : string }.

(** White space for JavaScript's [String.prototype.trim] (below 256). *)
Definition js_isspace (c : ascii) : bool :=
  let n := nat_of_ascii c in
  (((9 <=? n) && (n <=? 13)) || (n =? 32) || (n =? 160))%nat.

Fixpoint js_trim_start (s : string) : string :=
  match s with
  | EmptyString => EmptyString
  | String c r => if js_isspace c then js_trim_start r else s
  end.

Fixpoint js_trim_end (s : string) : string :=
  match s with
  | EmptyString => EmptyString
  | String c r =>
      match js_trim_end r with
      | EmptyString => if js_isspace c then EmptyString else String c EmptyString
      | r' => String c r'
      end
  end.

Definition js_trim (s : string) : string := js_trim_end (js_trim_start s).

(** [opts => opts.map(o => ({ text: o.textContent.trim(), value: o.value }))] *)
Definition eval_options (opts : list dom_option) : list entry :=
  map (fun o => Entry (o_value o) (js_trim (textContent o))) opts.

(** The test of line 158:
    [o['value'].strip() and 'Select' not in o['text']]. *)
Definition bench_option_kept (o : entry) : bool :=
  truthy (strip (value o)) && negb (contains "Select" (text o)).

(** The document [target] in which the bench selector was looked for, once
    the court is selected: whether the wait for more than one option
    succeeded, and the option elements handed to the page function. *)
Record bench_target : Type :=
  BenchTarget { wait_for_function : outcome unit;
                court_complex_code_options : outcome (list dom_option) }.

(** [enumerate_benches], from the wait on [target] onwards. *)
Definition enumerate_benches (target : bench_target) : list entry :=
  match wait_for_function target with
  | Raise _ => []
  | Ok _ =>
      match court_complex_code_options target with
      | Raise _ => []
      | Ok opts => filter bench_option_kept (eval_options opts)
      end
  end.

(** The sentinel options of the portal: no value, the value ["0"], or a
    display text with the marker. *)
Definition sentinel (o : entry) : bool :=
  String.eqb (value o) "" || String.eqb (value o) "0" || contains "Select" (text o).

End Topology.

(* ================================================================== *)
(** ** The parsed result page (BeautifulSoup)                          *)
(* ================================================================== *)

Module Soup.

(** The tree [BeautifulSoup(response.text, "html.parser")] builds. *)
Inductive node : Type :=
| NavigableString (s : string)
| Tag (name : string) (attrs : list (string * string)) (contents : list node).

(** [tag.descendants]: document order, the tag itself left out. *)
Fixpoint descendants (n : node) : list node :=
  match n with
  | NavigableString _ => []
  | Tag _ _ cs => flat_map (fun c => c :: descendants c) cs
  end.

Fixpoint get (attrs : list (string * string)) (key : string) : option string :=
  match attrs with
  | [] => None
  | (k, v) :: rest => if String.eqb k key then Some v else get rest key
  end.

Definition named (nm : string) (n : node) : bool :=
  match n with
  | NavigableString _ => false
  | Tag nm' _ _ => String.eqb nm' nm
  end.

Definition has_id (id : string) (n : node) : bool :=
  match n with
  | NavigableString _ => false
  | Tag _ attrs _ =>
      match get attrs "id" with
      | Some v => String.eqb v id
      | None => false
      end
  end.

(** [soup.select_one("nm#id")] *)
Definition select_one (nm id : string) (soup : node) : option node :=
  List.find (fun n => named nm n && has_id id n) (descendants soup).

(** [soup.find(nm, id=id)] *)
Definition find (nm id : string) (soup : node) : option node :=
  List.find (fun n => named nm n && has_id id n) (descendants soup).

(** [tag.select(nm)] for a bare type selector. *)
Definition select (nm : string) (tag : node) : list node :=
  filter (named nm) (descendants tag).

(** The strings [_all_strings(strip=True)] yields. *)
Fixpoint stripped_strings (ns : list node) : list string :=
  match ns with
  | [] => []
  | NavigableString s :: rest =>
      if truthy (strip s) then strip s :: stripped_strings rest
      else stripped_strings rest
  | Tag _ _ _ :: rest => stripped_strings rest
  end.

(** [tag.get_text(strip=True)] *)
Definition get_text_strip (tag : node) : string :=
  String.concat "" (stripped_strings (descendants tag)).

End Soup.

Import Soup.

(* ================================================================== *)
(** ** The search-and-extract protocol (scapper.py, lines 166-255)     *)
(* ================================================================== *)

(** The form posted to the portal. *)
Record payload : Type :=
  Payload { court_code_f : string;
            state_code_f : string;
            court_complex_code_f : string;
            caseStatusSearchType : string;
            captcha : string;
            f : string;
            petres_name : string;
            caseNo : string;
            rgyear : string }.

(** One parsed row: the dict appended to [results]. *)
Record result_row : Type :=
  ResultRow { case_number : string;
              party_name : string;
              next_date : string;
              status : string }.

(** The arguments of a call of [log_search]. *)
Record search_log : Type :=
  SearchLog { high_court : string;
              bench : string;
              search_type_l : string;
              search_query : string;
              results_count : Z;
              success : bool;
              error_message : option string }.

Inductive event : Type :=
| Log (r : log_record)                               (* logger.<level>(...) *)
| ContextCookies                                     (* page.context.cookies() *)
| HttpGet (url : string) (timeout : Z)               (* session.get *)
| HttpPost (url : string) (data : payload) (timeout : Z)   (* session.post *)
| Sleep (seconds : Z)                                (* asyncio.sleep *)
| LogSearch (row : search_log).                      (* database.log_search *)

Record cookie : Type := Cookie { c_name : string; c_value : string }.

(** A [requests] response: status, body bytes, and the body as the HTML
    parser reads it. *)
Record response : Type :=
  Response { status_code : Z; content : bytes; soup_of_text : node }.

(** [response.raise_for_status()]; the text of the error is shortened to
    the status code. *)
Definition raise_for_status (r : response) : outcome unit :=
  if (400 <=? status_code r) && (status_code r <? 600)
  then Raise (HTTPError (str_of_int (status_code r) ++ " Error")%string)
  else Ok tt.

(** [d[k] = v] on a dict kept in insertion order. *)
Fixpoint dict_set (k v : string) (d : list (string * string))
  : list (string * string) :=
  match d with
  | [] => [(k, v)]
  | (k', v') :: rest =>
      if String.eqb k' k then (k, v) :: rest else (k', v') :: dict_set k v rest
  end.

(** [{cookie['name']: cookie['value'] for cookie in cookies}] *)
Definition dict_of_cookies (cookies : list cookie) : list (string * string) :=
  fold_left (fun d c => dict_set (c_name c) (c_value c) d) cookies [].

Definition post_url : string :=
  "https://hcservices.ecourts.gov.in/hcservices/cases_qry/index_qry.php".
Definition captcha_url : string :=
  "https://hcservices.ecourts.gov.in/hcservices/securimage/securimage_show.php?14".

(** The dict literal of lines 238-244, for one row. *)
Definition row_dict (row : node) : outcome result_row :=
  let cols := select "td" row in
  match index cols 0 with
  | Raise e => Raise e
  | Ok c0 =>
  match index cols 1 with
  | Raise e => Raise e
  | Ok c1 =>
  match index cols 2 with
  | Raise e => Raise e
  | Ok c2 =>
  match index cols 3 with
  | Raise e => Raise e
  | Ok c3 =>
      Ok (ResultRow (get_text_strip c0) (get_text_strip c1)
                    (get_text_strip c2) (get_text_strip c3))
  end end end end.

(** The loop of lines 236-244 over [rows], appending to [results]. *)
Fixpoint extract_rows (rows : list node) (results : list result_row)
  : outcome (list result_row) :=
  match rows with
  | [] => Ok results
  | row :: rest =>
      match row_dict row with
      | Raise e => Raise e
      | Ok d => extract_rows rest (results ++ [d])
      end
  end.

(** Lines 234-244: [rows = results_table.select("tr")[1:]], then the loop. *)
Definition parse_results_table (results_table : node) : outcome (list result_row) :=
  let rows := skipn 1 (select "tr" results_table) in
  extract_rows rows [].

(** The f-strings handed to the logger. *)
Definition msg_post_attempt (attempt max_retries : Z) : string :=
  "POST attempt " ++ str_of_int (attempt + 1) ++ "/" ++ str_of_int max_retries.

Definition msg_error_on_attempt (attempt : Z) (e : exn) : string :=
  "Error on attempt " ++ str_of_int (attempt + 1) ++ ": " ++ str_of_exn e.

Definition msg_found (results : list result_row) : string :=
  "Found " ++ str_of_int (Z.of_nat (length results)) ++ " results".

Definition msg_captcha_solved (captcha_solution : string) : string :=
  "CAPTCHA solved: " ++ captcha_solution.

Definition msg_captcha_failed (e : exn) : string :=
  "Failed to solve CAPTCHA: " ++ str_of_exn e.

Definition info (msg : string) : event := Log (LogRecord INFO msg).
Definition error (msg : string) : event := Log (LogRecord ERROR msg).

Module Executor.

Section WithPortal.

(** The browser context and the portal behind the HTTP session: a state
    the calls read and advance. *)
Variable St : Type.
Variable page_context_cookies : St -> outcome (list cookie) * St.
Variable session_get :
  list (string * string) -> string -> St -> outcome response * St.
Variable session_post :
  list (string * string) -> string -> payload -> St -> outcome response * St.

(** The resolver bound to the name [solve_captcha] in [scapper]. *)
Variable solve_captcha : bytes -> list log_record * outcome (option string).

(** Computations: from a state to a value, the next state, and the events
    emitted on the way. *)
Definition M (A : Type) : Type := St -> A * St * list event.

Definition ret {A : Type} (a : A) : M A := fun s => (a, s, []).

Definition bind {A B : Type} (m : M A) (k : A -> M B) : M B :=
  fun s =>
    let '(a, s1, t1) := m s in
    let '(b, s2, t2) := k a s1 in
    (b, s2, t1 ++ t2).

Definition emit (e : event) : M unit := fun s => (tt, s, [e]).

Definition emit_all (es : list event) : M unit := fun s => (tt, s, es).

Definition call {A : Type} (e : event) (op : St -> A * St) : M A :=
  fun s => let '(a, s1) := op s in (a, s1, [e]).

Notation "x <- m ;; k" := (bind m (fun x => k))
  (at level 61, m at next level, right associativity).
Notation "m ;; k" := (bind m (fun _ => k))
  (at level 61, right associativity).

Definition logger_info (msg : string) : M unit := emit (info msg).

Definition logger_error (msg : string) : M unit := emit (error msg).

Definition asyncio_sleep (seconds : Z) : M unit := emit (Sleep seconds).

Section Search.

Variables (court_code state_code court_complex_code search_type query year : string).
Variable max_retries : Z.

(** Lines 206-216. *)
Definition make_payload (captcha_solution : string) : payload :=
  {| court_code_f := court_code;
     state_code_f := state_code;
     court_complex_code_f := court_complex_code;
     caseStatusSearchType :=
       if String.eqb search_type "party_name" then "CSpartyName" else "CScaseNumber";
     captcha := captcha_solution;
     f := "Both";
     petres_name := if String.eqb search_type "party_name" then query else "";
     caseNo := if String.eqb search_type "case_number" then query else "";
     rgyear := year |}.

(** Lines 249-254: the handler of one attempt; [continue_] is the rest of
    the loop. *)
Definition on_exception (attempt : Z) (continue_ : M (list result_row)) (e : exn)
  : M (list result_row) :=
  logger_error (msg_error_on_attempt attempt e) ;;
  if attempt <? max_retries - 1 then
    asyncio_sleep 2 ;; continue_
  else ret [].

(** Lines 220-254: the body of the loop for one value of [attempt]. *)
Definition attempt_body (session_cookies : list (string * string)) (data : payload)
    (attempt : Z) (continue_ : M (list result_row)) : M (list result_row) :=
  logger_info (msg_post_attempt attempt max_retries) ;;
  r <- call (HttpPost post_url data 15) (session_post session_cookies post_url data) ;;
  match r with
  | Raise e => on_exception attempt continue_ e
  | Ok response =>
      match raise_for_status response with
      | Raise e => on_exception attempt continue_ e
      | Ok _ =>
          let soup := soup_of_text response in
          match select_one "table" "searchResults" soup with
          | None =>
              let results_table := find "table" "dispTable" soup in
              asyncio_sleep 2 ;; continue_
          | Some results_table =>
              match parse_results_table results_table with
              | Raise e => on_exception attempt continue_ e
              | Ok results =>
                  logger_info (msg_found results) ;;
                  ret results
              end
          end
      end
  end.

(** Lines 219-255: [for attempt in range(max_retries)], then [return []]. *)
Fixpoint post_attempts (session_cookies : list (string * string)) (data : payload)
    (attempts : list Z) : M (list result_row) :=
  match attempts with
  | [] => ret []
  | attempt :: rest =>
      attempt_body session_cookies data attempt
        (post_attempts session_cookies data rest)
  end.

(** Lines 187-195: the body of the first [try]. *)
Definition fetch_and_solve (session_cookies : list (string * string))
  : M (outcome (option string)) :=
  r <- call (HttpGet captcha_url 10) (session_get session_cookies captcha_url) ;;
  match r with
  | Raise e => ret (Raise e)
  | Ok response =>
      match raise_for_status response with
      | Raise e => ret (Raise e)
      | Ok _ =>
          let captcha_image_bytes := content response in
          let (logs, captcha_solution) := solve_captcha captcha_image_bytes in
          emit_all (map Log logs) ;;
          ret captcha_solution
      end
  end.

(** [perform_search_and_extract]; an exception of the cookie snapshot is
    not caught here and reaches the caller. *)
Definition perform_search_and_extract : M (outcome (list result_row)) :=
  cookies <- call ContextCookies page_context_cookies ;;
  match cookies with
  | Raise e => ret (Raise e)
  | Ok cookies =>
      let session_cookies := dict_of_cookies cookies in
      solved <- fetch_and_solve session_cookies ;;
      match solved with
      | Raise e =>
          logger_error (msg_captcha_failed e) ;;
          ret (Ok [])
      | Ok captcha_solution =>
          if negb (truthy_opt captcha_solution) then
            logger_error "Failed to solve CAPTCHA" ;;
            ret (Ok [])
          else
            let captcha_solution :=
              match captcha_solution with Some s => s | None => "" end in
            logger_info (msg_captcha_solved captcha_solution) ;;
            let data := make_payload captcha_solution in
            results <- post_attempts session_cookies data (range max_retries) ;;
            ret (Ok results)
      end
  end.

End Search.

(** [ECourtsScraper.search_by_party_name] (main.py, lines 102-110); the
    call passes seven positional arguments, bound in order to [page],
    [court_code], [state_code], [court_complex_code], [search_type],
    [query] and [year]; [max_retries] keeps its default. *)
Definition search_by_party_name
    (court_name court_value bench_value bench_name party_name : string)
  : M (outcome (list result_row)) :=
  logger_info (" Searching by party name: '" ++ party_name ++ "' in "
                 ++ court_name ++ " - " ++ bench_name)%string ;;
  results <- perform_search_and_extract
               court_name court_value bench_value bench_name
               "party_name" party_name 3 ;;
  match results with
  | Raise e => ret (Raise e)
  | Ok results =>
      logger_info (" Found " ++ str_of_int (Z.of_nat (length results))
                     ++ " results for party name search")%string ;;
      ret (Ok results)
  end.

End WithPortal.

End Executor.

(* ================================================================== *)
(** ** The search-log entry point (database.py, lines 124-148, 226-237) *)
(* ================================================================== *)

Module Database.

(** [DatabaseManager.log_search]: the INSERT into [search_logs] and the
    commit, which may raise. *)
Definition manager_log_search (insert : search_log -> outcome unit)
    (row : search_log) : list event * bool :=
  match insert row with
  | Ok _ => ([], true)
  | Raise e =>
      ([Log (LogRecord ERROR (" Failed to log search: " ++ str_of_exn e)%string)],
       false)
  end.

(** Module-level [log_search]; [_db_manager] is the global manager, [None]
    before [init_database]. Entering the function is recorded as a
    [LogSearch] event. *)
Definition log_search (_db_manager : option (search_log -> outcome unit))
    (row : search_log) : list event * bool :=
  match _db_manager with
  | None =>
      ([LogSearch row;
        Log (LogRecord WARNING " Database not initialized, skipping search log")],
       false)
  | Some insert =>
      let (t, ok) := manager_log_search insert row in
      (LogSearch row :: t, ok)
  end.

End Database.

(* ================================================================== *)
(** ** Reading a trace                                                 *)
(* ================================================================== *)

Definition value_of {A S T : Type} (x : A * S * T) : A := fst (fst x).
Definition state_of {A S T : Type} (x : A * S * T) : S := snd (fst x).
Definition trace_of {A S T : Type} (x : A * S * T) : T := snd x.

(** A GET of the challenge image. *)
Definition is_fetch (e : event) : bool :=
  match e with
  | HttpGet u _ => String.eqb u captcha_url
  | _ => false
  end.

(** A POST of the search form. *)
Definition is_submit (e : event) : bool :=
  match e with
  | HttpPost _ _ _ => true
  | _ => false
  end.

Definition is_sleep (e : event) : bool :=
  match e with
  | Sleep _ => true
  | _ => false
  end.

(** A search-outcome event handed to the record sink. *)
Definition is_log_search (e : event) : bool :=
  match e with
  | LogSearch _ => true
  | _ => false
  end.

Definition count (p : event -> bool) (t : list event) : nat :=
  length (filter p t).

(** The CAPTCHA texts submitted, in order. *)
Fixpoint submitted_captchas (t : list event) : list string :=
  match t with
  | [] => []
  | HttpPost _ d _ :: rest => captcha d :: submitted_captchas rest
  | _ :: rest => submitted_captchas rest
  end.

(** Every submission is preceded by a fetch of its own: [fetched] tells
    whether a challenge was fetched and not yet submitted. *)
Fixpoint fresh_challenge_each_submission (fetched : bool) (t : list event) : bool :=
  match t with
  | [] => true
  | e :: rest =>
      if is_fetch e then fresh_challenge_each_submission true rest
      else if is_submit e then
        fetched && fresh_challenge_each_submission false rest
      else fresh_challenge_each_submission fetched rest
  end.

(** The events one pass of the retry loop can emit for the form [data]. *)
Definition loop_event (data : payload) (e : event) : Prop :=
  match e with
  | Log _ => True
  | HttpPost u d tm => u = post_url /\ d = data /\ tm = 15
  | Sleep n => n = 2
  | _ => False
  end.

(** A data row of the table with fewer than four cells. *)
Definition short_row (row : node) : bool :=
  (length (select "td" row) <? 4)%nat.

Definition has_short_data_row (results_table : node) : bool :=
  existsb short_row (skipn 1 (select "tr" results_table)).

(* ================================================================== *)
(** ** A scripted portal, for concrete runs                            *)
(* ================================================================== *)

Module Scripted.

(** The cookie snapshot, the answer to the challenge GET, and the answers
    to the successive POSTs. *)
Record script : Type :=
  Script { jar : outcome (list cookie);
           challenge : outcome response;
           replies : list (outcome response) }.

Definition cookies (s : script) : outcome (list cookie) * script := (jar s, s).

Definition get (_ : list (string * string)) (_ : string) (s : script)
  : outcome response * script := (challenge s, s).

Definition post (_ : list (string * string)) (_ : string) (_ : payload) (s : script)
  : outcome response * script :=
  match replies s with
  | [] => (Raise (RequestException "connection closed"), s)
  | r :: rest => (r, Script (jar s) (challenge s) rest)
  end.

(** Resolvers. *)
Definition no_solution (_ : bytes) : list log_record * outcome (option string) :=
  ([], Ok None).

Definition fixed_solution (sol : string) (_ : bytes)
  : list log_record * outcome (option string) :=
  ([], Ok (Some sol)).

(** An OCR engine that reads the fixed text [out] from any image. *)
Definition engine_open (b : bytes) : outcome bytes := Ok b.
Definition engine_convert (b : bytes) (_ : string) : outcome bytes := Ok b.
Definition engine_reads (out : string) (_ : bytes) (_ : string) : outcome string :=
  Ok out.

(** An OCR engine that cannot open the image. *)
Definition engine_broken (_ : bytes) : outcome bytes :=
  Raise (OtherException "cannot identify image file").

(** Pages. *)
Definition cell (tag txt : string) : node := Tag tag [] [NavigableString txt].

Definition header_row : node :=
  Tag "tr" [] [cell "th" "Case No"; cell "th" "Parties";
               cell "th" "Next Date"; cell "th" "Status"].

Definition row1 : node :=
  Tag "tr" [] [cell "td" "W.P.123/2024"; cell "td" " Kumar vs State ";
               cell "td" "12-01-2025"; cell "td" "Pending"].

Definition row2 : node :=
  Tag "tr" [] [cell "td" "W.P.77/2024"; cell "td" "Kumar vs Union";
               cell "td" "03-02-2025"; cell "td" "Disposed"].

(** A row with three cells only. *)
Definition row_short : node :=
  Tag "tr" [] [cell "td" "W.P.9/2024"; cell "td" "A vs B"; cell "td" "01-03-2025"].

Definition table (id : string) (rows : list node) : node :=
  Tag "table" [("id", id)] rows.

Definition results_table : node := table "searchResults" [header_row; row1; row2].
Definition header_only_table : node := table "searchResults" [header_row].
Definition fallback_table : node := table "dispTable" [header_row; row1].
Definition short_row_table : node :=
  table "searchResults" [header_row; row1; row_short].

Definition page (body : list node) : node :=
  Tag "[document]" [] [Tag "html" [] [Tag "body" [] body]].

Definition reply (body : list node) : response := Response 200 [] (page body).

Definition reply_no_table : response :=
  reply [Tag "p" [] [NavigableString "Invalid Captcha"]].
Definition reply_results : response := reply [results_table].
Definition reply_header_only : response := reply [header_only_table].
Definition reply_fallback : response := reply [fallback_table].
Definition reply_short_row : response := reply [short_row_table].

(** The rows of [results_table] as dicts. *)
Definition parsed_rows : list result_row :=
  [ResultRow "W.P.123/2024" "Kumar vs State" "12-01-2025" "Pending";
   ResultRow "W.P.77/2024" "Kumar vs Union" "03-02-2025" "Disposed"].

Definition session_cookie : list cookie := [Cookie "PHPSESSID" "abc"].

Definition challenge_image : response :=
  Response 200 [Byte.x89; Byte.x50; Byte.x4e; Byte.x47] (page []).

Definition portal (rs : list response) : script :=
  Script (Ok session_cookie) (Ok challenge_image) (map Ok rs).

(** One search of the scripted portal. *)
Definition search (solver : bytes -> list log_record * outcome (option string))
    (max_retries : Z) (rs : list response) :=
  Executor.perform_search_and_extract cookies get post solver
    "1" "26" "1" "party_name" "kumar" "2024" max_retries (portal rs).

(** The form that search posts for the CAPTCHA text [sol]. *)
Definition form (sol : string) : payload :=
  Executor.make_payload "1" "26" "1" "party_name" "kumar" "2024" sol.

End Scripted.

(* ================================================================== *)
(** ** A portal whose answers never change                             *)
(* ================================================================== *)

Module Steady.

(** The state counts the requests served; every POST gets [reply]. *)
Definition cookies (s : nat) : outcome (list cookie) * nat :=
  (Ok Scripted.session_cookie, s).

Definition get (answer : outcome response) (_ : list (string * string))
    (_ : string) (s : nat) : outcome response * nat := (answer, S s).

Definition post (reply : outcome response) (_ : list (string * string))
    (_ : string) (_ : payload) (s : nat) : outcome response * nat := (reply, S s).

Definition unavailable : response := Response 503 [] (Scripted.page []).

Definition search (answer reply : outcome response) (max_retries : Z) :=
  Executor.perform_search_and_extract cookies (get answer) (post reply)
    (Scripted.fixed_solution "ab12")
    "1" "26" "1" "party_name" "kumar" "2024" max_retries 0%nat.

End Steady.

(* ================================================================== *)
(** ** The resolver as [scapper] imports it                            *)
(* ================================================================== *)

(** [from captcha_solver import solve_captcha]: the hybrid resolver, which
    returns normally on every image. *)
Definition imported_solve_captcha (image : Type)
    (Image_open : bytes -> outcome image)
    (convert : image -> string -> outcome image)
    (image_to_string : image -> string -> outcome string)
    (image_bytes : bytes) : list log_record * outcome (option string) :=
  let (logs, solution) :=
    Captcha.solve_captcha Image_open convert image_to_string image_bytes in
  (logs, Ok solution).

(** An [ERROR] record of the logger. *)
Definition is_error_record (e : event) : bool :=
  match e with
  | Log (LogRecord ERROR _) => true
  | _ => false
  end.

(** A string without white space at either end. *)
Definition trimmed (s : string) : Prop := lstrip s = s /\ rstrip s = s.

(** The characters of a string. *)
Fixpoint chars (s : string) : list ascii :=
  match s with
  | EmptyString => []
  | String c r => c :: chars r
  end.

(** A run with the events [pre] put in front of its trace. *)
Definition prepend {A S E : Type} (pre : list E) (x : A * S * list E)
  : A * S * list E :=
  (value_of x, state_of x, pre ++ trace_of x).

(* ================================================================== *)
(** ** Driving the page (scapper.py, lines 13-82 and 110-163)          *)
(* ================================================================== *)

Module Browser.

(** What the page is asked to do, in program order. [frame] is the type of
    the frame objects of [page.frames]; a target is a frame, or the page
    itself ([None]). *)
Inductive action (frame : Type) : Type :=
| ALog (r : log_record)
| APrint (line : string)
| Goto (url wait_until : string)
| Click (selector : string) (timeout : option Z)
| WaitForLoadState (state : string)
| WaitForTimeout (ms : Z)
| IsVisible (selector : string) (timeout : Z)
| Press (key : string)
| SelectOption (selector value : string)
| Frames
| QuerySelector (f : frame) (selector : string)
| ASleep (seconds : Z)
| WaitForFunction (target : option frame) (timeout : Z)
| EvalOnSelectorAll (target : option frame) (selector : string).

Arguments ALog {frame} r.
Arguments APrint {frame} line.
Arguments Goto {frame} url wait_until.
Arguments Click {frame} selector timeout.
Arguments WaitForLoadState {frame} state.
Arguments WaitForTimeout {frame} ms.
Arguments IsVisible {frame} selector timeout.
Arguments Press {frame} key.
Arguments SelectOption {frame} selector value.
Arguments Frames {frame}.
Arguments QuerySelector {frame} f selector.
Arguments ASleep {frame} seconds.
Arguments WaitForFunction {frame} target timeout.
Arguments EvalOnSelectorAll {frame} target selector.

(** Lines 14-18. *)
Definition case_status_selectors : list string :=
  ["text=Case Status"; "a:has-text('Case Status')"; "#case_status_link"].

(** Lines 45-57. *)
Definition popup_selectors : list string :=
  ["button:has-text('OK')"; "button:has-text('Okay')"; "button:has-text('Close')";
   "input[value='OK']"; "input[value='Okay']"; "input[value='Close']";
   ".popup button"; ".modal button"; "#popup button";
   "button[onclick*='close']"; "button[onclick*='hide']"].

Definition is_press {frame : Type} (a : action frame) : bool :=
  match a with Press _ => true | _ => false end.

Definition is_probe {frame : Type} (a : action frame) : bool :=
  match a with IsVisible _ _ => true | _ => false end.

Definition is_frames {frame : Type} (a : action frame) : bool :=
  match a with Frames => true | _ => false end.

Definition is_asleep {frame : Type} (a : action frame) : bool :=
  match a with ASleep _ => true | _ => false end.

(** The popup handler starts with a wait of one second, and waits that long
    nowhere else. *)
Definition is_popup_entry {frame : Type} (a : action frame) : bool :=
  match a with WaitForTimeout ms => ms =? 1000 | _ => false end.

(** The selectors clicked, in order, with the time allowed. *)
Fixpoint clicks {frame : Type} (t : list (action frame))
  : list (string * option Z) :=
  match t with
  | [] => []
  | Click sel tm :: rest => (sel, tm) :: clicks rest
  | _ :: rest => clicks rest
  end.

Definition tally {frame : Type} (p : action frame -> bool)
    (t : list (action frame)) : nat := length (filter p t).

Section WithPage.

Variable St : Type.
Variable frame : Type.
Variable page_goto : string -> string -> St -> outcome unit * St.
Variable click : string -> option Z -> St -> outcome unit * St.
Variable wait_for_load_state : string -> St -> outcome unit * St.
Variable wait_for_timeout : Z -> St -> outcome unit * St.
Variable is_visible : string -> Z -> St -> outcome bool * St.
Variable keyboard_press : string -> St -> outcome unit * St.
Variable select_option : string -> string -> St -> outcome unit * St.
Variable page_frames : St -> list frame * St.
Variable query_selector : frame -> string -> St -> outcome bool * St.
Variable wait_for_function : option frame -> Z -> St -> outcome unit * St.
Variable eval_on_selector_all :
  option frame -> string -> St -> outcome (list Topology.dom_option) * St.

Definition B (A : Type) : Type := St -> A * St * list (action frame).

Definition ret {A : Type} (a : A) : B A := fun s => (a, s, []).

Definition bind {A C : Type} (m : B A) (k : A -> B C) : B C :=
  fun s =>
    let '(a, s1, t1) := m s in
    let '(b, s2, t2) := k a s1 in
    (b, s2, t1 ++ t2).

Definition call {A : Type} (a : action frame) (op : St -> A * St) : B A :=
  fun s => let '(x, s1) := op s in (x, s1, [a]).

Definition emit (a : action frame) : B unit := fun s => (tt, s, [a]).

Notation "x <- m ;; k" := (bind m (fun x => k))
  (at level 61, m at next level, right associativity).
Notation "m ;; k" := (bind m (fun _ => k))
  (at level 61, right associativity).

Definition logger (l : level) (msg : string) : B unit := emit (ALog (LogRecord l msg)).

Definition print (line : string) : B unit := emit (APrint line).

(** Lines 59-68: the loop over the popup selectors; [after] is what
    follows the loop. An exception anywhere in the body goes on with the
    next selector. *)
Fixpoint probe_popups (selectors : list string) (after : B (option bool))
  : B (option bool) :=
  match selectors with
  | [] => after
  | selector :: rest =>
      v <- call (IsVisible selector 1000) (is_visible selector 1000) ;;
      match v with
      | Raise _ => probe_popups rest after
      | Ok false => probe_popups rest after
      | Ok true =>
          c <- call (Click selector None) (click selector None) ;;
          match c with
          | Raise _ => probe_popups rest after
          | Ok _ =>
              logger INFO ("Dismissed popup using selector: " ++ selector)%string ;;
              w <- call (WaitForTimeout 500) (wait_for_timeout 500) ;;
              match w with
              | Raise _ => probe_popups rest after
              | Ok _ => ret (Some true)
              end
          end
      end
  end.

(** Lines 71-78: the Escape key as the last resort. *)
Definition press_escape : B (option bool) :=
  p <- call (Press "Escape") (keyboard_press "Escape") ;;
  match p with
  | Raise _ => ret tt
  | Ok _ =>
      logger INFO " Pressed Escape to dismiss popup" ;;
      _ <- call (WaitForTimeout 500) (wait_for_timeout 500) ;;
      ret tt
  end ;;
  logger DEBUG "No popup detected or already dismissed" ;;
  ret None.

(** [handle_popup_if_present]: [Some true] for [True], [None] when the
    function ends without a [return]. *)
Definition handle_popup_if_present : B (option bool) :=
  w <- call (WaitForTimeout 1000) (wait_for_timeout 1000) ;;
  match w with
  | Raise e =>
      logger DEBUG ("Popup handling error (non-critical): " ++ str_of_exn e)%string ;;
      ret None
  | Ok _ => probe_popups popup_selectors press_escape
  end.

(** Lines 19-35: the loop over the candidate selectors, then the code
    after it. The check mark that opens the first log line is left out. *)
Fixpoint try_case_status (selectors : list string) : B bool :=
  match selectors with
  | [] =>
      logger INFO
        "Proceeding with loaded page (could not click explicit Case Status link)" ;;
      _ <- handle_popup_if_present ;;
      ret true
  | sel :: rest =>
      c <- call (Click sel (Some 2000)) (click sel (Some 2000)) ;;
      match c with
      | Raise _ => try_case_status rest
      | Ok _ =>
          logger INFO (" Clicked Case Status link using " ++ sel)%string ;;
          l <- call (WaitForLoadState "networkidle")
                    (wait_for_load_state "networkidle") ;;
          match l with
          | Raise _ => try_case_status rest
          | Ok _ =>
              _ <- handle_popup_if_present ;;
              ret true
          end
      end
  end.

(** [open_case_status_page] *)
Definition open_case_status_page : B bool := try_case_status case_status_selectors.

(** config.py *)
Definition BASE_URL : string := "https://hcservices.ecourts.gov.in/hcservices/main.php".

(** [ECourtsScraper.initialize] (main.py, lines 47-65). *)
Definition initialize : B bool :=
  let failed e :=
    logger ERROR (" Failed to initialize scraper: " ++ str_of_exn e)%string ;;
    ret false in
  logger INFO (" Initializing scraper - navigating to " ++ BASE_URL)%string ;;
  g <- call (Goto BASE_URL "networkidle") (page_goto BASE_URL "networkidle") ;;
  match g with
  | Raise e => failed e
  | Ok _ =>
      w <- call (WaitForTimeout 2000) (wait_for_timeout 2000) ;;
      match w with
      | Raise e => failed e
      | Ok _ =>
          success <- open_case_status_page ;;
          if negb success then
            logger ERROR " Failed to open Case Status section" ;;
            ret false
          else
            logger INFO " Successfully initialized scraper" ;;
            ret true
      end
  end.

(** Lines 126-132: the first frame of the list in which the bench selector
    is found; a frame whose query raises is passed over. *)
Fixpoint find_bench_frame (frames : list frame) : B (option frame) :=
  match frames with
  | [] => ret None
  | f :: rest =>
      q <- call (QuerySelector f "#court_complex_code")
                (query_selector f "#court_complex_code") ;;
      match q with
      | Ok true => ret (Some f)
      | Ok false => find_bench_frame rest
      | Raise _ => find_bench_frame rest
      end
  end.

(** Lines 125-135: [for attempt in range(10)]. *)
Fixpoint poll_bench_frame (attempts : list Z) : B (option frame) :=
  match attempts with
  | [] => ret None
  | _ :: rest =>
      frames <- call Frames page_frames ;;
      bench_frame <- find_bench_frame frames ;;
      match bench_frame with
      | Some f => ret (Some f)
      | None => emit (ASleep 1) ;; poll_bench_frame rest
      end
  end.

(** [enumerate_benches]; an exception of [select_option] is not caught. *)
Definition enumerate_benches (court_value : string)
  : B (outcome (list Topology.entry)) :=
  sel <- call (SelectOption "#sess_state_code" court_value)
              (select_option "#sess_state_code" court_value) ;;
  match sel with
  | Raise e => ret (Raise e)
  | Ok _ =>
      print ("Selected High Court value: " ++ court_value)%string ;;
      target <- poll_bench_frame (range 10) ;;
      w <- call (WaitForFunction target 20000) (wait_for_function target 20000) ;;
      match w with
      | Raise _ =>
          print " Timeout waiting for bench dropdown to populate" ;;
          ret (Ok [])
      | Ok _ =>
          o <- call (EvalOnSelectorAll target "#court_complex_code option")
                    (eval_on_selector_all target "#court_complex_code option") ;;
          match o with
          | Raise e =>
              print ("Failed to extract benches: " ++ str_of_exn e)%string ;;
              ret (Ok [])
          | Ok opts =>
              let benches :=
                filter Topology.bench_option_kept (Topology.eval_options opts) in
              print (" Found " ++ str_of_int (Z.of_nat (length benches))
                       ++ " benches for court value " ++ court_value)%string ;;
              ret (Ok benches)
          end
      end
  end.

End WithPage.

(** A page for concrete runs: the state is the list of visible selectors;
    clicking a selector hides it, and no call raises. *)
Module Calm.

Definition shows (sel : string) (s : list string) : bool :=
  existsb (String.eqb sel) s.

Definition click (sel : string) (_ : option Z) (s : list string)
  : outcome unit * list string :=
  if shows sel s then (Ok tt, filter (fun x => negb (String.eqb sel x)) s)
  else (Raise (OtherException "Timeout 2000ms exceeded."), s).

Definition wait_for_load_state (_ : string) (s : list string)
  : outcome unit * list string := (Ok tt, s).

Definition page_goto (_ _ : string) (s : list string)
  : outcome unit * list string := (Ok tt, s).

Definition wait_for_timeout (_ : Z) (s : list string)
  : outcome unit * list string := (Ok tt, s).

Definition is_visible (sel : string) (_ : Z) (s : list string)
  : outcome bool * list string := (Ok (shows sel s), s).

Definition keyboard_press (_ : string) (s : list string)
  : outcome unit * list string := (Ok tt, s).

Definition select_option (_ _ : string) (s : list string)
  : outcome unit * list string := (Ok tt, s).

(** Two frames, numbered; the bench selector lives in frame 1. *)
Definition page_frames (s : list string) : list nat * list string := ([0; 1]%nat, s).

Definition query_selector (f : nat) (_ : string) (s : list string)
  : outcome bool * list string := (Ok (Nat.eqb f 1), s).

(** The same frames when the bench selector is in none of them. *)
Definition query_selector_absent (_ : nat) (_ : string) (s : list string)
  : outcome bool * list string := (Ok false, s).

Definition wait_for_function (_ : option nat) (_ : Z) (s : list string)
  : outcome unit * list string := (Ok tt, s).

Definition bench_options : list Topology.dom_option :=
  [Topology.DomOption "Select Bench" "";
   Topology.DomOption " Principal Bench " "1";
   Topology.DomOption "Circuit Bench" "2"].

Definition eval_on_selector_all (_ : option nat) (_ : string) (s : list string)
  : outcome (list Topology.dom_option) * list string := (Ok bench_options, s).

End Calm.

End Browser.

(* ================================================================== *)
(** ** The database manager and its global (database.py, main.py)      *)
(* ================================================================== *)

Module Store.

(** The SQL statements of the module, by what they do. *)
Inductive statement : Type :=
| CreateTable (name : string)
| CreateIndex (name : string)
| InsertCase (record : result_row)
| InsertSearchLog (row : search_log).

(** What is asked of psycopg, and what is logged, in program order. *)
Inductive db_action (conn : Type) : Type :=
| DLog (r : log_record)
| ImportPsycopg
| Connect (conn_str : string)
| Cursor (c : conn)
| Execute (c : conn) (st : statement)
| Commit (c : conn)
| Close (c : conn).

Arguments DLog {conn} r.
Arguments ImportPsycopg {conn}.
Arguments Connect {conn} conn_str.
Arguments Cursor {conn} c.
Arguments Execute {conn} c st.
Arguments Commit {conn} c.
Arguments Close {conn} c.

Definition is_execute {conn : Type} (a : db_action conn) : bool :=
  match a with Execute _ _ => true | _ => false end.

Definition is_commit {conn : Type} (a : db_action conn) : bool :=
  match a with Commit _ => true | _ => false end.

Definition is_connect {conn : Type} (a : db_action conn) : bool :=
  match a with Connect _ => true | _ => false end.

Definition is_dlog {conn : Type} (a : db_action conn) : bool :=
  match a with DLog _ => true | _ => false end.

Definition tally {conn : Type} (p : db_action conn -> bool)
    (t : list (db_action conn)) : nat := length (filter p t).

Section WithServer.

(** The database server behind psycopg. *)
Variable St : Type.
Variable conn : Type.
Variable import_psycopg : St -> outcome unit * St.
Variable psycopg_connect : string -> St -> outcome conn * St.
Variable connection_cursor : conn -> St -> outcome unit * St.
Variable cursor_execute : conn -> statement -> St -> outcome unit * St.
Variable connection_commit : conn -> St -> outcome unit * St.
Variable connection_close : conn -> St -> outcome unit * St.

(** config.py *)
Variables (DB_HOST DB_NAME DB_USER DB_PASS : string) (DB_PORT : Z).

(** The global [_db_manager]: [None], or the one [DatabaseManager] with its
    [connection] attribute. *)
Definition global : Type := option (option conn).

Definition D (A : Type) : Type :=
  global * St -> A * (global * St) * list (db_action conn).

Definition ret {A : Type} (a : A) : D A := fun s => (a, s, []).

Definition bind {A C : Type} (m : D A) (k : A -> D C) : D C :=
  fun s =>
    let '(a, s1, t1) := m s in
    let '(b, s2, t2) := k a s1 in
    (b, s2, t1 ++ t2).

Definition call {A : Type} (a : db_action conn) (op : St -> A * St) : D A :=
  fun s => let '(x, s1) := op (snd s) in (x, (fst s, s1), [a]).

Definition emit (a : db_action conn) : D unit := fun s => (tt, s, [a]).

Definition get_manager : D global := fun s => (fst s, s, []).

Definition set_manager (g : global) : D unit := fun s => (tt, (g, snd s), []).

Notation "x <- m ;; k" := (bind m (fun x => k))
  (at level 61, m at next level, right associativity).
Notation "m ;; k" := (bind m (fun _ => k))
  (at level 61, right associativity).

Definition logger (l : level) (msg : string) : D unit := emit (DLog (LogRecord l msg)).

(** [self.connection.cursor()]: an [AttributeError] without a connection. *)
Definition self_cursor (connection : option conn) : D (outcome conn) :=
  match connection with
  | None =>
      ret (Raise (OtherException "'NoneType' object has no attribute 'cursor'"))
  | Some c =>
      r <- call (Cursor c) (connection_cursor c) ;;
      match r with
      | Raise e => ret (Raise e)
      | Ok _ => ret (Ok c)
      end
  end.

Definition conn_str : string :=
  "host=" ++ DB_HOST ++ " port=" ++ str_of_int DB_PORT ++ " dbname=" ++ DB_NAME
    ++ " user=" ++ DB_USER ++ " password=" ++ DB_PASS.

(** [DatabaseManager.connect], on the manager held by the global. *)
Definition connect : D (outcome unit) :=
  let failed e :=
    logger ERROR (" Failed to connect to database: " ++ str_of_exn e)%string ;;
    ret (Raise e) in
  i <- call ImportPsycopg import_psycopg ;;
  match i with
  | Raise _ =>
      failed (OtherException
                "psycopg is required for PostgreSQL. Install with 'pip install psycopg[binary]'")
  | Ok _ =>
      c <- call (Connect conn_str) (psycopg_connect conn_str) ;;
      match c with
      | Raise e => failed e
      | Ok c =>
          set_manager (Some (Some c)) ;;
          logger INFO (" Connected to PostgreSQL database: " ++ DB_NAME ++ " @ "
                         ++ DB_HOST ++ ":" ++ str_of_int DB_PORT)%string ;;
          ret (Ok tt)
      end
  end.

(** The statements of [init_tables], in order. *)
Definition schema : list statement :=
  [CreateTable "cases"; CreateTable "search_logs";
   CreateIndex "idx_cases_court_bench"; CreateIndex "idx_cases_search";
   CreateIndex "idx_cases_scraped_at"].

Fixpoint execute_all (c : conn) (sts : list statement) : D (outcome unit) :=
  match sts with
  | [] => ret (Ok tt)
  | st :: rest =>
      r <- call (Execute c st) (cursor_execute c st) ;;
      match r with
      | Raise e => ret (Raise e)
      | Ok _ => execute_all c rest
      end
  end.

(** [DatabaseManager.init_tables] *)
Definition init_tables (connection : option conn) : D (outcome unit) :=
  let failed e :=
    logger ERROR (" Failed to initialize database tables: " ++ str_of_exn e)%string ;;
    ret (Raise e) in
  cur <- self_cursor connection ;;
  match cur with
  | Raise e => failed e
  | Ok c =>
      r <- execute_all c schema ;;
      match r with
      | Raise e => failed e
      | Ok _ =>
          k <- call (Commit c) (connection_commit c) ;;
          match k with
          | Raise e => failed e
          | Ok _ =>
              logger INFO " PostgreSQL database tables initialized successfully" ;;
              ret (Ok tt)
          end
      end
  end.

(** [init_database]: the manager is stored in the global before it
    connects. *)
Definition init_database : D (outcome unit) :=
  g <- get_manager ;;
  match g with
  | Some _ => ret (Ok tt)
  | None =>
      set_manager (Some None) ;;
      c <- connect ;;
      match c with
      | Raise e => ret (Raise e)
      | Ok _ =>
          g <- get_manager ;;
          match g with
          | Some connection => init_tables connection
          | None => ret (Ok tt)
          end
      end
  end.

(** [DatabaseManager.insert_case_record]: the second argument of
    [cursor.execute] is the name [r], which is bound nowhere. *)
Definition manager_insert_case_record (connection : option conn)
    (record : result_row) : D bool :=
  let failed e :=
    logger ERROR (" Failed to insert case record: " ++ str_of_exn e)%string ;;
    ret false in
  cur <- self_cursor connection ;;
  match cur with
  | Raise e => failed e
  | Ok _ => failed (OtherException "name 'r' is not defined")
  end.

(** Module-level [insert_case_record] *)
Definition insert_case_record (record : result_row) : D bool :=
  g <- get_manager ;;
  match g with
  | None =>
      logger WARNING " Database not initialized, skipping record insertion" ;;
      ret false
  | Some connection => manager_insert_case_record connection record
  end.

(** [DatabaseManager.log_search] *)
Definition manager_log_search (connection : option conn) (row : search_log)
  : D bool :=
  let failed e :=
    logger ERROR (" Failed to log search: " ++ str_of_exn e)%string ;;
    ret false in
  cur <- self_cursor connection ;;
  match cur with
  | Raise e => failed e
  | Ok c =>
      r <- call (Execute c (InsertSearchLog row))
                (cursor_execute c (InsertSearchLog row)) ;;
      match r with
      | Raise e => failed e
      | Ok _ =>
          k <- call (Commit c) (connection_commit c) ;;
          match k with
          | Raise e => failed e
          | Ok _ => ret true
          end
      end
  end.

(** Module-level [log_search] *)
Definition log_search (row : search_log) : D bool :=
  g <- get_manager ;;
  match g with
  | None =>
      logger WARNING " Database not initialized, skipping search log" ;;
      ret false
  | Some connection => manager_log_search connection row
  end.

(** [close_database], with [DatabaseManager.disconnect] inside. *)
Definition close_database : D (outcome unit) :=
  g <- get_manager ;;
  match g with
  | None => ret (Ok tt)
  | Some connection =>
      d <- match connection with
           | None => ret (Ok tt)
           | Some c =>
               r <- call (Close c) (connection_close c) ;;
               match r with
               | Raise e => ret (Raise e)
               | Ok _ => logger INFO " Database connection closed" ;; ret (Ok tt)
               end
           end ;;
      match d with
      | Raise e => ret (Raise e)
      | Ok _ => set_manager None ;; ret (Ok tt)
      end
  end.

(** The loop of [ECourtsScraper.save_to_database] (main.py, line 122). *)
Fixpoint insert_all (case_results : list result_row) : D unit :=
  match case_results with
  | [] => ret tt
  | record :: rest => _ <- insert_case_record record ;; insert_all rest
  end.

(** [ECourtsScraper.save_to_database]: no call in the [try] raises, so the
    handler is never entered. *)
Definition save_to_database (case_results : list result_row) : D bool :=
  insert_all case_results ;; ret true.

End WithServer.

(** A server for concrete runs: connections are numbered, the state holds
    the statements executed so far, and a server that is [down] refuses
    connections. *)
Module Local.

Definition import_psycopg (s : list statement) : outcome unit * list statement :=
  (Ok tt, s).

Definition connect (down : bool) (_ : string) (s : list statement)
  : outcome nat * list statement :=
  if down then (Raise (OtherException "connection refused"), s) else (Ok 7%nat, s).

Definition cursor (_ : nat) (s : list statement) : outcome unit * list statement :=
  (Ok tt, s).

Definition execute (_ : nat) (st : statement) (s : list statement)
  : outcome unit * list statement := (Ok tt, s ++ [st]).

Definition commit (_ : nat) (s : list statement) : outcome unit * list statement :=
  (Ok tt, s).

Definition close (_ : nat) (s : list statement) : outcome unit * list statement :=
  (Ok tt, s).

Definition a_row : search_log :=
  SearchLog "Delhi" "Principal Bench" "party_name" "kumar" 2 true None.

End Local.

End Store.

(* ================================================================== *)
(** ** The comprehensive search (main.py, lines 114-194)               *)
(* ================================================================== *)

Module Driver.

(** The calls the search makes on the scraper, and what it logs. *)
Inductive step : Type :=
| SLog (r : log_record)
| GetCourts
| GetBenches (court_value court_name : string)
| Search (court_name court_value bench_value bench_name party_name : string)
| Save (case_results : list result_row).

Definition is_search (x : step) : bool :=
  match x with Search _ _ _ _ _ => true | _ => false end.

Definition is_save (x : step) : bool :=
  match x with Save _ => true | _ => false end.

Definition is_get_benches (x : step) : bool :=
  match x with GetBenches _ _ => true | _ => false end.

Definition tally (p : step -> bool) (t : list step) : nat := length (filter p t).

(** The courts whose benches were listed, in order, each as the pair
    [(court_value, court_name)] handed to [get_benches_for_court]. *)
Fixpoint bench_listings (t : list step) : list (string * string) :=
  match t with
  | [] => []
  | GetBenches court_value court_name :: rest =>
      (court_value, court_name) :: bench_listings rest
  | _ :: rest => bench_listings rest
  end.

(** The searches made, in order, each with its five arguments. *)
Fixpoint searches (t : list step)
  : list (string * string * string * string * string) :=
  match t with
  | [] => []
  | Search court_name court_value bench_value bench_name party_name :: rest =>
      (court_name, court_value, bench_value, bench_name, party_name)
        :: searches rest
  | _ :: rest => searches rest
  end.

(** Whether every search of [t] is for the party "kumar" in the court whose
    benches were listed last before it ([current], when none was listed in
    [t] yet), and every list saved has a record. *)
Fixpoint scoped (current : option (string * string)) (t : list step) : bool :=
  match t with
  | [] => true
  | SLog _ :: rest => scoped current rest
  | GetCourts :: rest => scoped None rest
  | GetBenches court_value court_name :: rest =>
      scoped (Some (court_value, court_name)) rest
  | Search court_name court_value _ _ party_name :: rest =>
      match current with
      | Some (v, n) =>
          String.eqb court_value v && String.eqb court_name n
          && String.eqb party_name "kumar" && scoped current rest
      | None => false
      end
  | Save case_results :: rest =>
      match case_results with
      | [] => false
      | _ :: _ => scoped current rest
      end
  end.

(** [c['value'] in target_court_values] *)
Definition target_court_values : list string := ["26"; "3"].

Definition is_target (c : Topology.entry) : bool :=
  existsb (String.eqb (Topology.value c)) target_court_values.

Section WithScraper.

(** The scraper's other methods, each with its own handler inside:
    the two listings return a list on every path, the search may raise,
    and saving returns a flag. *)
Variable St : Type.
Variable get_all_high_courts : St -> list Topology.entry * St.
Variable get_benches_for_court : string -> string -> St -> list Topology.entry * St.
Variable search_by_party_name :
  string -> string -> string -> string -> string -> St
  -> outcome (list result_row) * St.
Variable save_to_database : list result_row -> St -> bool * St.

(** [repr] of a list of strings, inside two of the log lines. *)
Variable repr_list : list string -> string.

Definition R (A : Type) : Type := St -> A * St * list step.

Definition ret {A : Type} (a : A) : R A := fun s => (a, s, []).

Definition bind {A C : Type} (m : R A) (k : A -> R C) : R C :=
  fun s =>
    let '(a, s1, t1) := m s in
    let '(b, s2, t2) := k a s1 in
    (b, s2, t1 ++ t2).

Definition call {A : Type} (x : step) (op : St -> A * St) : R A :=
  fun s => let '(a, s1) := op s in (a, s1, [x]).

Definition emit (x : step) : R unit := fun s => (tt, s, [x]).

Notation "x <- m ;; k" := (bind m (fun x => k))
  (at level 61, m at next level, right associativity).
Notation "m ;; k" := (bind m (fun _ => k))
  (at level 61, right associativity).

Definition logger (l : level) (msg : string) : R unit := emit (SLog (LogRecord l msg)).

(** [ECourtsScraper.perform_search]: keyword arguments, handed on by
    position with the bench value before the bench name. *)
Definition perform_search (court_name court_value bench_name bench_value
                             party_name : string)
  : R (outcome (list result_row)) :=
  call (Search court_name court_value bench_value bench_name party_name)
       (search_by_party_name court_name court_value bench_value bench_name
          party_name).

(** Lines 164-189: the loop over the benches of one court; the value is
    [total_cases]. *)
Fixpoint search_benches (court_name court_value : string)
    (benches : list Topology.entry) (total_cases : Z) : R Z :=
  match benches with
  | [] => ret total_cases
  | bench :: rest =>
      let bench_name := Topology.text bench in
      let bench_value := Topology.value bench in
      logger INFO ("    Searching in bench: " ++ bench_name)%string ;;
      let search_party_name := "kumar" in
      r <- perform_search court_name court_value bench_name bench_value
             search_party_name ;;
      match r with
      | Raise e =>
          logger ERROR ("Error during search in " ++ bench_name ++ ": "
                          ++ str_of_exn e)%string ;;
          search_benches court_name court_value rest total_cases
      | Ok case_results =>
          match case_results with
          | _ :: _ =>
              let total_cases := total_cases + Z.of_nat (length case_results) in
              _ <- call (Save case_results) (save_to_database case_results) ;;
              logger INFO (" " ++ str_of_int (Z.of_nat (length case_results))
                             ++ " cases saved for " ++ bench_name)%string ;;
              search_benches court_name court_value rest total_cases
          | [] =>
              logger INFO (" No results found for " ++ bench_name)%string ;;
              search_benches court_name court_value rest total_cases
          end
      end
  end.

(** Lines 150-191: the loop over the courts kept; the value is
    [(total_processed, total_cases)]. *)
Fixpoint process_courts (courts : list Topology.entry)
    (total_processed total_cases : Z) : R (Z * Z) :=
  match courts with
  | [] => ret (total_processed, total_cases)
  | court :: rest =>
      let court_name := Topology.text court in
      let court_value := Topology.value court in
      logger INFO (" Processing court: " ++ court_name ++ " (value: "
                     ++ court_value ++ ")")%string ;;
      benches <- call (GetBenches court_value court_name)
                      (get_benches_for_court court_value court_name) ;;
      logger INFO ("Benches found: " ++ str_of_int (Z.of_nat (length benches))
                     ++ " for " ++ court_name)%string ;;
      match benches with
      | [] =>
          logger WARNING (" No benches found for " ++ court_name
                            ++ ", skipping...")%string ;;
          process_courts rest total_processed total_cases
      | _ :: _ =>
          total_cases <- search_benches court_name court_value benches total_cases ;;
          process_courts rest (total_processed + 1) total_cases
      end
  end.

(** [ECourtsScraper.run_comprehensive_search]; it returns nothing. *)
Definition run_comprehensive_search : R unit :=
  logger INFO "Starting comprehensive search..." ;;
  courts <- call GetCourts get_all_high_courts ;;
  logger INFO ("Total courts found: " ++ str_of_int (Z.of_nat (length courts)))%string ;;
  let filtered_courts := filter is_target courts in
  match filtered_courts with
  | [] =>
      logger ERROR
        "No matching courts found for Delhi/Karnataka! Check dropdown names or values." ;;
      logger INFO ("Available courts: " ++ repr_list (map Topology.text courts))%string ;;
      ret tt
  | _ :: _ =>
      logger INFO ("Courts to process: "
                     ++ repr_list (map Topology.text filtered_courts))%string ;;
      totals <- process_courts filtered_courts 0 0 ;;
      logger INFO ("Courts processed: " ++ str_of_int (fst totals))%string ;;
      logger INFO ("Total case results collected: " ++ str_of_int (snd totals))%string ;;
      ret tt
  end.

End WithScraper.

(** A scraper for concrete runs: the state counts the calls. *)
Module Toy.

Definition courts : list Topology.entry :=
  [Topology.Entry "3" "High Court of Karnataka";
   Topology.Entry "7" "Gauhati High Court";
   Topology.Entry "26" "High Court of Delhi"].

Definition get_all_high_courts (s : nat) : list Topology.entry * nat := (courts, S s).

Definition get_benches_for_court (court_value _ : string) (s : nat)
  : list Topology.entry * nat :=
  if String.eqb court_value "26" then ([Topology.Entry "1" "Principal Bench"], S s)
  else ([], S s).

Definition search_by_party_name (_ _ _ _ _ : string) (s : nat)
  : outcome (list result_row) * nat := (Ok Scripted.parsed_rows, S s).

Definition save_to_database (_ : list result_row) (s : nat) : bool * nat :=
  (true, S s).

Definition repr_list (l : list string) : string := String.concat ", " l.

Definition run :=
  run_comprehensive_search get_all_high_courts get_benches_for_court
    search_by_party_name save_to_database repr_list 0%nat.

End Toy.

End Driver.

(* ================================================================== *)
(** * Properties                                                       *)
(* ================================================================== *)

Unset Implicit Arguments.

(** ** The CAPTCHA resolver *)

Section CaptchaFacts.

Variable image : Type.
Variable Image_open : bytes -> outcome image.
Variable convert : image -> string -> outcome image.
Variable image_to_string : image -> string -> outcome string.

Local Abbreviation ocr :=
  (Captcha.solve_captcha_from_bytes Image_open convert image_to_string).
Local Abbreviation hybrid :=
  (Captcha.hybrid_solve_captcha Image_open convert image_to_string).
Local Abbreviation raw :=
  (Captcha.ocr_raw_text Image_open convert image_to_string).

(** The OCR strategy answers exactly when the engine printed a text whose
    cleaned form has four characters or more. *)
Lemma ocr_answer (image_bytes : bytes) :
  snd (ocr image_bytes) =
  match raw image_bytes with
  | Some t => if len (Captcha.clean t) >=? 4 then Some (Captcha.clean t) else None
  | None => None
  end.
Proof.
  unfold Captcha.solve_captcha_from_bytes, Captcha.ocr_raw_text.
  destruct (Image_open image_bytes) as [img|e]; [|reflexivity].
  destruct (convert img "L") as [img'|e]; [|reflexivity].
  destruct (image_to_string _ _) as [t|e]; [|reflexivity].
  destruct (len (Captcha.clean t) >=? 4); reflexivity.
Qed.

(** An accepted OCR text is truthy: it has at least four characters. *)
Lemma ocr_some_long (image_bytes : bytes) (s : string) :
  snd (ocr image_bytes) = Some s -> 4 <= len s.
Proof.
  rewrite ocr_answer.
  destruct (raw image_bytes) as [t|]; [|discriminate].
  destruct (len (Captcha.clean t) >=? 4) eqn:E; [|discriminate].
  intros H; inversion H; subst. lia.
Qed.

Lemma len_truthy (s : string) : 1 <= len s -> truthy s = true.
Proof. destruct s; [unfold len; simpl; lia | reflexivity]. Qed.

(** The hybrid resolver answers with the OCR text when there is one and
    with the fallback's answer otherwise. *)
Lemma hybrid_answer (image_bytes : bytes) :
  snd (hybrid image_bytes) =
  match snd (ocr image_bytes) with
  | Some s => Some s
  | None => snd (Captcha.solve_manual_captcha image_bytes)
  end.
Proof.
  unfold Captcha.hybrid_solve_captcha.
  pose proof (ocr_some_long image_bytes) as Hlong.
  destruct (Captcha.solve_captcha_from_bytes _ _ _ image_bytes) as [l1 [s|]];
    simpl in *.
  - rewrite len_truthy; [reflexivity|]. specialize (Hlong s eq_refl). lia.
  - reflexivity.
Qed.

End CaptchaFacts.

(** C6. Whatever the image, when the cleaned OCR output has fewer than four
    characters the OCR strategy returns no result and the hybrid resolver
    answers with the fallback strategy; both answers are the ones given
    when the OCR engine prints nothing at all (an empty text, or an
    exception). *)
Theorem short_ocr_output_is_no_output
    (image : Type) (Image_open : bytes -> outcome image)
    (convert : image -> string -> outcome image)
    (image_to_string : image -> string -> outcome string)
    (image_bytes : bytes) (t : string) :
  Captcha.ocr_raw_text Image_open convert image_to_string image_bytes = Some t ->
  len (Captcha.clean t) < 4 ->
  snd (Captcha.solve_captcha_from_bytes Image_open convert image_to_string image_bytes)
    = None
  /\ snd (Captcha.hybrid_solve_captcha Image_open convert image_to_string image_bytes)
     = snd (Captcha.solve_manual_captcha image_bytes)
  /\ forall (image' : Type) (Image_open' : bytes -> outcome image')
            (convert' : image' -> string -> outcome image')
            (image_to_string' : image' -> string -> outcome string),
       (Captcha.ocr_raw_text Image_open' convert' image_to_string' image_bytes = None
        \/ Captcha.ocr_raw_text Image_open' convert' image_to_string' image_bytes
           = Some "") ->
       snd (Captcha.solve_captcha_from_bytes Image_open' convert' image_to_string'
              image_bytes)
       = snd (Captcha.solve_captcha_from_bytes Image_open convert image_to_string
                image_bytes)
       /\ snd (Captcha.hybrid_solve_captcha Image_open' convert' image_to_string'
                 image_bytes)
          = snd (Captcha.hybrid_solve_captcha Image_open convert image_to_string
                   image_bytes).
Proof.
  intros Hraw Hshort.
  assert (Hocr : snd (Captcha.solve_captcha_from_bytes Image_open convert
                        image_to_string image_bytes) = None).
  { rewrite ocr_answer, Hraw.
    destruct (Z.geb_spec (len (Captcha.clean t)) 4); [lia | reflexivity]. }
  split; [exact Hocr|].
  split; [rewrite hybrid_answer, Hocr; reflexivity|].
  intros image' Image_open' convert' image_to_string' Hnone.
  assert (Hocr' : snd (Captcha.solve_captcha_from_bytes Image_open' convert'
                         image_to_string' image_bytes) = None).
  { rewrite ocr_answer. destruct Hnone as [-> | ->]; reflexivity. }
  split; [congruence|].
  rewrite !hybrid_answer, Hocr, Hocr'. reflexivity.
Qed.

(** An engine reading ["ab"] followed by a line feed and a form feed: the
    cleaned text has two characters. *)
Lemma short_ocr_output_is_no_output_witness :
  let printed := String "a" (String "b" (String "010" (String "012" EmptyString))) in
  Captcha.ocr_raw_text Scripted.engine_open Scripted.engine_convert
    (Scripted.engine_reads printed) [Byte.x01] = Some printed
  /\ len (Captcha.clean printed) < 4
  /\ snd (Captcha.solve_captcha_from_bytes Scripted.engine_open
            Scripted.engine_convert (Scripted.engine_reads printed) [Byte.x01])
     = None
  /\ snd (Captcha.hybrid_solve_captcha Scripted.engine_open Scripted.engine_convert
            (Scripted.engine_reads printed) [Byte.x01])
     = Some "1234"
  /\ snd (Captcha.hybrid_solve_captcha Scripted.engine_broken
            Scripted.engine_convert (Scripted.engine_reads printed) [Byte.x01])
     = snd (Captcha.hybrid_solve_captcha Scripted.engine_open
              Scripted.engine_convert (Scripted.engine_reads printed) [Byte.x01]).
Proof.
  intros printed.
  assert (Hshort : len (Captcha.clean printed) < 4) by (vm_compute; reflexivity).
  split; [reflexivity|]. split; [exact Hshort|].
  pose proof (short_ocr_output_is_no_output
                bytes Scripted.engine_open Scripted.engine_convert
                (Scripted.engine_reads printed) [Byte.x01] printed eq_refl Hshort)
    as [Hocr [Hhyb Hsame]].
  split; [exact Hocr|]. split; [exact Hhyb|].
  exact (proj2 (Hsame bytes Scripted.engine_broken Scripted.engine_convert
                  (Scripted.engine_reads printed) (or_introl eq_refl))).
Defined.

(** C9. The hybrid resolver always returns a text, of at least four
    characters, hence non-empty; the record of the total-failure branch is
    never logged. *)
Theorem hybrid_resolver_always_answers
    (image : Type) (Image_open : bytes -> outcome image)
    (convert : image -> string -> outcome image)
    (image_to_string : image -> string -> outcome string)
    (image_bytes : bytes) :
  (exists s : string,
      snd (Captcha.solve_captcha Image_open convert image_to_string image_bytes)
      = Some s
      /\ s <> "" /\ 4 <= len s)
  /\ ~ In (LogRecord ERROR "Both OCR and manual CAPTCHA solving failed")
          (fst (Captcha.solve_captcha Image_open convert image_to_string
                  image_bytes)).
Proof.
  split.
  - unfold Captcha.solve_captcha. rewrite hybrid_answer.
    destruct (snd (Captcha.solve_captcha_from_bytes _ _ _ image_bytes))
      as [s|] eqn:E.
    + exists s. apply ocr_some_long in E.
      repeat split; [|exact E]. intros ->. unfold len in E. simpl in E. lia.
    + exists "1234". repeat split; [discriminate | unfold len; simpl; lia].
  - unfold Captcha.solve_captcha, Captcha.hybrid_solve_captcha.
    pose proof (ocr_some_long _ Image_open convert image_to_string image_bytes)
      as Hlong.
    assert (Hlog : forall r,
               In r (fst (Captcha.solve_captcha_from_bytes Image_open convert
                            image_to_string image_bytes)) ->
               r <> LogRecord ERROR "Both OCR and manual CAPTCHA solving failed").
    { unfold Captcha.solve_captcha_from_bytes.
      destruct (Image_open image_bytes) as [img|e];
        [destruct (convert img "L") as [img'|e];
         [destruct (image_to_string _ _) as [t|e];
          [destruct (len (Captcha.clean t) >=? 4)|]|]|];
        simpl; intros r [<-|[]]; discriminate. }
    destruct (Captcha.solve_captcha_from_bytes _ _ _ image_bytes) as [l1 [s|]];
      simpl in *.
    + rewrite len_truthy by (specialize (Hlong s eq_refl); lia).
      simpl. intros [H|H]; [discriminate|].
      apply in_app_or in H. destruct H as [H|[H|[]]];
        [exact (Hlog _ H eq_refl) | discriminate].
    + simpl. intros [H|H]; [discriminate|].
      apply in_app_or in H. destruct H as [H|H]; [exact (Hlog _ H eq_refl)|].
      simpl in H. destruct H as [H|[H|[H|[]]]]; discriminate.
Qed.

(** ** The record sink *)

(** A call of [log_search] is one search-outcome event, with or without a
    database behind it. *)
Lemma log_search_is_one_event
    (db : option (search_log -> outcome unit)) (row : search_log) :
  count is_log_search (fst (Database.log_search db row)) = 1%nat.
Proof.
  unfold Database.log_search, Database.manager_log_search, count.
  destruct db as [insert|]; [|reflexivity].
  destruct (insert row); reflexivity.
Qed.

(** ** Dropdown enumeration *)

(** The court listing keeps an option only when its value is present, not
    blank, and not ["0"]. *)
Lemma collect_courts_kept (options : list Topology.option_locator) :
  forall (courts : list Topology.entry) (e : Topology.entry),
    In e (Topology.collect_courts options courts) ->
    In e courts
    \/ exists (opt : Topology.option_locator) (v : string),
        In opt options
        /\ Topology.get_attribute_value opt = Some v
        /\ strip v <> "" /\ v <> "0"
        /\ e = Topology.Entry (strip v) (strip (Topology.inner_text opt)).
Proof.
  induction options as [|opt rest IH]; intros courts e Hin; simpl in Hin.
  - left; exact Hin.
  - destruct (Topology.court_option_kept (Topology.get_attribute_value opt)) eqn:K.
    + destruct (Topology.get_attribute_value opt) as [v|] eqn:V; [|discriminate].
      apply IH in Hin. destruct Hin as [Hin | (o & w & Ho & Hv & Hrest)].
      * apply in_app_or in Hin. destruct Hin as [Hin | [<- | []]].
        -- left; exact Hin.
        -- right. exists opt, v. simpl in K.
           apply andb_prop in K. destruct K as [K K0].
           apply andb_prop in K. destruct K as [_ K1].
           split; [left; reflexivity|]. split; [exact V|].
           split; [intros E; rewrite E in K1; discriminate|].
           split; [intros E; subst v; discriminate | reflexivity].
      * right. exists o, w. split; [right; exact Ho | split; assumption].
    + apply IH in Hin. destruct Hin as [Hin | (o & w & Ho & Hrest)].
      * left; exact Hin.
      * right. exists o, w. split; [right; exact Ho | exact Hrest].
Qed.


(** C4. Two sentinel options that are listed: a court option with the value
    ["5"] and the text ["Select High Court"] stays in the court listing
    (which never looks at the text), and a bench option with the value
    ["0"] and the text ["Principal Bench"] stays in the bench listing
    (which never compares the value with ["0"]). *)
Theorem sentinel_options_listed :
  Topology.sentinel (Topology.Entry "5" "Select High Court") = true
  /\ snd (Topology.enumerate_high_courts
            (Ok (Topology.CourtSelect true
                   [Topology.OptionLocator (Some "0") "Select High Court";
                    Topology.OptionLocator (Some "5") "Select High Court";
                    Topology.OptionLocator (Some "26") "High Court of Delhi"])))
     = [Topology.Entry "5" "Select High Court";
        Topology.Entry "26" "High Court of Delhi"]
  /\ Topology.sentinel (Topology.Entry "0" "Principal Bench") = true
  /\ Topology.enumerate_benches
       (Topology.BenchTarget (Ok tt)
          (Ok [Topology.DomOption "Select Bench" "";
               Topology.DomOption " Principal Bench " "0";
               Topology.DomOption "Circuit Bench" "2"]))
     = [Topology.Entry "0" "Principal Bench"; Topology.Entry "2" "Circuit Bench"].
Proof. repeat split. Qed.

(** ** The search-and-extract protocol *)

(** *** Parsing the results table *)

(** A row with fewer than four cells raises [IndexError]; no dict is built. *)
Lemma row_dict_short (row : node) :
  short_row row = true ->
  row_dict row = Raise (IndexError "list index out of range").
Proof.
  unfold short_row, row_dict. intros H. apply Nat.ltb_lt in H.
  destruct (select "td" row) as [|c0 [|c1 [|c2 [|c3 l]]]]; simpl in *;
    try reflexivity; lia.
Qed.

(** A row that gives a dict has four cells at least. *)
Lemma row_dict_ok (row : node) (d : result_row) :
  row_dict row = Ok d -> short_row row = false.
Proof.
  intros H. destruct (short_row row) eqn:E; [|reflexivity].
  rewrite (row_dict_short _ E) in H. discriminate.
Qed.

Lemma row_dict_raises_index_error (row : node) (e : exn) :
  row_dict row = Raise e -> e = IndexError "list index out of range".
Proof.
  unfold row_dict.
  destruct (select "td" row) as [|c0 [|c1 [|c2 [|c3 l]]]]; simpl;
    intros H; inversion H; reflexivity.
Qed.

Lemma extract_rows_short (rows : list node) :
  existsb short_row rows = true ->
  forall results,
    extract_rows rows results = Raise (IndexError "list index out of range").
Proof.
  induction rows as [|row rest IH]; simpl; [discriminate|].
  intros H results. destruct (row_dict row) as [d|e] eqn:E.
  - rewrite (row_dict_ok _ _ E) in H. simpl in H. apply IH; exact H.
  - rewrite (row_dict_raises_index_error _ _ E). reflexivity.
Qed.

Lemma extract_rows_ok (rows : list node) :
  forall acc results,
    extract_rows rows acc = Ok results ->
    exists ds, results = acc ++ ds
               /\ Forall2 (fun row d => row_dict row = Ok d) rows ds.
Proof.
  induction rows as [|row rest IH]; simpl; intros acc results H.
  - inversion H; subst. exists []. rewrite app_nil_r. split; constructor.
  - destruct (row_dict row) as [d|e] eqn:E; [|discriminate].
    apply IH in H. destruct H as (ds & -> & HF).
    exists (d :: ds). rewrite <- app_assoc. split; [reflexivity|].
    constructor; assumption.
Qed.

(** A table with a short data row does not parse. *)
Lemma parse_short (results_table : node) :
  has_short_data_row results_table = true ->
  parse_results_table results_table = Raise (IndexError "list index out of range").
Proof. intros H. apply extract_rows_short. exact H. Qed.

(** A table that parses gives one dict per data row, each from a row with
    four cells or more. *)
Lemma parse_ok (results_table : node) (results : list result_row) :
  parse_results_table results_table = Ok results ->
  has_short_data_row results_table = false
  /\ Forall2 (fun row d => short_row row = false /\ row_dict row = Ok d)
       (skipn 1 (select "tr" results_table)) results.
Proof.
  intros H. split.
  - destruct (has_short_data_row results_table) eqn:E; [|reflexivity].
    rewrite (parse_short _ E) in H. discriminate.
  - apply extract_rows_ok in H. destruct H as (ds & -> & HF).
    rewrite app_nil_l. revert HF. apply Forall2_impl.
    intros row d E. split; [exact (row_dict_ok _ _ E) | exact E].
Qed.

(** A table with its header row only parses to the empty list. *)
Lemma parse_header_only (results_table header : node) :
  select "tr" results_table = [header] ->
  parse_results_table results_table = Ok [].
Proof. unfold parse_results_table. intros ->. reflexivity. Qed.

(** A row with four cells or more gives its dict. *)
Lemma row_dict_long (row : node) :
  short_row row = false -> exists d, row_dict row = Ok d.
Proof.
  unfold short_row, row_dict. intros H. apply Nat.ltb_ge in H.
  destruct (select "td" row) as [|c0 [|c1 [|c2 [|c3 l]]]]; simpl in *; try lia.
  eexists. reflexivity.
Qed.

(** Rows with four cells or more all give their dicts, in order. *)
Lemma extract_rows_long (rows : list node) :
  existsb short_row rows = false ->
  forall acc, exists ds,
      extract_rows rows acc = Ok (acc ++ ds) /\ length ds = length rows.
Proof.
  induction rows as [|row rest IH]; simpl; intros H acc.
  - exists []. rewrite app_nil_r. split; reflexivity.
  - apply orb_false_elim in H. destruct H as [Hrow Hrest].
    destruct (row_dict_long _ Hrow) as [d ->].
    destruct (IH Hrest (acc ++ [d])) as (ds & -> & Hlen).
    exists (d :: ds). rewrite <- app_assoc. simpl. split; [reflexivity | lia].
Qed.


(** *** The retry loop, one attempt at a time *)

Section ExecutorFacts.

Variable St : Type.
Variable page_context_cookies : St -> outcome (list cookie) * St.
Variable session_get :
  list (string * string) -> string -> St -> outcome response * St.
Variable session_post :
  list (string * string) -> string -> payload -> St -> outcome response * St.
Variable solve_captcha : bytes -> list log_record * outcome (option string).
Variable max_retries : Z.

Local Abbreviation attempts := (Executor.post_attempts session_post max_retries).
Local Abbreviation handler := (@Executor.on_exception St max_retries).

Ltac run_step :=
  unfold Executor.attempt_body, Executor.on_exception, Executor.bind,
    Executor.call, Executor.logger_info, Executor.logger_error,
    Executor.asyncio_sleep, Executor.emit, Executor.emit_all, Executor.ret,
    value_of, state_of, trace_of; simpl.

(** The handler before the last attempt: log, sleep two seconds, go on. *)
Lemma handler_retry (attempt : Z) (k : Executor.M St (list result_row))
    (e : exn) (s : St) :
  attempt < max_retries - 1 ->
  handler attempt k e s
  = (value_of (k s), state_of (k s),
     [error (msg_error_on_attempt attempt e); Sleep 2] ++ trace_of (k s)).
Proof.
  intros H. run_step.
  destruct (Z.ltb_spec attempt (max_retries - 1)); [|lia].
  destruct (k s) as [[a s1] t]. reflexivity.
Qed.

(** The handler on the last attempt: log and return the empty list. *)
Lemma handler_last (attempt : Z) (k : Executor.M St (list result_row))
    (e : exn) (s : St) :
  max_retries - 1 <= attempt ->
  handler attempt k e s = ([], s, [error (msg_error_on_attempt attempt e)]).
Proof.
  intros H. run_step.
  destruct (Z.ltb_spec attempt (max_retries - 1)); [lia|]. reflexivity.
Qed.

(** No results table under the primary identifier: whatever else the page
    holds, the attempt sleeps two seconds and the loop goes on. *)
Lemma attempt_no_table (ck : list (string * string)) (data : payload)
    (attempt : Z) (rest : list Z) (s s' : St) (r : response) :
  session_post ck post_url data s = (Ok r, s') ->
  raise_for_status r = Ok tt ->
  select_one "table" "searchResults" (soup_of_text r) = None ->
  attempts ck data (attempt :: rest) s
  = (value_of (attempts ck data rest s'), state_of (attempts ck data rest s'),
     [info (msg_post_attempt attempt max_retries); HttpPost post_url data 15;
      Sleep 2] ++ trace_of (attempts ck data rest s')).
Proof.
  intros Hpost Hstatus Hnone. simpl. run_step.
  rewrite Hpost, Hstatus, Hnone.
  destruct (Executor.post_attempts _ _ _ _ rest s') as [[a s1] t]. reflexivity.
Qed.

(** The table is found and parses: the attempt returns the parsed rows. *)
Lemma attempt_parsed (ck : list (string * string)) (data : payload)
    (attempt : Z) (rest : list Z) (s s' : St) (r : response)
    (results_table : node) (results : list result_row) :
  session_post ck post_url data s = (Ok r, s') ->
  raise_for_status r = Ok tt ->
  select_one "table" "searchResults" (soup_of_text r) = Some results_table ->
  parse_results_table results_table = Ok results ->
  attempts ck data (attempt :: rest) s
  = (results, s',
     [info (msg_post_attempt attempt max_retries); HttpPost post_url data 15;
      info (msg_found results)]).
Proof.
  intros Hpost Hstatus Hsome Hparse. simpl. run_step.
  rewrite Hpost, Hstatus, Hsome, Hparse. reflexivity.
Qed.

(** The table is found and parsing raises: the attempt ends in the handler. *)
Lemma attempt_parse_error (ck : list (string * string)) (data : payload)
    (attempt : Z) (rest : list Z) (s s' : St) (r : response)
    (results_table : node) (e : exn) :
  session_post ck post_url data s = (Ok r, s') ->
  raise_for_status r = Ok tt ->
  select_one "table" "searchResults" (soup_of_text r) = Some results_table ->
  parse_results_table results_table = Raise e ->
  attempts ck data (attempt :: rest) s
  = (value_of (handler attempt (attempts ck data rest) e s'),
     state_of (handler attempt (attempts ck data rest) e s'),
     [info (msg_post_attempt attempt max_retries); HttpPost post_url data 15]
       ++ trace_of (handler attempt (attempts ck data rest) e s')).
Proof.
  intros Hpost Hstatus Hsome Hparse. simpl. run_step.
  rewrite Hpost, Hstatus, Hsome, Hparse.
  destruct (attempt <? max_retries - 1).
  - destruct (Executor.post_attempts _ _ _ _ rest s') as [[a s1] t]. reflexivity.
  - reflexivity.
Qed.

(** The loop emits log records, POSTs of the one form [data], and sleeps of
    two seconds; nothing else. *)
Lemma loop_events (ck : list (string * string)) (data : payload) (l : list Z) :
  forall s, Forall (loop_event data) (trace_of (attempts ck data l s)).
Proof.
  induction l as [|attempt rest IH]; intros s.
  - constructor.
  - simpl. run_step.
    destruct (session_post ck post_url data s) as [[r|e] s1].
    + destruct (raise_for_status r) as [[]|e].
      * destruct (select_one "table" "searchResults" (soup_of_text r)) as [t|].
        -- destruct (parse_results_table t) as [results|e].
           ++ repeat constructor.
           ++ destruct (attempt <? max_retries - 1).
              ** specialize (IH s1). unfold trace_of in IH.
                 destruct (Executor.post_attempts _ _ _ _ rest s1) as [[a s2] t2].
                 simpl in *. repeat constructor; assumption.
              ** repeat constructor.
        -- specialize (IH s1). unfold trace_of in IH.
           destruct (Executor.post_attempts _ _ _ _ rest s1) as [[a s2] t2].
           simpl in *. repeat constructor; assumption.
      * destruct (attempt <? max_retries - 1).
        -- specialize (IH s1). unfold trace_of in IH.
           destruct (Executor.post_attempts _ _ _ _ rest s1) as [[a s2] t2].
           simpl in *. repeat constructor; assumption.
        -- repeat constructor.
    + destruct (attempt <? max_retries - 1).
      * specialize (IH s1). unfold trace_of in IH.
        destruct (Executor.post_attempts _ _ _ _ rest s1) as [[a s2] t2].
        simpl in *. repeat constructor; assumption.
      * repeat constructor.
Qed.

(** What the loop returns is empty, or the parse of the primary table of a
    reply to one of its POSTs. *)
Lemma loop_value (ck : list (string * string)) (data : payload) (l : list Z) :
  forall s,
    value_of (attempts ck data l s) = []
    \/ exists (s1 s2 : St) (r : response) (results_table : node),
        session_post ck post_url data s1 = (Ok r, s2)
        /\ raise_for_status r = Ok tt
        /\ select_one "table" "searchResults" (soup_of_text r) = Some results_table
        /\ parse_results_table results_table = Ok (value_of (attempts ck data l s)).
Proof.
  induction l as [|attempt rest IH]; intros s.
  - left; reflexivity.
  - simpl. run_step.
    destruct (session_post ck post_url data s) as [[r|e] s1] eqn:Hpost.
    + destruct (raise_for_status r) as [[]|e] eqn:Hstatus.
      * destruct (select_one "table" "searchResults" (soup_of_text r))
          as [t|] eqn:Hsel.
        -- destruct (parse_results_table t) as [results|e] eqn:Hparse.
           ++ right. exists s, s1, r, t. simpl. auto.
           ++ destruct (attempt <? max_retries - 1); [|left; reflexivity].
              specialize (IH s1). unfold value_of in IH.
              destruct (Executor.post_attempts _ _ _ _ rest s1) as [[a s2] t2].
              exact IH.
        -- specialize (IH s1). unfold value_of in IH.
           destruct (Executor.post_attempts _ _ _ _ rest s1) as [[a s2] t2].
           exact IH.
      * destruct (attempt <? max_retries - 1); [|left; reflexivity].
        specialize (IH s1). unfold value_of in IH.
        destruct (Executor.post_attempts _ _ _ _ rest s1) as [[a s2] t2].
        exact IH.
    + destruct (attempt <? max_retries - 1); [|left; reflexivity].
      specialize (IH s1). unfold value_of in IH.
      destruct (Executor.post_attempts _ _ _ _ rest s1) as [[a s2] t2].
      exact IH.
Qed.

End ExecutorFacts.

(** *** One whole search *)

Section SearchFacts.

Variable St : Type.
Variable page_context_cookies : St -> outcome (list cookie) * St.
Variable session_get :
  list (string * string) -> string -> St -> outcome response * St.
Variable session_post :
  list (string * string) -> string -> payload -> St -> outcome response * St.
Variable solve_captcha : bytes -> list log_record * outcome (option string).
Variables (court_code state_code court_complex_code search_type query year : string).
Variable max_retries : Z.

Local Abbreviation attempts := (Executor.post_attempts session_post max_retries).
Local Abbreviation search :=
  (Executor.perform_search_and_extract page_context_cookies session_get
     session_post solve_captcha court_code state_code court_complex_code
     search_type query year max_retries).
Local Abbreviation form :=
  (Executor.make_payload court_code state_code court_complex_code search_type
     query year).

Ltac run_search :=
  unfold Executor.perform_search_and_extract, Executor.fetch_and_solve,
    Executor.bind, Executor.call, Executor.logger_info, Executor.logger_error,
    Executor.emit, Executor.emit_all, Executor.ret,
    value_of, state_of, trace_of; simpl.

(** The challenge was fetched and resolved to a non-empty text: the search
    is the prelude followed by the retry loop on the one form built from
    that text. *)
Lemma search_submits (s0 s1 s2 : St) (cs : list cookie) (r : response)
    (logs : list log_record) (sol : string) :
  page_context_cookies s0 = (Ok cs, s1) ->
  session_get (dict_of_cookies cs) captcha_url s1 = (Ok r, s2) ->
  raise_for_status r = Ok tt ->
  solve_captcha (content r) = (logs, Ok (Some sol)) ->
  truthy sol = true ->
  search s0
  = (Ok (value_of (attempts (dict_of_cookies cs) (form sol) (range max_retries) s2)),
     state_of (attempts (dict_of_cookies cs) (form sol) (range max_retries) s2),
     [ContextCookies; HttpGet captcha_url 10] ++ map Log logs
       ++ [info (msg_captcha_solved sol)]
       ++ trace_of (attempts (dict_of_cookies cs) (form sol) (range max_retries) s2)).
Proof.
  intros Hck Hget Hstatus Hsolve Htruthy. run_search.
  rewrite Hck, Hget, Hstatus, Hsolve. simpl. rewrite Htruthy. simpl.
  destruct (Executor.post_attempts _ _ _ _ _ s2) as [[a s3] t].
  simpl. rewrite !app_nil_r. reflexivity.
Qed.

(** The challenge was fetched and the resolver gave nothing usable: the
    search stops there. *)
Lemma search_unresolved (s0 s1 s2 : St) (cs : list cookie) (r : response)
    (logs : list log_record) (sol : option string) :
  page_context_cookies s0 = (Ok cs, s1) ->
  session_get (dict_of_cookies cs) captcha_url s1 = (Ok r, s2) ->
  raise_for_status r = Ok tt ->
  solve_captcha (content r) = (logs, Ok sol) ->
  truthy_opt sol = false ->
  search s0
  = (Ok [], s2,
     [ContextCookies; HttpGet captcha_url 10] ++ map Log logs
       ++ [error "Failed to solve CAPTCHA"]).
Proof.
  intros Hck Hget Hstatus Hsolve Hfalsy. run_search.
  rewrite Hck, Hget, Hstatus, Hsolve. simpl. rewrite Hfalsy. simpl.
  rewrite app_nil_r. reflexivity.
Qed.

(** Every search either reaches the loop as in [search_submits], or ends
    before any POST, after one GET at most. *)
Lemma search_cases (s0 : St) :
  (exists s1 s2 cs r logs sol,
      page_context_cookies s0 = (Ok cs, s1)
      /\ session_get (dict_of_cookies cs) captcha_url s1 = (Ok r, s2)
      /\ raise_for_status r = Ok tt
      /\ solve_captcha (content r) = (logs, Ok (Some sol))
      /\ truthy sol = true)
  \/ ((value_of (search s0) = Ok [] \/ exists e, value_of (search s0) = Raise e)
      /\ (count is_fetch (trace_of (search s0)) <= 1)%nat
      /\ Forall (fun e => is_submit e = false /\ is_log_search e = false)
           (trace_of (search s0))).
Proof.
  assert (Hlogs : forall logs : list log_record,
             filter is_fetch (map Log logs) = []
             /\ Forall (fun e => is_submit e = false /\ is_log_search e = false)
                  (map Log logs)).
  { induction logs as [|l logs [IH1 IH2]]; simpl; split;
      try constructor; auto. }
  destruct (page_context_cookies s0) as [[cs|e] s1] eqn:Hck.
  2:{ right. run_search. rewrite Hck. simpl.
      split; [right; eexists; reflexivity|]. split; [unfold count; simpl; lia|].
      repeat constructor. }
  destruct (session_get (dict_of_cookies cs) captcha_url s1) as [[r|e] s2] eqn:Hget.
  2:{ right. run_search. rewrite Hck, Hget. simpl.
      split; [left; reflexivity|].
      split; [unfold count; simpl; try rewrite String.eqb_refl; simpl; lia|].
      repeat constructor. }
  destruct (raise_for_status r) as [[]|e] eqn:Hstatus.
  2:{ right. run_search. rewrite Hck, Hget, Hstatus. simpl.
      split; [left; reflexivity|].
      split; [unfold count; simpl; try rewrite String.eqb_refl; simpl; lia|].
      repeat constructor. }
  destruct (solve_captcha (content r)) as [logs [sol|e]] eqn:Hsolve.
  2:{ right. run_search. rewrite Hck, Hget, Hstatus, Hsolve. simpl.
      destruct (Hlogs logs) as [H1 H2].
      split; [left; reflexivity|]. split.
      - unfold count. simpl. try rewrite String.eqb_refl. simpl.
        rewrite !filter_app, H1. simpl. lia.
      - repeat constructor. rewrite app_nil_r.
        apply Forall_app. split; [exact H2 | repeat constructor]. }
  destruct (truthy_opt sol) eqn:Htruthy.
  - left. destruct sol as [sol|]; [|discriminate].
    exists s1, s2, cs, r, logs, sol. auto.
  - right. unfold value_of, trace_of.
    rewrite (search_unresolved _ _ _ _ _ _ _ Hck Hget Hstatus Hsolve Htruthy).
    destruct (Hlogs logs) as [H1 H2]. simpl.
    split; [left; reflexivity|]. split.
    + unfold count. simpl. try rewrite String.eqb_refl. simpl.
      rewrite filter_app, H1. simpl. lia.
    + repeat constructor. apply Forall_app. split; [exact H2 | repeat constructor].
Qed.

End SearchFacts.

(** *** Helper facts on traces and ranges *)

Lemma range_pos (n : Z) : 0 < n -> exists rest, range n = 0 :: rest.
Proof.
  intros H. unfold range.
  destruct (Z.to_nat n) as [|k] eqn:E; [lia|].
  exists (map Z.of_nat (seq 1 k)). reflexivity.
Qed.

Lemma loop_events_filter (data : payload) (t : list event) :
  Forall (loop_event data) t ->
  filter is_fetch t = [] /\ filter is_log_search t = []
  /\ forall u d tm, In (HttpPost u d tm) t -> d = data.
Proof.
  induction 1 as [|e t He Ht (IH1 & IH2 & IH3)].
  - repeat split; try reflexivity. intros u d tm [].
  - destruct e; simpl in *; try contradiction; repeat split; auto.
    + intros u d tm [E|Hin]; [discriminate | eauto].
    + intros u d tm [E|Hin]; [|eauto].
      inversion E; subst. destruct He as (_ & -> & _). reflexivity.
    + intros u d tm [E|Hin]; [discriminate | eauto].
Qed.

Lemma logs_filter (logs : list log_record) :
  filter is_fetch (map Log logs) = []
  /\ filter is_submit (map Log logs) = []
  /\ filter is_sleep (map Log logs) = []
  /\ filter is_log_search (map Log logs) = []
  /\ forall u d tm, ~ In (HttpPost u d tm) (map Log logs).
Proof.
  induction logs as [|l logs (IH1 & IH2 & IH3 & IH4 & IH5)]; simpl.
  - repeat split; auto.
  - repeat split; auto. intros u d tm [E|Hin]; [discriminate | eapply IH5; eauto].
Qed.

(** *** The claims on one search *)

Section SearchClaims.

Variable St : Type.
Variable page_context_cookies : St -> outcome (list cookie) * St.
Variable session_get :
  list (string * string) -> string -> St -> outcome response * St.
Variable session_post :
  list (string * string) -> string -> payload -> St -> outcome response * St.
Variable solve_captcha : bytes -> list log_record * outcome (option string).
Variables (court_code state_code court_complex_code search_type query year : string).

Local Abbreviation attempts := (Executor.post_attempts session_post).
Local Abbreviation search :=
  (Executor.perform_search_and_extract page_context_cookies session_get
     session_post solve_captcha court_code state_code court_complex_code
     search_type query year).
Local Abbreviation form :=
  (Executor.make_payload court_code state_code court_complex_code search_type
     query year).
Local Abbreviation submits :=
  (search_submits St page_context_cookies session_get session_post solve_captcha
     court_code state_code court_complex_code search_type query year).
Local Abbreviation cases :=
  (search_cases St page_context_cookies session_get session_post solve_captcha
     court_code state_code court_complex_code search_type query year).


(** C1 (amended). In every search the challenge image is fetched once at
    most, before the retry loop; every submission of the search posts the
    one form built from the text resolved from that single image, so
    consecutive attempts submit the same CAPTCHA text. *)
Theorem one_challenge_for_all_submissions (max_retries : Z) (s0 : St) :
  (count is_fetch (trace_of (search max_retries s0)) <= 1)%nat
  /\ forall (u : string) (d : payload) (tm : Z),
       In (HttpPost u d tm) (trace_of (search max_retries s0)) ->
       count is_fetch (trace_of (search max_retries s0)) = 1%nat
       /\ exists s1 s2 cs r logs sol,
           page_context_cookies s0 = (Ok cs, s1)
           /\ session_get (dict_of_cookies cs) captcha_url s1 = (Ok r, s2)
           /\ solve_captcha (content r) = (logs, Ok (Some sol))
           /\ d = form sol.
Proof.
  destruct (cases max_retries s0)
    as [(s1 & s2 & cs & r & logs & sol & Hck & Hget & Hst & Hsolve & Htr)
       | (_ & Hfetch & HF)].
  - rewrite (submits max_retries _ _ _ _ _ _ _ Hck Hget Hst Hsolve Htr).
    pose proof (loop_events St session_post max_retries (dict_of_cookies cs)
                  (form sol) (range max_retries) s2) as Hloop.
    destruct (loop_events_filter _ _ Hloop) as (Hf & _ & Hd).
    destruct (logs_filter logs) as (Hlf & _ & _ & _ & Hlp).
    unfold trace_of in *. simpl.
    assert (Hone : count is_fetch
                     (ContextCookies :: HttpGet captcha_url 10
                        :: map Log logs ++ info (msg_captcha_solved sol)
                        :: snd (Executor.post_attempts session_post max_retries
                                  (dict_of_cookies cs) (form sol)
                                  (range max_retries) s2)) = 1%nat).
    { unfold count. simpl. rewrite filter_app, Hlf. simpl. rewrite Hf. reflexivity. }
    split; [rewrite Hone; lia|].
    intros u d tm Hin. split; [exact Hone|].
    exists s1, s2, cs, r, logs, sol. repeat split; auto.
    destruct Hin as [E|[E|Hin]]; try discriminate.
    apply in_app_or in Hin. destruct Hin as [Hin|[E|Hin]].
    + exfalso. exact (Hlp _ _ _ Hin).
    + discriminate.
    + exact (Hd _ _ _ Hin).
  - split; [exact Hfetch|].
    intros u d tm Hin. exfalso.
    rewrite Forall_forall in HF. destruct (HF _ Hin) as [Hs _]. discriminate.
Qed.

(** C5. When the resolver returns no solution (or an empty text) for the
    fetched image, the search returns the empty list after that single
    fetch: the trace holds one GET of the challenge and no POST, and the
    portal is left in the state that follows the GET. *)
Theorem no_solution_ends_search (max_retries : Z) (s0 s1 s2 : St)
    (cs : list cookie) (r : response) (logs : list log_record)
    (sol : option string) :
  page_context_cookies s0 = (Ok cs, s1) ->
  session_get (dict_of_cookies cs) captcha_url s1 = (Ok r, s2) ->
  raise_for_status r = Ok tt ->
  solve_captcha (content r) = (logs, Ok sol) ->
  truthy_opt sol = false ->
  search max_retries s0
  = (Ok [], s2,
     [ContextCookies; HttpGet captcha_url 10] ++ map Log logs
       ++ [error "Failed to solve CAPTCHA"])
  /\ count is_fetch (trace_of (search max_retries s0)) = 1%nat
  /\ count is_submit (trace_of (search max_retries s0)) = 0%nat
  /\ count is_sleep (trace_of (search max_retries s0)) = 0%nat.
Proof.
  intros Hck Hget Hst Hsolve Hfalsy.
  rewrite (search_unresolved St page_context_cookies session_get session_post
             solve_captcha court_code state_code court_complex_code search_type
             query year max_retries _ _ _ _ _ _ _ Hck Hget Hst Hsolve Hfalsy).
  destruct (logs_filter logs) as (H1 & H2 & H3 & _).
  unfold count, trace_of. simpl.
  rewrite !filter_app, H1, H2, H3. repeat split.
Qed.

(** C7. A reply whose primary results table holds its header row and no
    other row ends the search on that attempt with the empty list: one
    POST, the record "Found 0 results", no sleep, and the rest of the
    attempts is not run, whichever attempt it is. *)
Theorem header_only_table_is_success (max_retries : Z) (s0 s1 s2 s3 : St)
    (cs : list cookie) (r : response) (logs : list log_record) (sol : string)
    (r1 : response) (results_table header : node) :
  page_context_cookies s0 = (Ok cs, s1) ->
  session_get (dict_of_cookies cs) captcha_url s1 = (Ok r, s2) ->
  raise_for_status r = Ok tt ->
  solve_captcha (content r) = (logs, Ok (Some sol)) ->
  truthy sol = true ->
  session_post (dict_of_cookies cs) post_url (form sol) s2 = (Ok r1, s3) ->
  raise_for_status r1 = Ok tt ->
  select_one "table" "searchResults" (soup_of_text r1) = Some results_table ->
  select "tr" results_table = [header] ->
  (forall (attempt : Z) (rest : list Z),
      attempts max_retries (dict_of_cookies cs) (form sol) (attempt :: rest) s2
      = ([], s3,
         [info (msg_post_attempt attempt max_retries);
          HttpPost post_url (form sol) 15; info "Found 0 results"]))
  /\ (0 < max_retries ->
      search max_retries s0
      = (Ok [], s3,
         [ContextCookies; HttpGet captcha_url 10] ++ map Log logs
           ++ [info (msg_captcha_solved sol);
               info (msg_post_attempt 0 max_retries);
               HttpPost post_url (form sol) 15; info "Found 0 results"])
      /\ count is_sleep (trace_of (search max_retries s0)) = 0%nat
      /\ count is_submit (trace_of (search max_retries s0)) = 1%nat).
Proof.
  intros Hck Hget Hst Hsolve Htr Hpost Hst1 Hsel Hrows.
  assert (Hloop : forall attempt rest,
             attempts max_retries (dict_of_cookies cs) (form sol)
               (attempt :: rest) s2
             = ([], s3,
                [info (msg_post_attempt attempt max_retries);
                 HttpPost post_url (form sol) 15; info "Found 0 results"])).
  { intros attempt rest.
    exact (attempt_parsed St session_post max_retries _ _ attempt rest _ _ _ _ _
             Hpost Hst1 Hsel (parse_header_only _ _ Hrows)). }
  split; [exact Hloop|].
  intros Hpos. destruct (range_pos _ Hpos) as [rest Hrange].
  rewrite (submits max_retries _ _ _ _ _ _ _ Hck Hget Hst Hsolve Htr).
  rewrite Hrange, Hloop. unfold value_of, state_of, trace_of. simpl.
  split; [reflexivity|].
  destruct (logs_filter logs) as (_ & H2 & H3 & _).
  unfold count. simpl. rewrite !filter_app, H2, H3. split; reflexivity.
Qed.

(** C8 (amended). With three attempts allowed, when the replies to the first
    and to the second POST hold no table under the primary identifier and
    the reply to the third holds one, each of the first two attempts is
    followed by a sleep of two seconds and the third is the last. The
    search then returns the rows parsed from that third table when every
    data row of it has four cells or more; when a data row has fewer, the
    third attempt ends in the handler and the search returns the empty
    list. *)
Theorem table_present_on_third_attempt (s0 s1 s2 s3 s4 s5 : St)
    (cs : list cookie) (r : response) (logs : list log_record) (sol : string)
    (r1 r2 r3 : response) (results_table : node) :
  page_context_cookies s0 = (Ok cs, s1) ->
  session_get (dict_of_cookies cs) captcha_url s1 = (Ok r, s2) ->
  raise_for_status r = Ok tt ->
  solve_captcha (content r) = (logs, Ok (Some sol)) ->
  truthy sol = true ->
  session_post (dict_of_cookies cs) post_url (form sol) s2 = (Ok r1, s3) ->
  raise_for_status r1 = Ok tt ->
  select_one "table" "searchResults" (soup_of_text r1) = None ->
  session_post (dict_of_cookies cs) post_url (form sol) s3 = (Ok r2, s4) ->
  raise_for_status r2 = Ok tt ->
  select_one "table" "searchResults" (soup_of_text r2) = None ->
  session_post (dict_of_cookies cs) post_url (form sol) s4 = (Ok r3, s5) ->
  raise_for_status r3 = Ok tt ->
  select_one "table" "searchResults" (soup_of_text r3) = Some results_table ->
  (has_short_data_row results_table = false ->
   exists results,
     parse_results_table results_table = Ok results
     /\ length results = (length (select "tr" results_table) - 1)%nat
     /\ search 3 s0
        = (Ok results, s5,
           [ContextCookies; HttpGet captcha_url 10] ++ map Log logs
             ++ [info (msg_captcha_solved sol);
                 info "POST attempt 1/3"; HttpPost post_url (form sol) 15; Sleep 2;
                 info "POST attempt 2/3"; HttpPost post_url (form sol) 15; Sleep 2;
                 info "POST attempt 3/3"; HttpPost post_url (form sol) 15;
                 info (msg_found results)]))
  /\ (has_short_data_row results_table = true ->
      search 3 s0
      = (Ok [], s5,
         [ContextCookies; HttpGet captcha_url 10] ++ map Log logs
           ++ [info (msg_captcha_solved sol);
               info "POST attempt 1/3"; HttpPost post_url (form sol) 15; Sleep 2;
               info "POST attempt 2/3"; HttpPost post_url (form sol) 15; Sleep 2;
               info "POST attempt 3/3"; HttpPost post_url (form sol) 15;
               error "Error on attempt 3: list index out of range"])).
Proof.
  intros Hck Hget Hst Hsolve Htr Hp1 Hs1 Hn1 Hp2 Hs2 Hn2 Hp3 Hs3 Hsel.
  rewrite (submits 3 _ _ _ _ _ _ _ Hck Hget Hst Hsolve Htr).
  change (range 3) with [0; 1; 2].
  rewrite (attempt_no_table St session_post 3 _ _ 0 [1; 2] _ _ _ Hp1 Hs1 Hn1).
  rewrite (attempt_no_table St session_post 3 _ _ 1 [2] _ _ _ Hp2 Hs2 Hn2).
  split.
  - intros Hlong.
    destruct (extract_rows_long _ Hlong []) as (results & Hparse & Hlen).
    exists results. split; [exact Hparse|].
    split; [rewrite Hlen, length_skipn; reflexivity|].
    rewrite (attempt_parsed St session_post 3 _ _ 2 [] _ _ _ _ _ Hp3 Hs3 Hsel
               Hparse).
    reflexivity.
  - intros Hshort.
    rewrite (attempt_parse_error St session_post 3 _ _ 2 [] _ _ _ _ _ Hp3 Hs3 Hsel
               (parse_short _ Hshort)).
    rewrite (handler_last St 3 2 _ _ s5 ltac:(lia)).
    reflexivity.
Qed.

(** C10. A results table with a data row of fewer than four cells never
    yields a record: the parse raises [IndexError], the attempt ends in
    the exception handler (a sleep and the next attempt, or the empty list
    on the last attempt), and the loop returns the empty list when every
    reply is such a table. Every list a search returns is empty or is the
    parse of a primary table all of whose data rows have four cells or
    more, one record per row. *)
Theorem short_row_fails_whole_attempt (max_retries : Z)
    (ck : list (string * string)) (data : payload) (attempt : Z)
    (rest : list Z) (s s' : St) (r : response) (results_table : node) :
  session_post ck post_url data s = (Ok r, s') ->
  raise_for_status r = Ok tt ->
  select_one "table" "searchResults" (soup_of_text r) = Some results_table ->
  has_short_data_row results_table = true ->
  parse_results_table results_table = Raise (IndexError "list index out of range")
  /\ (attempt < max_retries - 1 ->
      attempts max_retries ck data (attempt :: rest) s
      = (value_of (attempts max_retries ck data rest s'),
         state_of (attempts max_retries ck data rest s'),
         [info (msg_post_attempt attempt max_retries); HttpPost post_url data 15;
          error (msg_error_on_attempt attempt
                   (IndexError "list index out of range"));
          Sleep 2] ++ trace_of (attempts max_retries ck data rest s')))
  /\ (max_retries - 1 <= attempt ->
      attempts max_retries ck data (attempt :: rest) s
      = ([], s',
         [info (msg_post_attempt attempt max_retries); HttpPost post_url data 15;
          error (msg_error_on_attempt attempt
                   (IndexError "list index out of range"))]))
  /\ ((forall sa, exists ra sb ta,
          session_post ck post_url data sa = (Ok ra, sb)
          /\ raise_for_status ra = Ok tt
          /\ select_one "table" "searchResults" (soup_of_text ra) = Some ta
          /\ has_short_data_row ta = true) ->
      forall l sa, value_of (attempts max_retries ck data l sa) = [])
  /\ (forall s0 results,
         value_of (search max_retries s0) = Ok results ->
         results = []
         \/ exists cka dataa sa sb ra ta,
             session_post cka post_url dataa sa = (Ok ra, sb)
             /\ raise_for_status ra = Ok tt
             /\ select_one "table" "searchResults" (soup_of_text ra) = Some ta
             /\ has_short_data_row ta = false
             /\ Forall2 (fun row d => short_row row = false /\ row_dict row = Ok d)
                  (skipn 1 (select "tr" ta)) results).
Proof.
  intros Hpost Hst Hsel Hshort.
  pose proof (parse_short _ Hshort) as Hparse.
  assert (Hstep : forall ck' data' a l sa sb ra ta,
             session_post ck' post_url data' sa = (Ok ra, sb) ->
             raise_for_status ra = Ok tt ->
             select_one "table" "searchResults" (soup_of_text ra) = Some ta ->
             has_short_data_row ta = true ->
             (a < max_retries - 1 ->
              attempts max_retries ck' data' (a :: l) sa
              = (value_of (attempts max_retries ck' data' l sb),
                 state_of (attempts max_retries ck' data' l sb),
                 [info (msg_post_attempt a max_retries); HttpPost post_url data' 15;
                  error (msg_error_on_attempt a
                           (IndexError "list index out of range"));
                  Sleep 2] ++ trace_of (attempts max_retries ck' data' l sb)))
             /\ (max_retries - 1 <= a ->
                 attempts max_retries ck' data' (a :: l) sa
                 = ([], sb,
                    [info (msg_post_attempt a max_retries);
                     HttpPost post_url data' 15;
                     error (msg_error_on_attempt a
                              (IndexError "list index out of range"))]))).
  { intros ck' data' a l sa sb ra ta Hp Hs Hse Hsh.
    pose proof (attempt_parse_error St session_post max_retries ck' data' a l
                  sa sb ra ta _ Hp Hs Hse (parse_short _ Hsh)) as E.
    split; intros Ha; rewrite E.
    - rewrite (handler_retry St max_retries a _ _ sb Ha).
      unfold value_of, state_of, trace_of. reflexivity.
    - rewrite (handler_last St max_retries a _ _ sb Ha). reflexivity. }
  split; [exact Hparse|].
  destruct (Hstep ck data attempt rest s s' r results_table Hpost Hst Hsel Hshort)
    as [Hretry Hlast].
  split; [exact Hretry|]. split; [exact Hlast|]. split.
  - intros Hall l. induction l as [|a l IH]; intros sa; [reflexivity|].
    destruct (Hall sa) as (ra & sb & ta & Hp & Hs & Hse & Hsh).
    destruct (Hstep ck data a l sa sb ra ta Hp Hs Hse Hsh) as [H1 H2].
    destruct (Z.lt_ge_cases a (max_retries - 1)) as [Ha|Ha].
    + rewrite (H1 Ha). unfold value_of at 1. simpl. apply IH.
    + rewrite (H2 Ha). reflexivity.
  - intros s0 results Hval.
    destruct (cases max_retries s0)
      as [(s1 & s2 & cs & r0 & logs & sol & Hck & Hget & Hst0 & Hsolve & Htr)
         | ([Hv | [e Hv]] & _)].
    + rewrite (submits max_retries _ _ _ _ _ _ _ Hck Hget Hst0 Hsolve Htr) in Hval.
      unfold value_of at 1 in Hval. simpl in Hval. inversion Hval as [Hres].
      destruct (loop_value St session_post max_retries (dict_of_cookies cs)
                  (form sol) (range max_retries) s2)
        as [Hnil | (sa & sb & ra & ta & Hp & Hs & Hse & Hpa)].
      * left. exact Hnil.
      * right. exists (dict_of_cookies cs), (form sol), sa, sb, ra, ta.
        destruct (parse_ok _ _ Hpa) as [Hns HF]. auto.
    + left. congruence.
    + congruence.
Qed.

End SearchClaims.



(** ** Concrete runs against the scripted portal *)

(** C1, as stated, fails: the first reply holds no table, the second one
    does; both POSTs carry the text resolved from the one image fetched
    before the loop, and no challenge is fetched between them. *)
Lemma second_attempt_reuses_challenge :
  let t := trace_of (Scripted.search (Scripted.fixed_solution "ab12") 3
                       [Scripted.reply_no_table; Scripted.reply_results]) in
  fresh_challenge_each_submission false t = false
  /\ count is_fetch t = 1%nat
  /\ submitted_captchas t = ["ab12"; "ab12"].
Proof. vm_compute. repeat split. Qed.

Lemma one_challenge_for_all_submissions_witness :
  let t := trace_of (Scripted.search (Scripted.fixed_solution "ab12") 3
                       [Scripted.reply_no_table; Scripted.reply_results]) in
  In (HttpPost post_url (Scripted.form "ab12") 15) t
  /\ count is_fetch t = 1%nat.
Proof.
  intros t.
  assert (Hin : In (HttpPost post_url (Scripted.form "ab12") 15) t)
    by (vm_compute; repeat (first [left; reflexivity | right])).
  split; [exact Hin|].
  exact (proj1 (proj2 (one_challenge_for_all_submissions
                         Scripted.script Scripted.cookies Scripted.get Scripted.post
                         (Scripted.fixed_solution "ab12")
                         "1" "26" "1" "party_name" "kumar" "2024" 3
                         (Scripted.portal [Scripted.reply_no_table;
                                           Scripted.reply_results]))
                 post_url (Scripted.form "ab12") 15 Hin)).
Defined.


(** C3. The page holds no table under the primary identifier and a table
    with one data row under the secondary one, on each of the three
    attempts: the secondary table is found and would parse to one record,
    yet each attempt sleeps and goes on, and the search returns the empty
    list after three POSTs. *)
Theorem fallback_table_is_never_parsed :
  let soup := soup_of_text Scripted.reply_fallback in
  let run := Scripted.search (Scripted.fixed_solution "ab12") 3
               [Scripted.reply_fallback; Scripted.reply_fallback;
                Scripted.reply_fallback] in
  select_one "table" "searchResults" soup = None
  /\ find "table" "dispTable" soup = Some Scripted.fallback_table
  /\ parse_results_table Scripted.fallback_table
     = Ok [ResultRow "W.P.123/2024" "Kumar vs State" "12-01-2025" "Pending"]
  /\ value_of run = Ok []
  /\ count is_submit (trace_of run) = 3%nat
  /\ count is_sleep (trace_of run) = 3%nat.
Proof. vm_compute. repeat split. Qed.

Lemma no_solution_ends_search_witness :
  Scripted.no_solution (content Scripted.challenge_image) = ([], Ok None)
  /\ Scripted.search Scripted.no_solution 3 [Scripted.reply_results]
     = (Ok [], Scripted.portal [Scripted.reply_results],
        [ContextCookies; HttpGet captcha_url 10; error "Failed to solve CAPTCHA"])
  /\ count is_submit
       (trace_of (Scripted.search Scripted.no_solution 3 [Scripted.reply_results]))
     = 0%nat.
Proof.
  split; [reflexivity|].
  pose proof (no_solution_ends_search
                Scripted.script Scripted.cookies Scripted.get Scripted.post
                Scripted.no_solution "1" "26" "1" "party_name" "kumar" "2024" 3
                (Scripted.portal [Scripted.reply_results])
                (Scripted.portal [Scripted.reply_results])
                (Scripted.portal [Scripted.reply_results])
                Scripted.session_cookie Scripted.challenge_image [] None
                eq_refl eq_refl eq_refl eq_refl eq_refl)
    as (Hrun & _ & Hsubmit & _).
  split; [exact Hrun | exact Hsubmit].
Defined.

Lemma header_only_table_is_success_witness :
  select "tr" Scripted.header_only_table = [Scripted.header_row]
  /\ Scripted.search (Scripted.fixed_solution "ab12") 3 [Scripted.reply_header_only]
     = (Ok [], Scripted.portal [],
        [ContextCookies; HttpGet captcha_url 10; info "CAPTCHA solved: ab12";
         info "POST attempt 1/3"; HttpPost post_url (Scripted.form "ab12") 15;
         info "Found 0 results"]).
Proof.
  split; [reflexivity|].
  pose proof (header_only_table_is_success
                Scripted.script Scripted.cookies Scripted.get Scripted.post
                (Scripted.fixed_solution "ab12")
                "1" "26" "1" "party_name" "kumar" "2024" 3
                (Scripted.portal [Scripted.reply_header_only])
                (Scripted.portal [Scripted.reply_header_only])
                (Scripted.portal [Scripted.reply_header_only])
                (Scripted.portal [])
                Scripted.session_cookie Scripted.challenge_image [] "ab12"
                Scripted.reply_header_only Scripted.header_only_table
                Scripted.header_row
                eq_refl eq_refl eq_refl eq_refl eq_refl eq_refl eq_refl eq_refl
                eq_refl)
    as (_ & Hrun).
  destruct (Hrun eq_refl) as (H & _). exact H.
Defined.

(** C8, as stated, fails: the table is present under the primary identifier
    in the third reply and holds a data row of four cells, yet a second
    data row of three cells makes the third attempt raise, and the search
    returns the empty list. *)
Lemma short_row_on_third_attempt_returns_nothing :
  select_one "table" "searchResults" (soup_of_text Scripted.reply_no_table) = None
  /\ select_one "table" "searchResults" (soup_of_text Scripted.reply_short_row)
     = Some Scripted.short_row_table
  /\ In Scripted.row1 (skipn 1 (select "tr" Scripted.short_row_table))
  /\ row_dict Scripted.row1
     = Ok (ResultRow "W.P.123/2024" "Kumar vs State" "12-01-2025" "Pending")
  /\ value_of (Scripted.search (Scripted.fixed_solution "ab12") 3
                 [Scripted.reply_no_table; Scripted.reply_no_table;
                  Scripted.reply_short_row])
     = Ok [].
Proof. vm_compute. repeat split. left. reflexivity. Qed.

Lemma table_present_on_third_attempt_witness :
  has_short_data_row Scripted.results_table = false
  /\ value_of (Scripted.search (Scripted.fixed_solution "ab12") 3
                 [Scripted.reply_no_table; Scripted.reply_no_table;
                  Scripted.reply_results])
     = Ok Scripted.parsed_rows
  /\ has_short_data_row Scripted.short_row_table = true
  /\ value_of (Scripted.search (Scripted.fixed_solution "ab12") 3
                 [Scripted.reply_no_table; Scripted.reply_no_table;
                  Scripted.reply_short_row])
     = Ok [].
Proof.
  split; [reflexivity|].
  destruct (table_present_on_third_attempt
              Scripted.script Scripted.cookies Scripted.get Scripted.post
              (Scripted.fixed_solution "ab12")
              "1" "26" "1" "party_name" "kumar" "2024"
              (Scripted.portal [Scripted.reply_no_table; Scripted.reply_no_table;
                                Scripted.reply_results])
              (Scripted.portal [Scripted.reply_no_table; Scripted.reply_no_table;
                                Scripted.reply_results])
              (Scripted.portal [Scripted.reply_no_table; Scripted.reply_no_table;
                                Scripted.reply_results])
              (Scripted.portal [Scripted.reply_no_table; Scripted.reply_results])
              (Scripted.portal [Scripted.reply_results])
              (Scripted.portal [])
              Scripted.session_cookie Scripted.challenge_image [] "ab12"
              Scripted.reply_no_table Scripted.reply_no_table Scripted.reply_results
              Scripted.results_table
              eq_refl eq_refl eq_refl eq_refl eq_refl
              eq_refl eq_refl eq_refl eq_refl eq_refl eq_refl
              eq_refl eq_refl eq_refl) as [Hlong _].
  destruct (Hlong eq_refl) as (results & Hparse & _ & Hrun).
  assert (Hres : results = Scripted.parsed_rows).
  { assert (E : Ok results = Ok Scripted.parsed_rows)
      by (rewrite <- Hparse; reflexivity).
    inversion E. reflexivity. }
  split; [unfold Scripted.search; rewrite Hrun, Hres; reflexivity|].
  split; [reflexivity|].
  destruct (table_present_on_third_attempt
              Scripted.script Scripted.cookies Scripted.get Scripted.post
              (Scripted.fixed_solution "ab12")
              "1" "26" "1" "party_name" "kumar" "2024"
              (Scripted.portal [Scripted.reply_no_table; Scripted.reply_no_table;
                                Scripted.reply_short_row])
              (Scripted.portal [Scripted.reply_no_table; Scripted.reply_no_table;
                                Scripted.reply_short_row])
              (Scripted.portal [Scripted.reply_no_table; Scripted.reply_no_table;
                                Scripted.reply_short_row])
              (Scripted.portal [Scripted.reply_no_table; Scripted.reply_short_row])
              (Scripted.portal [Scripted.reply_short_row])
              (Scripted.portal [])
              Scripted.session_cookie Scripted.challenge_image [] "ab12"
              Scripted.reply_no_table Scripted.reply_no_table
              Scripted.reply_short_row Scripted.short_row_table
              eq_refl eq_refl eq_refl eq_refl eq_refl
              eq_refl eq_refl eq_refl eq_refl eq_refl eq_refl
              eq_refl eq_refl eq_refl) as [_ Hshort].
  unfold Scripted.search. rewrite (Hshort eq_refl). reflexivity.
Defined.

Lemma short_row_fails_whole_attempt_witness :
  has_short_data_row Scripted.short_row_table = true
  /\ parse_results_table Scripted.short_row_table
     = Raise (IndexError "list index out of range")
  /\ Executor.post_attempts Scripted.post 3 [] (Scripted.form "ab12") [2]
       (Scripted.portal [Scripted.reply_short_row])
     = ([], Scripted.portal [],
        [info "POST attempt 3/3"; HttpPost post_url (Scripted.form "ab12") 15;
         error "Error on attempt 3: list index out of range"]).
Proof.
  split; [reflexivity|].
  pose proof (short_row_fails_whole_attempt
                Scripted.script Scripted.cookies Scripted.get Scripted.post
                (Scripted.fixed_solution "ab12")
                "1" "26" "1" "party_name" "kumar" "2024" 3
                [] (Scripted.form "ab12") 2 []
                (Scripted.portal [Scripted.reply_short_row]) (Scripted.portal [])
                Scripted.reply_short_row Scripted.short_row_table
                eq_refl eq_refl eq_refl eq_refl)
    as (Hparse & _ & Hlast & _).
  split; [exact Hparse|].
  apply Hlast. lia.
Defined.

(* ================================================================== *)
(** * Further properties of the search protocol                        *)
(* ================================================================== *)

Section LoopFacts.

Variable St : Type.
Variable session_post :
  list (string * string) -> string -> payload -> St -> outcome response * St.
Variable max_retries : Z.

Local Abbreviation attempts := (Executor.post_attempts session_post max_retries).

Local Abbreviation handler := (@Executor.on_exception St max_retries).

Ltac run_attempt :=
  simpl;
  unfold Executor.attempt_body, Executor.on_exception, Executor.bind,
    Executor.call, Executor.logger_info, Executor.logger_error,
    Executor.asyncio_sleep, Executor.emit, Executor.ret,
    value_of, state_of, trace_of; simpl.

(** [session.post] raises: the attempt ends in the handler. *)
Lemma attempt_post_error (ck : list (string * string)) (data : payload)
    (attempt : Z) (rest : list Z) (s s' : St) (e : exn) :
  session_post ck post_url data s = (Raise e, s') ->
  attempts ck data (attempt :: rest) s
  = (value_of (handler attempt (attempts ck data rest) e s'),
     state_of (handler attempt (attempts ck data rest) e s'),
     [info (msg_post_attempt attempt max_retries); HttpPost post_url data 15]
       ++ trace_of (handler attempt (attempts ck data rest) e s')).
Proof.
  intros Hpost. run_attempt. rewrite Hpost.
  destruct (attempt <? max_retries - 1); [|reflexivity].
  destruct (Executor.post_attempts _ _ _ _ rest s') as [[a s1] t]. reflexivity.
Qed.

(** The reply has an error status: the attempt ends in the handler. *)
Lemma attempt_status_error (ck : list (string * string)) (data : payload)
    (attempt : Z) (rest : list Z) (s s' : St) (r : response) (e : exn) :
  session_post ck post_url data s = (Ok r, s') ->
  raise_for_status r = Raise e ->
  attempts ck data (attempt :: rest) s
  = (value_of (handler attempt (attempts ck data rest) e s'),
     state_of (handler attempt (attempts ck data rest) e s'),
     [info (msg_post_attempt attempt max_retries); HttpPost post_url data 15]
       ++ trace_of (handler attempt (attempts ck data rest) e s')).
Proof.
  intros Hpost Hst. run_attempt. rewrite Hpost, Hst.
  destruct (attempt <? max_retries - 1); [|reflexivity].
  destruct (Executor.post_attempts _ _ _ _ rest s') as [[a s1] t]. reflexivity.
Qed.

(** An attempt that ends in the handler: a retry before the last value of
    [attempt], the empty list on it. *)
Lemma handler_cases (ck : list (string * string)) (data : payload)
    (attempt : Z) (rest : list Z) (s s1 : St) (e : exn) :
  attempts ck data (attempt :: rest) s
  = (value_of (handler attempt (attempts ck data rest) e s1),
     state_of (handler attempt (attempts ck data rest) e s1),
     [info (msg_post_attempt attempt max_retries); HttpPost post_url data 15]
       ++ trace_of (handler attempt (attempts ck data rest) e s1)) ->
  (attempt < max_retries - 1
   /\ attempts ck data (attempt :: rest) s
      = (value_of (attempts ck data rest s1), state_of (attempts ck data rest s1),
         [info (msg_post_attempt attempt max_retries); HttpPost post_url data 15;
          error (msg_error_on_attempt attempt e); Sleep 2]
           ++ trace_of (attempts ck data rest s1)))
  \/ (max_retries - 1 <= attempt
      /\ attempts ck data (attempt :: rest) s
         = ([], s1,
            [info (msg_post_attempt attempt max_retries); HttpPost post_url data 15;
             error (msg_error_on_attempt attempt e)])).
Proof.
  intros E. destruct (Z.lt_ge_cases attempt (max_retries - 1)) as [Hlt|Hge].
  - left. split; [exact Hlt|]. rewrite E.
    rewrite (handler_retry St max_retries attempt _ e s1 Hlt). reflexivity.
  - right. split; [exact Hge|]. rewrite E.
    rewrite (handler_last St max_retries attempt _ e s1 Hge). reflexivity.
Qed.

(** The four ways one attempt can end; [s1] is the state the POST leaves. *)
Lemma attempt_cases (ck : list (string * string)) (data : payload)
    (attempt : Z) (rest : list Z) (s : St) :
  exists s1 : St,
    s1 = snd (session_post ck post_url data s)
    /\ ((exists r results_table results,
            session_post ck post_url data s = (Ok r, s1)
            /\ raise_for_status r = Ok tt
            /\ select_one "table" "searchResults" (soup_of_text r)
               = Some results_table
            /\ parse_results_table results_table = Ok results
            /\ attempts ck data (attempt :: rest) s
               = (results, s1,
                  [info (msg_post_attempt attempt max_retries);
                   HttpPost post_url data 15; info (msg_found results)]))
        \/ (exists r,
               session_post ck post_url data s = (Ok r, s1)
               /\ raise_for_status r = Ok tt
               /\ select_one "table" "searchResults" (soup_of_text r) = None
               /\ attempts ck data (attempt :: rest) s
                  = (value_of (attempts ck data rest s1),
                     state_of (attempts ck data rest s1),
                     [info (msg_post_attempt attempt max_retries);
                      HttpPost post_url data 15; Sleep 2]
                       ++ trace_of (attempts ck data rest s1)))
        \/ (exists e,
               attempt < max_retries - 1
               /\ attempts ck data (attempt :: rest) s
                  = (value_of (attempts ck data rest s1),
                     state_of (attempts ck data rest s1),
                     [info (msg_post_attempt attempt max_retries);
                      HttpPost post_url data 15;
                      error (msg_error_on_attempt attempt e); Sleep 2]
                       ++ trace_of (attempts ck data rest s1)))
        \/ (exists e,
               max_retries - 1 <= attempt
               /\ attempts ck data (attempt :: rest) s
                  = ([], s1,
                     [info (msg_post_attempt attempt max_retries);
                      HttpPost post_url data 15;
                      error (msg_error_on_attempt attempt e)]))).
Proof.
  destruct (session_post ck post_url data s) as [[r|e] s1] eqn:Hpost;
    exists s1; (split; [reflexivity|]).
  - destruct (raise_for_status r) as [[]|e] eqn:Hst.
    + destruct (select_one "table" "searchResults" (soup_of_text r))
        as [t|] eqn:Hsel.
      * destruct (parse_results_table t) as [results|e] eqn:Hparse.
        -- left. exists r, t, results. repeat split; auto.
           exact (attempt_parsed St session_post max_retries ck data attempt rest
                    s s1 r t results Hpost Hst Hsel Hparse).
        -- right; right.
           destruct (handler_cases ck data attempt rest s s1 e
                       (attempt_parse_error St session_post max_retries ck data
                          attempt rest s s1 r t e Hpost Hst Hsel Hparse))
             as [H|H]; [left | right]; exists e; exact H.
      * right; left. exists r. repeat split; auto.
        exact (attempt_no_table St session_post max_retries ck data attempt rest
                 s s1 r Hpost Hst Hsel).
    + right; right.
      destruct (handler_cases ck data attempt rest s s1 e
                  (attempt_status_error ck data attempt rest s s1 r e Hpost Hst))
        as [H|H]; [left | right]; exists e; exact H.
  - right; right.
    destruct (handler_cases ck data attempt rest s s1 e
                (attempt_post_error ck data attempt rest s s1 e Hpost))
      as [H|H]; [left | right]; exists e; exact H.
Qed.

Lemma range_length (n : Z) : length (range n) = Z.to_nat n.
Proof. unfold range. rewrite length_map, length_seq. reflexivity. Qed.

(** The loop posts once per value of [attempt] at most, and sleeps at most
    once per POST. *)
Lemma loop_bounded (ck : list (string * string)) (data : payload) (l : list Z) :
  forall s,
    (count is_submit (trace_of (attempts ck data l s)) <= length l)%nat
    /\ (count is_sleep (trace_of (attempts ck data l s))
        <= count is_submit (trace_of (attempts ck data l s)))%nat.
Proof.
  induction l as [|a rest IH]; intros s.
  - split; apply Nat.le_refl.
  - destruct (attempt_cases ck data a rest s)
      as (s1 & _ & [(r & t & results & _ & _ & _ & _ & E)
                   | [(r & _ & _ & _ & E) | [(e & _ & E) | (e & _ & E)]]]);
      rewrite E; destruct (IH s1) as [IH1 IH2];
      unfold trace_of, count in *; simpl; lia.
Qed.

(** Every reply lacks the primary table: the loop posts once and sleeps
    once per value of [attempt], logs no error, and returns the empty list. *)
Lemma loop_all_missing (ck : list (string * string)) (data : payload) :
  (forall s, exists r s',
      session_post ck post_url data s = (Ok r, s')
      /\ raise_for_status r = Ok tt
      /\ select_one "table" "searchResults" (soup_of_text r) = None) ->
  forall l s,
    value_of (attempts ck data l s) = []
    /\ count is_submit (trace_of (attempts ck data l s)) = length l
    /\ count is_sleep (trace_of (attempts ck data l s)) = length l
    /\ count is_error_record (trace_of (attempts ck data l s)) = 0%nat.
Proof.
  intros Hall l. induction l as [|a rest IH]; intros s.
  - repeat split.
  - destruct (Hall s) as (r & s' & Hpost & Hst & Hsel).
    rewrite (attempt_no_table St session_post max_retries ck data a rest s s' r
               Hpost Hst Hsel).
    destruct (IH s') as (IH1 & IH2 & IH3 & IH4).
    unfold value_of, trace_of, count in *. simpl.
    repeat split; auto.
Qed.

(** Every POST fails, by an exception or by an error status: with [m]
    values of [attempt] left, the last of them being [max_retries - 1], the
    loop posts [m] times, sleeps between the attempts only, logs one error
    per attempt and returns the empty list. *)
Lemma loop_all_failing (ck : list (string * string)) (data : payload) :
  (forall s,
      (exists e s', session_post ck post_url data s = (Raise e, s'))
      \/ (exists r e s', session_post ck post_url data s = (Ok r, s')
                         /\ raise_for_status r = Raise e)) ->
  forall (m k : nat) (s : St),
    Z.of_nat (k + m) = max_retries ->
    let run := attempts ck data (map Z.of_nat (seq k m)) s in
    value_of run = []
    /\ count is_submit (trace_of run) = m
    /\ count is_sleep (trace_of run) = (m - 1)%nat
    /\ count is_error_record (trace_of run) = m.
Proof.
  intros Hall m. induction m as [|m IH]; intros k s Hk run; subst run.
  - repeat split.
  - simpl map.
    assert (E : exists e s',
               attempts ck data (Z.of_nat k :: map Z.of_nat (seq (S k) m)) s
               = (value_of (handler (Z.of_nat k)
                              (attempts ck data (map Z.of_nat (seq (S k) m))) e s'),
                  state_of (handler (Z.of_nat k)
                              (attempts ck data (map Z.of_nat (seq (S k) m))) e s'),
                  [info (msg_post_attempt (Z.of_nat k) max_retries);
                   HttpPost post_url data 15]
                    ++ trace_of (handler (Z.of_nat k)
                                   (attempts ck data (map Z.of_nat (seq (S k) m)))
                                   e s'))).
    { destruct (Hall s) as [(e & s' & Hp) | (r & e & s' & Hp & Hst)];
        exists e, s'.
      - exact (attempt_post_error ck data _ _ s s' e Hp).
      - exact (attempt_status_error ck data _ _ s s' r e Hp Hst). }
    destruct E as (e & s' & E).
    destruct (handler_cases ck data _ _ s s' e E) as [[Hlt E'] | [Hge E']];
      rewrite E'; clear E E'.
    + assert (Hm : (1 <= m)%nat) by lia.
      destruct (IH (S k) s' ltac:(lia)) as (IH1 & IH2 & IH3 & IH4).
      remember (attempts ck data (map Z.of_nat (seq (S k) m)) s') as R eqn:HR.
      clear HR. destruct R as [[v s2] t].
      unfold value_of, trace_of, count in *. simpl in *.
      repeat split; [exact IH1 | lia | lia | lia].
    + assert (m = 0)%nat by lia. subst m. repeat split.
Qed.

End LoopFacts.

Section SearchExtras.

Variable St : Type.
Variable page_context_cookies : St -> outcome (list cookie) * St.
Variable session_get :
  list (string * string) -> string -> St -> outcome response * St.
Variable session_post :
  list (string * string) -> string -> payload -> St -> outcome response * St.
Variable solve_captcha : bytes -> list log_record * outcome (option string).
Variables (court_code state_code court_complex_code search_type query year : string).
Variable max_retries : Z.

Local Abbreviation attempts := (Executor.post_attempts session_post max_retries).
Local Abbreviation search :=
  (Executor.perform_search_and_extract page_context_cookies session_get
     session_post solve_captcha court_code state_code court_complex_code
     search_type query year max_retries).
Local Abbreviation form :=
  (Executor.make_payload court_code state_code court_complex_code search_type
     query year).
Local Abbreviation submits :=
  (search_submits St page_context_cookies session_get session_post solve_captcha
     court_code state_code court_complex_code search_type query year max_retries).
Local Abbreviation cases :=
  (search_cases St page_context_cookies session_get session_post solve_captcha
     court_code state_code court_complex_code search_type query year max_retries).

Ltac run_prelude :=
  unfold Executor.perform_search_and_extract, Executor.fetch_and_solve,
    Executor.bind, Executor.call, Executor.logger_info, Executor.logger_error,
    Executor.emit, Executor.emit_all, Executor.ret,
    value_of, state_of, trace_of; simpl.

(** The first attempt of a non-empty loop posts the form. *)
Lemma loop_first_post (ck : list (string * string)) (data : payload)
    (a : Z) (rest : list Z) (s : St) :
  In (HttpPost post_url data 15) (trace_of (attempts ck data (a :: rest) s)).
Proof.
  destruct (attempt_cases St session_post max_retries ck data a rest s)
    as (s1 & _ & [(r & t & results & _ & _ & _ & _ & E)
                 | [(r & _ & _ & _ & E) | [(e & _ & E) | (e & _ & E)]]]);
    rewrite E; unfold trace_of; simpl; auto.
Qed.

(** Every form a search posts is the one built from its arguments and some
    CAPTCHA text. *)
Lemma search_posts_form (s0 : St) (u : string) (d : payload) (tm : Z) :
  In (HttpPost u d tm) (trace_of (search s0)) -> exists sol, d = form sol.
Proof.
  intros Hin.
  destruct (cases s0)
    as [(s1 & s2 & cs & r & logs & sol & Hck & Hget & Hst & Hsolve & Htr)
       | (_ & _ & HF)].
  - rewrite (submits _ _ _ _ _ _ _ Hck Hget Hst Hsolve Htr) in Hin.
    unfold trace_of at 1 in Hin. simpl in Hin.
    exists sol.
    destruct Hin as [E|[E|Hin]]; try discriminate.
    apply in_app_or in Hin. destruct Hin as [Hin|[E|Hin]].
    + exfalso. destruct (logs_filter logs) as (_ & _ & _ & _ & Hl).
      exact (Hl _ _ _ Hin).
    + discriminate.
    + destruct (loop_events_filter _ _
                  (loop_events St session_post max_retries (dict_of_cookies cs)
                     (form sol) (range max_retries) s2)) as (_ & _ & Hd).
      exact (Hd _ _ _ Hin).
  - exfalso. rewrite Forall_forall in HF. destruct (HF _ Hin) as [Hs _].
    discriminate.
Qed.

(** X1. A search raises exactly when the cookie snapshot raises, with the
    same exception; no failure of the session, of the resolver or of the
    parse reaches the caller. *)
Theorem search_raises_only_on_cookies (s0 : St) (e : exn) :
  value_of (search s0) = Raise e <-> fst (page_context_cookies s0) = Raise e.
Proof.
  destruct (page_context_cookies s0) as [[cs|e0] s1] eqn:Hck.
  - simpl. split; [|discriminate]. intros H. exfalso.
    destruct (cases s0)
      as [(s1' & s2 & cs' & r & logs & sol & Hck' & Hget & Hst & Hsolve & Htr)
         | ([Hv | [e1 Hv]] & _)].
    + rewrite (submits _ _ _ _ _ _ _ Hck' Hget Hst Hsolve Htr) in H. discriminate.
    + congruence.
    + revert Hv. run_prelude. rewrite Hck. simpl.
      destruct (session_get (dict_of_cookies cs) captcha_url s1) as [[r|e2] s2];
        simpl; [|discriminate].
      destruct (raise_for_status r) as [[]|e2]; simpl; [|discriminate].
      destruct (solve_captcha (content r)) as [logs [sol|e2]]; simpl;
        [|discriminate].
      destruct (truthy_opt sol); simpl; [|discriminate].
      destruct (Executor.post_attempts _ _ _ _ _ s2) as [[a s3] t]. discriminate.
  - run_prelude. rewrite Hck. simpl. split; congruence.
Qed.

(** A search that does not reach the loop neither posts nor sleeps. *)
Lemma search_early_end (s0 : St) :
  (exists s1 s2 cs r logs sol,
      page_context_cookies s0 = (Ok cs, s1)
      /\ session_get (dict_of_cookies cs) captcha_url s1 = (Ok r, s2)
      /\ raise_for_status r = Ok tt
      /\ solve_captcha (content r) = (logs, Ok (Some sol))
      /\ truthy sol = true)
  \/ (filter is_submit (trace_of (search s0)) = []
      /\ filter is_sleep (trace_of (search s0)) = []).
Proof.
  destruct (page_context_cookies s0) as [[cs|e] s1] eqn:Hck.
  2:{ right. run_prelude. rewrite Hck. split; reflexivity. }
  destruct (session_get (dict_of_cookies cs) captcha_url s1) as [[r|e] s2] eqn:Hget.
  2:{ right. run_prelude. rewrite Hck, Hget. split; reflexivity. }
  destruct (raise_for_status r) as [[]|e] eqn:Hst.
  2:{ right. run_prelude. rewrite Hck, Hget, Hst. split; reflexivity. }
  destruct (solve_captcha (content r)) as [logs [sol|e]] eqn:Hsolve.
  2:{ right. run_prelude. rewrite Hck, Hget, Hst, Hsolve. simpl.
      destruct (logs_filter logs) as (_ & H2 & H3 & _).
      rewrite !filter_app, H2, H3. split; reflexivity. }
  destruct (truthy_opt sol) eqn:Htruthy.
  - left. destruct sol as [sol|]; [|discriminate].
    exists s1, s2, cs, r, logs, sol. auto.
  - right. unfold trace_of.
    rewrite (search_unresolved St page_context_cookies session_get session_post
               solve_captcha court_code state_code court_complex_code search_type
               query year max_retries _ _ _ _ _ _ _ Hck Hget Hst Hsolve Htruthy).
    simpl. destruct (logs_filter logs) as (_ & H2 & H3 & _).
    rewrite !filter_app, H2, H3. split; reflexivity.
Qed.

(** X2. A search posts the form [max_retries] times at most, sleeps at
    most once per POST, and always for two seconds. *)
Theorem search_posts_are_bounded (s0 : St) :
  (count is_submit (trace_of (search s0)) <= Z.to_nat max_retries)%nat
  /\ (count is_sleep (trace_of (search s0))
      <= count is_submit (trace_of (search s0)))%nat
  /\ forall n, In (Sleep n) (trace_of (search s0)) -> n = 2.
Proof.
  destruct (search_early_end s0)
    as [(s1 & s2 & cs & r & logs & sol & Hck & Hget & Hst & Hsolve & Htr)
       | (Hsub & Hsl)].
  - rewrite (submits _ _ _ _ _ _ _ Hck Hget Hst Hsolve Htr).
    destruct (loop_bounded St session_post max_retries (dict_of_cookies cs)
                (form sol) (range max_retries) s2) as [Hb1 Hb2].
    rewrite range_length in Hb1.
    pose proof (loop_events St session_post max_retries (dict_of_cookies cs)
                  (form sol) (range max_retries) s2) as Hloop.
    destruct (logs_filter logs) as (_ & H2 & H3 & _).
    unfold trace_of, count in *. simpl.
    rewrite !filter_app, H2, H3. simpl.
    split; [exact Hb1|]. split; [exact Hb2|].
    intros n [E|[E|Hin]]; try discriminate.
    apply in_app_or in Hin. destruct Hin as [Hin|[E|Hin]]; try discriminate.
    + apply in_map_iff in Hin. destruct Hin as (l & El & _). discriminate.
    + rewrite Forall_forall in Hloop. exact (Hloop _ Hin).
  - unfold count. rewrite Hsub, Hsl. simpl.
    split; [lia|]. split; [lia|].
    intros n Hin.
    assert (Hf : In (Sleep n) (filter is_sleep (trace_of (search s0))))
      by (apply filter_In; split; [exact Hin | reflexivity]).
    rewrite Hsl in Hf. destruct Hf.
Qed.

(** X3. When the GET of the challenge image raises, or its reply has an
    error status, the search ends at once with the empty list: the error is
    logged, the resolver is not run, nothing is posted and the fetch is not
    tried again. *)
Theorem fetch_failure_ends_search (s0 s1 s2 : St) (cs : list cookie) (e : exn) :
  page_context_cookies s0 = (Ok cs, s1) ->
  (session_get (dict_of_cookies cs) captcha_url s1 = (Raise e, s2)
   \/ exists r, session_get (dict_of_cookies cs) captcha_url s1 = (Ok r, s2)
                /\ raise_for_status r = Raise e) ->
  search s0
  = (Ok [], s2,
     [ContextCookies; HttpGet captcha_url 10; error (msg_captcha_failed e)]).
Proof.
  intros Hck [Hget | (r & Hget & Hst)]; run_prelude.
  - rewrite Hck, Hget. reflexivity.
  - rewrite Hck, Hget, Hst. reflexivity.
Qed.

(** X4. When no reply holds a table under the primary identifier, the
    search posts [max_retries] times, sleeps after every POST, the last one
    included, and returns the empty list without logging any error. *)
Theorem missing_table_exhausts_silently (s0 s1 s2 : St) (cs : list cookie)
    (r : response) (logs : list log_record) (sol : string) :
  page_context_cookies s0 = (Ok cs, s1) ->
  session_get (dict_of_cookies cs) captcha_url s1 = (Ok r, s2) ->
  raise_for_status r = Ok tt ->
  solve_captcha (content r) = (logs, Ok (Some sol)) ->
  truthy sol = true ->
  (forall s, exists r' s',
      session_post (dict_of_cookies cs) post_url (form sol) s = (Ok r', s')
      /\ raise_for_status r' = Ok tt
      /\ select_one "table" "searchResults" (soup_of_text r') = None) ->
  value_of (search s0) = Ok []
  /\ count is_submit (trace_of (search s0)) = Z.to_nat max_retries
  /\ count is_sleep (trace_of (search s0)) = Z.to_nat max_retries
  /\ count is_error_record (trace_of (search s0))
     = count is_error_record (map Log logs).
Proof.
  intros Hck Hget Hst Hsolve Htr Hall.
  rewrite (submits _ _ _ _ _ _ _ Hck Hget Hst Hsolve Htr).
  destruct (loop_all_missing St session_post max_retries (dict_of_cookies cs)
              (form sol) Hall (range max_retries) s2) as (H1 & H2 & H3 & H4).
  rewrite range_length in H2, H3.
  destruct (logs_filter logs) as (_ & L2 & L3 & _).
  unfold value_of, trace_of, count in *. simpl.
  rewrite !filter_app, L2, L3. simpl.
  rewrite H1, H2, H3. repeat split.
  rewrite !length_app. simpl. rewrite H4. lia.
Qed.

(** X5. When every POST fails, by an exception of the session or by an
    error status, a search allowed at least one attempt posts
    [max_retries] times, sleeps between the attempts but not after the last
    one, logs one error per attempt and returns the empty list. *)
Theorem failing_posts_exhaust_retries (s0 s1 s2 : St) (cs : list cookie)
    (r : response) (logs : list log_record) (sol : string) :
  page_context_cookies s0 = (Ok cs, s1) ->
  session_get (dict_of_cookies cs) captcha_url s1 = (Ok r, s2) ->
  raise_for_status r = Ok tt ->
  solve_captcha (content r) = (logs, Ok (Some sol)) ->
  truthy sol = true ->
  0 < max_retries ->
  (forall s,
      (exists e s',
          session_post (dict_of_cookies cs) post_url (form sol) s = (Raise e, s'))
      \/ (exists r' e s',
             session_post (dict_of_cookies cs) post_url (form sol) s = (Ok r', s')
             /\ raise_for_status r' = Raise e)) ->
  value_of (search s0) = Ok []
  /\ count is_submit (trace_of (search s0)) = Z.to_nat max_retries
  /\ count is_sleep (trace_of (search s0)) = (Z.to_nat max_retries - 1)%nat
  /\ count is_error_record (trace_of (search s0))
     = (count is_error_record (map Log logs) + Z.to_nat max_retries)%nat.
Proof.
  intros Hck Hget Hst Hsolve Htr Hpos Hall.
  rewrite (submits _ _ _ _ _ _ _ Hck Hget Hst Hsolve Htr).
  destruct (loop_all_failing St session_post max_retries (dict_of_cookies cs)
              (form sol) Hall (Z.to_nat max_retries) 0 s2 ltac:(simpl; lia))
    as (H1 & H2 & H3 & H4).
  fold (range max_retries) in H1, H2, H3, H4.
  destruct (logs_filter logs) as (_ & L2 & L3 & _).
  unfold value_of, trace_of, count in *. simpl.
  rewrite !filter_app, L2, L3. simpl.
  rewrite H1, H2, H3. repeat split.
  rewrite !length_app. simpl. rewrite H4. lia.
Qed.

End SearchExtras.

Lemma fetch_failure_ends_search_witness :
  raise_for_status Steady.unavailable = Raise (HTTPError "503 Error")
  /\ Steady.search (Ok Steady.unavailable) (Ok Scripted.reply_results) 3
     = (Ok [], 1%nat,
        [ContextCookies; HttpGet captcha_url 10;
         error "Failed to solve CAPTCHA: 503 Error"]).
Proof.
  split; [reflexivity|].
  apply (fetch_failure_ends_search nat Steady.cookies
           (Steady.get (Ok Steady.unavailable))
           (Steady.post (Ok Scripted.reply_results))
           (Scripted.fixed_solution "ab12")
           "1" "26" "1" "party_name" "kumar" "2024" 3
           0%nat 0%nat 1%nat Scripted.session_cookie (HTTPError "503 Error")
           eq_refl).
  right. exists Steady.unavailable. split; reflexivity.
Defined.

Lemma missing_table_exhausts_silently_witness :
  value_of (Steady.search (Ok Scripted.challenge_image)
              (Ok Scripted.reply_fallback) 3) = Ok []
  /\ count is_sleep (trace_of (Steady.search (Ok Scripted.challenge_image)
                                 (Ok Scripted.reply_fallback) 3)) = 3%nat
  /\ count is_error_record
       (trace_of (Steady.search (Ok Scripted.challenge_image)
                    (Ok Scripted.reply_fallback) 3)) = 0%nat.
Proof.
  pose proof (missing_table_exhausts_silently nat Steady.cookies
                (Steady.get (Ok Scripted.challenge_image))
                (Steady.post (Ok Scripted.reply_fallback))
                (Scripted.fixed_solution "ab12")
                "1" "26" "1" "party_name" "kumar" "2024" 3
                0%nat 0%nat 1%nat Scripted.session_cookie Scripted.challenge_image
                [] "ab12" eq_refl eq_refl eq_refl eq_refl eq_refl
                (fun s => ex_intro _ Scripted.reply_fallback
                            (ex_intro _ (S s)
                               (conj eq_refl (conj eq_refl eq_refl)))))
    as (H1 & _ & H3 & H4).
  split; [exact H1|]. split; [exact H3 | exact H4].
Defined.

Lemma failing_posts_exhaust_retries_witness :
  value_of (Steady.search (Ok Scripted.challenge_image)
              (Ok Steady.unavailable) 3) = Ok []
  /\ count is_submit (trace_of (Steady.search (Ok Scripted.challenge_image)
                                  (Ok Steady.unavailable) 3)) = 3%nat
  /\ count is_sleep (trace_of (Steady.search (Ok Scripted.challenge_image)
                                 (Ok Steady.unavailable) 3)) = 2%nat.
Proof.
  pose proof (failing_posts_exhaust_retries nat Steady.cookies
                (Steady.get (Ok Scripted.challenge_image))
                (Steady.post (Ok Steady.unavailable))
                (Scripted.fixed_solution "ab12")
                "1" "26" "1" "party_name" "kumar" "2024" 3
                0%nat 0%nat 1%nat Scripted.session_cookie Scripted.challenge_image
                [] "ab12" eq_refl eq_refl eq_refl eq_refl eq_refl eq_refl
                (fun s => or_intror
                            (ex_intro _ Steady.unavailable
                               (ex_intro _ (HTTPError "503 Error")
                                  (ex_intro _ (S s) (conj eq_refl eq_refl))))))
    as (H1 & H2 & H3 & _).
  split; [exact H1|]. split; [exact H2 | exact H3].
Defined.

(** X6. Every form posted by [search_by_party_name] carries the party name
    in the year field: the call binds the bench name to [search_type], the
    literal ["party_name"] to [query] and the party name to [year], so the
    party-name field holds the literal or nothing. *)
Theorem party_search_posts_name_as_year
    (St : Type)
    (page_context_cookies : St -> outcome (list cookie) * St)
    (session_get : list (string * string) -> string -> St -> outcome response * St)
    (session_post :
       list (string * string) -> string -> payload -> St -> outcome response * St)
    (solve_captcha : bytes -> list log_record * outcome (option string))
    (court_name court_value bench_value bench_name party : string) (s0 : St)
    (u : string) (d : payload) (tm : Z) :
  In (HttpPost u d tm)
     (trace_of (Executor.search_by_party_name page_context_cookies session_get
                  session_post solve_captcha court_name court_value bench_value
                  bench_name party s0)) ->
  rgyear d = party
  /\ court_code_f d = court_name
  /\ state_code_f d = court_value
  /\ court_complex_code_f d = bench_value
  /\ petres_name d
     = (if String.eqb bench_name "party_name" then "party_name" else "")
  /\ caseNo d
     = (if String.eqb bench_name "case_number" then "party_name" else "")
  /\ caseStatusSearchType d
     = (if String.eqb bench_name "party_name" then "CSpartyName" else "CScaseNumber").
Proof.
  intros Hin.
  assert (Hin' : In (HttpPost u d tm)
                   (trace_of (Executor.perform_search_and_extract
                                page_context_cookies session_get session_post
                                solve_captcha court_name court_value bench_value
                                bench_name "party_name" party 3 s0))).
  { revert Hin.
    unfold Executor.search_by_party_name, Executor.bind, Executor.logger_info,
      Executor.emit, Executor.ret, trace_of. simpl.
    destruct (Executor.perform_search_and_extract _ _ _ _ _ _ _ _ _ _ _ s0)
      as [[[results|e] s1] t]; simpl; intros [E|Hin]; try discriminate.
    - apply in_app_or in Hin. destruct Hin as [Hin|[E|[]]];
        [exact Hin | discriminate].
    - rewrite app_nil_r in Hin. exact Hin. }
  destruct (search_posts_form _ _ _ _ _ _ _ _ _ _ _ _ _ _ _ _ Hin')
    as [sol ->].
  repeat split.
Qed.

Lemma party_search_posts_name_as_year_witness :
  let d := Executor.make_payload "Delhi" "26" "1" "Principal Bench"
             "party_name" "kumar" "ab12" in
  In (HttpPost post_url d 15)
     (trace_of (Executor.search_by_party_name Scripted.cookies Scripted.get
                  Scripted.post (Scripted.fixed_solution "ab12")
                  "Delhi" "26" "1" "Principal Bench" "kumar"
                  (Scripted.portal [Scripted.reply_results])))
  /\ rgyear d = "kumar" /\ petres_name d = "".
Proof.
  intros d.
  assert (Hin : In (HttpPost post_url d 15)
                  (trace_of (Executor.search_by_party_name Scripted.cookies
                               Scripted.get Scripted.post
                               (Scripted.fixed_solution "ab12")
                               "Delhi" "26" "1" "Principal Bench" "kumar"
                               (Scripted.portal [Scripted.reply_results]))))
    by (vm_compute; repeat (first [left; reflexivity | right])).
  split; [exact Hin|].
  pose proof (party_search_posts_name_as_year _ _ _ _ _ _ _ _ _ _ _ _ _ _ Hin)
    as (H1 & _ & _ & _ & H5 & _).
  split; [exact H1 | exact H5].
Defined.

(** X7. With the resolver the module imports, a fetched challenge is
    always followed by a POST when one attempt at least is allowed; when
    the OCR strategy gives no text, the form posted carries the placeholder
    ["1234"] as the CAPTCHA. *)
Theorem ocr_failure_posts_placeholder
    (St : Type)
    (page_context_cookies : St -> outcome (list cookie) * St)
    (session_get : list (string * string) -> string -> St -> outcome response * St)
    (session_post :
       list (string * string) -> string -> payload -> St -> outcome response * St)
    (image : Type) (Image_open : bytes -> outcome image)
    (convert : image -> string -> outcome image)
    (image_to_string : image -> string -> outcome string)
    (court_code state_code court_complex_code search_type query year : string)
    (max_retries : Z) (s0 s1 s2 : St) (cs : list cookie) (r : response) :
  page_context_cookies s0 = (Ok cs, s1) ->
  session_get (dict_of_cookies cs) captcha_url s1 = (Ok r, s2) ->
  raise_for_status r = Ok tt ->
  0 < max_retries ->
  let run :=
    Executor.perform_search_and_extract page_context_cookies session_get
      session_post (imported_solve_captcha Image_open convert image_to_string)
      court_code state_code court_complex_code search_type query year
      max_retries s0 in
  (1 <= count is_submit (trace_of run))%nat
  /\ (snd (Captcha.solve_captcha_from_bytes Image_open convert image_to_string
             (content r)) = None ->
      In (HttpPost post_url
            (Executor.make_payload court_code state_code court_complex_code
               search_type query year "1234") 15)
         (trace_of run)).
Proof.
  intros Hck Hget Hst Hpos run.
  pose proof (hybrid_answer image Image_open convert image_to_string (content r))
    as Hhyb.
  pose proof (ocr_some_long image Image_open convert image_to_string (content r))
    as Hlong.
  assert (Hsol : exists logs sol,
             imported_solve_captcha Image_open convert image_to_string (content r)
             = (logs, Ok (Some sol))
             /\ truthy sol = true
             /\ (snd (Captcha.solve_captcha_from_bytes Image_open convert
                        image_to_string (content r)) = None -> sol = "1234")).
  { unfold imported_solve_captcha, Captcha.solve_captcha.
    destruct (Captcha.hybrid_solve_captcha Image_open convert image_to_string
                (content r)) as [logs solution].
    simpl in Hhyb.
    destruct (snd (Captcha.solve_captcha_from_bytes Image_open convert
                     image_to_string (content r))) as [t|].
    - exists logs, t. subst solution. split; [reflexivity|].
      split; [|discriminate].
      apply len_truthy. specialize (Hlong t eq_refl). lia.
    - exists logs, "1234". subst solution. repeat split. }
  destruct Hsol as (logs & sol & Hsolve & Htr & Hnone).
  destruct (range_pos _ Hpos) as [rest Hrange].
  assert (Hpost : In (HttpPost post_url
                        (Executor.make_payload court_code state_code
                           court_complex_code search_type query year sol) 15)
                     (trace_of run)).
  { subst run.
    rewrite (search_submits St page_context_cookies session_get session_post _
               court_code state_code court_complex_code search_type query year
               max_retries _ _ _ _ _ _ _ Hck Hget Hst Hsolve Htr).
    unfold trace_of at 1. simpl. right; right.
    apply in_or_app. right. right. rewrite Hrange. apply loop_first_post. }
  split.
  - unfold count.
    assert (Hf : In (HttpPost post_url
                       (Executor.make_payload court_code state_code
                          court_complex_code search_type query year sol) 15)
                    (filter is_submit (trace_of run)))
      by (apply filter_In; split; [exact Hpost | reflexivity]).
    destruct (filter is_submit (trace_of run)); [destruct Hf | simpl; lia].
  - intros Hocr. rewrite <- (Hnone Hocr). exact Hpost.
Qed.

Lemma ocr_failure_posts_placeholder_witness :
  In (HttpPost post_url (Scripted.form "1234") 15)
     (trace_of (Executor.perform_search_and_extract Scripted.cookies Scripted.get
                  Scripted.post
                  (imported_solve_captcha Scripted.engine_broken
                     Scripted.engine_convert (Scripted.engine_reads "x"))
                  "1" "26" "1" "party_name" "kumar" "2024" 3
                  (Scripted.portal [Scripted.reply_results]))).
Proof.
  exact (proj2 (ocr_failure_posts_placeholder
                  Scripted.script Scripted.cookies Scripted.get Scripted.post
                  bytes Scripted.engine_broken Scripted.engine_convert
                  (Scripted.engine_reads "x")
                  "1" "26" "1" "party_name" "kumar" "2024" 3
                  (Scripted.portal [Scripted.reply_results])
                  (Scripted.portal [Scripted.reply_results])
                  (Scripted.portal [Scripted.reply_results])
                  Scripted.session_cookie Scripted.challenge_image
                  eq_refl eq_refl eq_refl eq_refl) eq_refl).
Defined.

(* ================================================================== *)
(** * Further properties of parsing and of the resolver                *)
(* ================================================================== *)

(** ** Stripping *)

Lemma lstrip_length (s : string) : (String.length (lstrip s) <= String.length s)%nat.
Proof.
  induction s as [|c r IH]; simpl; [lia|].
  destruct (isspace c); simpl; lia.
Qed.

(** A string [lstrip] leaves alone is empty or starts with a character that
    is not white space. *)
Lemma lstrip_fixed_head (c : ascii) (r : string) :
  lstrip (String c r) = String c r -> isspace c = false.
Proof.
  simpl. destruct (isspace c); [|reflexivity].
  intros E. pose proof (lstrip_length r) as H. rewrite E in H. simpl in H. lia.
Qed.

Lemma lstrip_idempotent (s : string) : lstrip (lstrip s) = lstrip s.
Proof.
  induction s as [|c r IH]; simpl; [reflexivity|].
  destruct (isspace c) eqn:E; [exact IH|]. simpl. rewrite E. reflexivity.
Qed.

Lemma rstrip_idempotent (s : string) : rstrip (rstrip s) = rstrip s.
Proof.
  induction s as [|c r IH]; simpl; [reflexivity|].
  destruct (rstrip r) as [|x y] eqn:Q.
  - destruct (isspace c) eqn:E; simpl; [reflexivity|]. rewrite E. reflexivity.
  - change (rstrip (String c (String x y))) with
      (match rstrip (String x y) with
       | EmptyString => if isspace c then EmptyString else String c EmptyString
       | r' => String c r'
       end).
    rewrite IH. reflexivity.
Qed.

(** [rstrip] keeps a first character that is not white space. *)
Lemma lstrip_rstrip (s : string) : lstrip s = s -> lstrip (rstrip s) = rstrip s.
Proof.
  destruct s as [|c r]; [reflexivity|].
  intros E. apply lstrip_fixed_head in E. simpl.
  destruct (rstrip r); [rewrite E|]; simpl; rewrite E; reflexivity.
Qed.

Lemma strip_trimmed (s : string) : trimmed (strip s).
Proof.
  unfold trimmed, strip. split.
  - apply lstrip_rstrip. apply lstrip_idempotent.
  - apply rstrip_idempotent.
Qed.

Lemma trimmed_strip (s : string) : trimmed s -> strip s = s.
Proof. intros [H1 H2]. unfold strip. rewrite H1. exact H2. Qed.

Lemma lstrip_app (s t : string) :
  s <> "" -> lstrip s = s -> lstrip (s ++ t) = (s ++ t)%string.
Proof.
  destruct s as [|c r]; [congruence|]. intros _ E.
  apply lstrip_fixed_head in E. simpl. rewrite E. reflexivity.
Qed.

Lemma rstrip_app (s t : string) :
  rstrip t <> "" -> rstrip (s ++ t) = (s ++ rstrip t)%string.
Proof.
  intros Ht. induction s as [|c r IH]; simpl; [reflexivity|].
  rewrite IH. destruct (r ++ rstrip t)%string eqn:E; [|reflexivity].
  exfalso. destruct r; simpl in E; [congruence | discriminate].
Qed.

(** Gluing trimmed, non-empty pieces gives a trimmed string. *)
Lemma concat_trimmed (pieces : list string) :
  Forall (fun p => p <> "" /\ trimmed p) pieces ->
  trimmed (String.concat "" pieces)
  /\ (pieces <> [] -> String.concat "" pieces <> "").
Proof.
  induction 1 as [|p rest [Hne [Hl Hr]] _ [[IHl IHr] IHne]].
  - split; [split; reflexivity | congruence].
  - destruct rest as [|q rest'].
    + simpl. split; [split; assumption | intros _; exact Hne].
    + assert (Hq : String.concat "" (q :: rest') <> "") by (apply IHne; congruence).
      assert (Hc : String.concat "" (p :: q :: rest')
                   = (p ++ String.concat "" (q :: rest'))%string) by reflexivity.
      rewrite Hc. clear Hc.
      remember (String.concat "" (q :: rest')) as tl eqn:Htl. clear Htl.
      split; [split|].
      * apply lstrip_app; assumption.
      * rewrite rstrip_app by (rewrite IHr; exact Hq). rewrite IHr. reflexivity.
      * intros _ E. destruct p; [congruence | discriminate].
Qed.

Lemma stripped_strings_trimmed (ns : list node) :
  Forall (fun p => p <> "" /\ trimmed p) (stripped_strings ns).
Proof.
  induction ns as [|[s|nm attrs cs] rest IH]; simpl; [constructor| |exact IH].
  destruct (truthy (strip s)) eqn:E; [|exact IH].
  constructor; [|exact IH]. split; [|apply strip_trimmed].
  intros E'. rewrite E' in E. discriminate.
Qed.

(** The text of a tag, as [get_text(strip=True)] gives it, has no white
    space at either end. *)
Lemma get_text_strip_trimmed (tag : node) : strip (get_text_strip tag) = get_text_strip tag.
Proof.
  apply trimmed_strip. unfold get_text_strip.
  apply concat_trimmed. apply stripped_strings_trimmed.
Qed.

(** ** The rows of the results table *)

Lemma row_dict_fields (row : node) (d : result_row) :
  row_dict row = Ok d ->
  strip (case_number d) = case_number d
  /\ strip (party_name d) = party_name d
  /\ strip (next_date d) = next_date d
  /\ strip (status d) = status d.
Proof.
  unfold row_dict.
  destruct (select "td" row) as [|c0 [|c1 [|c2 [|c3 l]]]]; simpl;
    intros E; inversion E; subst; simpl.
  repeat split; apply get_text_strip_trimmed.
Qed.

(** X8. The results table parses exactly when none of its rows after the
    first has fewer than four cells, and then it gives one record per such
    row: as many records as the table has rows, less the header. *)
Theorem parse_succeeds_iff_no_short_row (results_table : node) :
  (has_short_data_row results_table = false
   <-> exists results, parse_results_table results_table = Ok results)
  /\ forall results,
       parse_results_table results_table = Ok results ->
       length results = (length (select "tr" results_table) - 1)%nat.
Proof.
  split; [split|].
  - intros H. destruct (extract_rows_long _ H []) as (ds & E & _).
    exists ds. exact E.
  - intros [results E]. exact (proj1 (parse_ok _ _ E)).
  - intros results E. destruct (parse_ok _ _ E) as [_ HF].
    apply Forall2_length in HF. rewrite <- HF, length_skipn. reflexivity.
Qed.

(** X9. Every field of every record parsed from a results table is free of
    white space at both ends. *)
Theorem parsed_fields_are_stripped (results_table : node)
    (results : list result_row) (d : result_row) :
  parse_results_table results_table = Ok results ->
  In d results ->
  strip (case_number d) = case_number d
  /\ strip (party_name d) = party_name d
  /\ strip (next_date d) = next_date d
  /\ strip (status d) = status d.
Proof.
  intros E Hin. destruct (parse_ok _ _ E) as [_ HF].
  assert (H : exists row, row_dict row = Ok d).
  { clear E. induction HF as [|row d' rows ds [_ Hd] _ IH]; [destruct Hin|].
    destruct Hin as [<-|Hin]; [exists row; exact Hd | exact (IH Hin)]. }
  destruct H as [row Hrow]. exact (row_dict_fields _ _ Hrow).
Qed.

Lemma parsed_fields_are_stripped_witness :
  parse_results_table Scripted.results_table = Ok Scripted.parsed_rows
  /\ strip "Kumar vs State" = "Kumar vs State".
Proof.
  split; [reflexivity|].
  exact (proj1 (proj2 (parsed_fields_are_stripped Scripted.results_table
                         Scripted.parsed_rows
                         (ResultRow "W.P.123/2024" "Kumar vs State" "12-01-2025"
                            "Pending")
                         eq_refl (or_introl eq_refl)))).
Defined.

(** ** The text the OCR strategy accepts *)

Lemma replace_removes (c : ascii) (s : string) :
  ~ In c (chars (replace_char_by_empty c s)).
Proof.
  induction s as [|x r IH]; simpl; [tauto|].
  destruct (Ascii.eqb_spec x c) as [->|Hne]; [exact IH|].
  simpl. intros [E|H]; [congruence | exact (IH H)].
Qed.

Lemma replace_subset (c x : ascii) (s : string) :
  In x (chars (replace_char_by_empty c s)) -> In x (chars s).
Proof.
  induction s as [|y r IH]; simpl; [tauto|].
  destruct (Ascii.eqb y c); simpl; intros H; [right; exact (IH H)|].
  destruct H as [E|H]; [left; exact E | right; exact (IH H)].
Qed.

(** X10. A text accepted by the OCR strategy is the answer of the hybrid
    resolver, which then logs three records and does not run the fallback;
    the text has four characters at least and holds neither a space nor a
    line feed. *)
Theorem accepted_ocr_text_is_the_answer
    (image : Type) (Image_open : bytes -> outcome image)
    (convert : image -> string -> outcome image)
    (image_to_string : image -> string -> outcome string)
    (image_bytes : bytes) (s : string) :
  snd (Captcha.solve_captcha_from_bytes Image_open convert image_to_string
         image_bytes) = Some s ->
  Captcha.solve_captcha Image_open convert image_to_string image_bytes
  = ([LogRecord INFO "Attempting to solve CAPTCHA...";
      LogRecord INFO ("OCR extracted CAPTCHA: " ++ s);
      LogRecord INFO "CAPTCHA solved using OCR"],
     Some s)
  /\ 4 <= len s
  /\ ~ In " "%char (chars s)
  /\ ~ In "010"%char (chars s).
Proof.
  intros Hocr.
  pose proof (ocr_some_long image Image_open convert image_to_string image_bytes
                s Hocr) as Hlong.
  split; [|split; [exact Hlong|]].
  - unfold Captcha.solve_captcha, Captcha.hybrid_solve_captcha.
    revert Hocr. unfold Captcha.solve_captcha_from_bytes.
    destruct (Image_open image_bytes) as [img|e]; [|discriminate].
    destruct (convert img "L") as [img'|e]; [|discriminate].
    destruct (image_to_string img' Captcha.tesseract_config) as [t|e];
      [|discriminate].
    destruct (len (Captcha.clean t) >=? 4); [|discriminate].
    simpl. intros E. inversion E as [E']. rewrite E'.
    rewrite (len_truthy s) by lia. reflexivity.
  - rewrite ocr_answer in Hocr.
    destruct (Captcha.ocr_raw_text Image_open convert image_to_string image_bytes)
      as [t|]; [|discriminate].
    destruct (len (Captcha.clean t) >=? 4); [|discriminate].
    inversion Hocr as [E]. unfold Captcha.clean. split.
    + intros H. apply replace_subset in H. exact (replace_removes _ _ H).
    + apply replace_removes.
Qed.

Lemma accepted_ocr_text_is_the_answer_witness :
  snd (Captcha.solve_captcha Scripted.engine_open Scripted.engine_convert
         (Scripted.engine_reads " x7 Kq ") [Byte.x01]) = Some "x7Kq".
Proof.
  exact (f_equal snd
           (proj1 (accepted_ocr_text_is_the_answer bytes Scripted.engine_open
                     Scripted.engine_convert (Scripted.engine_reads " x7 Kq ")
                     [Byte.x01] "x7Kq" eq_refl))).
Defined.

(** ** The court listing *)

(** X11. Every court of the listing has a value that is not empty and has no
    white space at either end, and a text without white space at either
    end; a dropdown that is not visible, or a page that raises, gives the
    empty listing. *)
Theorem listed_courts_are_clean (page : outcome Topology.court_select)
    (e : Topology.entry) :
  In e (snd (Topology.enumerate_high_courts page)) ->
  Topology.value e <> ""
  /\ strip (Topology.value e) = Topology.value e
  /\ strip (Topology.text e) = Topology.text e
  /\ exists select, page = Ok select /\ Topology.is_visible select = true.
Proof.
  unfold Topology.enumerate_high_courts.
  destruct page as [select|ex]; [|intros []].
  destruct (Topology.is_visible select) eqn:V; simpl; [|intros []].
  intros Hin. apply collect_courts_kept in Hin.
  destruct Hin as [[] | (opt & v & _ & _ & Hne & _ & ->)]. simpl.
  split; [exact Hne|].
  split; [apply trimmed_strip, strip_trimmed|].
  split; [apply trimmed_strip, strip_trimmed|].
  exists select. split; [reflexivity | exact V].
Qed.

Lemma listed_courts_are_clean_witness :
  snd (Topology.enumerate_high_courts
         (Ok (Topology.CourtSelect true
                [Topology.OptionLocator None "Select";
                 Topology.OptionLocator (Some " 26 ") " High Court of Delhi "])))
  = [Topology.Entry "26" "High Court of Delhi"]
  /\ strip "26" = "26".
Proof.
  split; [reflexivity|].
  exact (proj1 (proj2 (listed_courts_are_clean
                         (Ok (Topology.CourtSelect true
                                [Topology.OptionLocator None "Select";
                                 Topology.OptionLocator (Some " 26 ")
                                   " High Court of Delhi "]))
                         (Topology.Entry "26" "High Court of Delhi")
                         (or_introl eq_refl)))).
Defined.

(* ================================================================== *)
(** * Properties of the page driver                                    *)
(* ================================================================== *)

Section BrowserFacts.

Variable St : Type.
Variable frame : Type.
Variable click : string -> option Z -> St -> outcome unit * St.
Variable wait_for_load_state : string -> St -> outcome unit * St.
Variable wait_for_timeout : Z -> St -> outcome unit * St.
Variable is_visible : string -> Z -> St -> outcome bool * St.
Variable keyboard_press : string -> St -> outcome unit * St.

Local Abbreviation probe :=
  (@Browser.probe_popups St frame click wait_for_timeout is_visible).
Local Abbreviation escape :=
  (@Browser.press_escape St frame wait_for_timeout keyboard_press).
Local Abbreviation handle_popup :=
  (@Browser.handle_popup_if_present St frame click wait_for_timeout is_visible
     keyboard_press).
Local Abbreviation try_page :=
  (@Browser.try_case_status St frame click wait_for_load_state
     wait_for_timeout is_visible keyboard_press).
Local Abbreviation open_page :=
  (@Browser.open_case_status_page St frame click wait_for_load_state
     wait_for_timeout is_visible keyboard_press).

Ltac run_browser :=
  unfold Browser.bind, Browser.call, Browser.emit, Browser.logger, Browser.ret,
    value_of, state_of, trace_of; simpl.

Lemma clicks_app (a b : list (Browser.action frame)) :
  Browser.clicks (a ++ b) = Browser.clicks a ++ Browser.clicks b.
Proof.
  induction a as [|x a IH]; [reflexivity|].
  destruct x; simpl; rewrite ?IH; reflexivity.
Qed.

(** One pass of the loop over the popup selectors. *)
Lemma probe_step (after : Browser.B St frame (option bool)) (sel : string)
    (rest : list string) (s : St) :
  probe (sel :: rest) after s
  = match is_visible sel 1000 s with
    | (Ok true, s1) =>
        match click sel None s1 with
        | (Ok _, s2) =>
            match wait_for_timeout 500 s2 with
            | (Ok _, s3) =>
                (Some true, s3,
                 [Browser.IsVisible sel 1000; Browser.Click sel None;
                  Browser.ALog
                    (LogRecord INFO ("Dismissed popup using selector: " ++ sel));
                  Browser.WaitForTimeout 500])
            | (Raise _, s3) =>
                prepend [Browser.IsVisible sel 1000; Browser.Click sel None;
                         Browser.ALog
                           (LogRecord INFO
                              ("Dismissed popup using selector: " ++ sel));
                         Browser.WaitForTimeout 500]
                  (probe rest after s3)
            end
        | (Raise _, s2) =>
            prepend [Browser.IsVisible sel 1000; Browser.Click sel None]
              (probe rest after s2)
        end
    | (_, s1) => prepend [Browser.IsVisible sel 1000] (probe rest after s1)
    end.
Proof.
  simpl. unfold prepend. run_browser.
  destruct (is_visible sel 1000 s) as [[[|]|e] s1]; simpl;
    try (destruct (Browser.probe_popups _ _ _ rest after s1) as [[v s'] t];
         reflexivity).
  destruct (click sel None s1) as [[[]|e] s2]; simpl;
    try (destruct (Browser.probe_popups _ _ _ rest after s2) as [[v s'] t];
         reflexivity).
  destruct (wait_for_timeout 500 s2) as [[[]|e] s3]; simpl; [reflexivity|].
  destruct (Browser.probe_popups _ _ _ rest after s3) as [[v s'] t]; reflexivity.
Qed.

(** The loop over the popup selectors either returns [True] after a click,
    without reaching the code behind the loop, or runs that code; the loop
    itself probes each selector once at most and presses no key. *)
Lemma probe_shape (after : Browser.B St frame (option bool)) (selectors : list string) :
  forall s, exists (t : list (Browser.action frame)) (s' : St),
    Browser.tally Browser.is_press t = 0%nat
    /\ Browser.tally Browser.is_popup_entry t = 0%nat
    /\ (Browser.tally Browser.is_probe t <= length selectors)%nat
    /\ Forall (fun c => In (fst c) selectors /\ snd c = None) (Browser.clicks t)
    /\ ((probe selectors after s = (Some true, s', t) /\ Browser.clicks t <> [])
        \/ probe selectors after s = prepend t (after s')).
Proof.
  induction selectors as [|sel rest IH]; intros s.
  - exists [], s. repeat split; auto. right. simpl.
    unfold prepend, value_of, state_of, trace_of.
    destruct (after s) as [[v s1] t]. reflexivity.
  - rewrite probe_step.
    assert (Hnext : forall s1 (pre : list (Browser.action frame)),
               Browser.tally Browser.is_press pre = 0%nat ->
               Browser.tally Browser.is_popup_entry pre = 0%nat ->
               (Browser.tally Browser.is_probe pre <= 1)%nat ->
               Forall (fun c => In (fst c) (sel :: rest) /\ snd c = None)
                 (Browser.clicks pre) ->
               exists t s',
                 Browser.tally Browser.is_press t = 0%nat
                 /\ Browser.tally Browser.is_popup_entry t = 0%nat
                 /\ (Browser.tally Browser.is_probe t <= length (sel :: rest))%nat
                 /\ Forall (fun c => In (fst c) (sel :: rest) /\ snd c = None)
                      (Browser.clicks t)
                 /\ ((prepend pre (probe rest after s1) = (Some true, s', t)
                      /\ Browser.clicks t <> [])
                     \/ prepend pre (probe rest after s1) = prepend t (after s'))).
    { intros s1 pre P1 P2 P3 P4.
      destruct (IH s1) as (t & s' & T1 & T2 & T3 & T4 & T5).
      exists (pre ++ t), s'.
      unfold Browser.tally in *. rewrite !filter_app, !length_app, clicks_app.
      simpl length.
      split; [lia|]. split; [lia|]. split; [lia|]. split.
      - apply Forall_app. split; [exact P4|].
        revert T4. apply Forall_impl. intros c [Hc1 Hc2]. split; [right|]; auto.
      - destruct T5 as [[E Hne] | E]; rewrite E.
        + left. split; [reflexivity|].
          intros H. apply app_eq_nil in H. tauto.
        + right. unfold prepend, value_of, state_of, trace_of. simpl.
          rewrite app_assoc. reflexivity. }
    destruct (is_visible sel 1000 s) as [[[|]|e] s1].
    + destruct (click sel None s1) as [[[]|e] s2].
      * destruct (wait_for_timeout 500 s2) as [[[]|e] s3].
        -- exists [Browser.IsVisible sel 1000; Browser.Click sel None;
                   Browser.ALog
                     (LogRecord INFO ("Dismissed popup using selector: " ++ sel));
                   Browser.WaitForTimeout 500], s3.
           split; [reflexivity|]. split; [reflexivity|].
           split; [unfold Browser.tally; simpl; lia|].
           split; [|left; split; [reflexivity | simpl; discriminate]].
           simpl. constructor; [|constructor]. split; [left|]; reflexivity.
        -- apply Hnext; try reflexivity; try (unfold Browser.tally; simpl; lia).
           simpl. constructor; [|constructor]. split; [left|]; reflexivity.
      * apply Hnext; try reflexivity; try (unfold Browser.tally; simpl; lia).
        simpl. constructor; [|constructor]. split; [left|]; reflexivity.
    + apply Hnext; try reflexivity; try (unfold Browser.tally; simpl; lia).
      constructor.
    + apply Hnext; try reflexivity; try (unfold Browser.tally; simpl; lia).
      constructor.
Qed.

Lemma escape_shape (s : St) :
  value_of (escape s) = None
  /\ Browser.tally Browser.is_press (trace_of (escape s)) = 1%nat
  /\ Browser.tally Browser.is_popup_entry (trace_of (escape s)) = 0%nat
  /\ Browser.tally Browser.is_probe (trace_of (escape s)) = 0%nat
  /\ Browser.clicks (trace_of (escape s)) = [].
Proof.
  unfold Browser.press_escape. run_browser.
  destruct (keyboard_press "Escape" s) as [[[]|e] s1]; simpl.
  - destruct (wait_for_timeout 500 s1) as [w s2]; simpl. repeat split.
  - repeat split.
Qed.

Lemma handle_popup_step (s : St) :
  handle_popup s
  = match wait_for_timeout 1000 s with
    | (Raise e, s1) =>
        (None, s1,
         [Browser.WaitForTimeout 1000;
          Browser.ALog
            (LogRecord DEBUG ("Popup handling error (non-critical): "
                                ++ str_of_exn e))])
    | (Ok _, s1) =>
        prepend [Browser.WaitForTimeout 1000]
          (probe Browser.popup_selectors escape s1)
    end.
Proof.
  unfold Browser.handle_popup_if_present, prepend.
  generalize Browser.popup_selectors as selectors. intros selectors.
  run_browser.
  destruct (wait_for_timeout 1000 s) as [[[]|e] s1]; simpl; [|reflexivity].
  destruct (Browser.probe_popups _ _ _ _ _ s1) as [[v s2] t]. reflexivity.
Qed.

(** The handler on any list of selectors: what X12 says, for the list
    [selectors] in place of the eleven. *)
Lemma popup_loop_bounded (selectors : list string) (s1 : St) :
  let run := prepend [Browser.WaitForTimeout 1000] (probe selectors escape s1) in
  (value_of run = Some true \/ value_of run = None)
  /\ Browser.tally Browser.is_popup_entry (trace_of run) = 1%nat
  /\ (Browser.tally Browser.is_probe (trace_of run) <= length selectors)%nat
  /\ (Browser.tally Browser.is_press (trace_of run) <= 1)%nat
  /\ (value_of run = Some true ->
      Browser.tally Browser.is_press (trace_of run) = 0%nat
      /\ Browser.clicks (trace_of run) <> [])
  /\ Forall (fun c => In (fst c) selectors /\ snd c = None)
       (Browser.clicks (trace_of run)).
Proof.
  intros run. subst run.
  destruct (probe_shape escape selectors s1)
    as (t & s' & T1 & T2 & T3 & T4 & [[E Hne] | E]); rewrite E; clear E.
  - unfold prepend, value_of, state_of, trace_of, Browser.tally in *.
    cbn [fst snd app filter Browser.is_popup_entry Browser.is_probe
         Browser.is_press Browser.clicks length Z.eqb Pos.eqb].
    split; [left; reflexivity|]. split; [lia|]. split; [lia|]. split; [lia|].
    split; [intros _; split; [lia | exact Hne] | exact T4].
  - destruct (escape_shape s') as (V & P & Q & R & C).
    destruct (escape s') as [[v s2] t2].
    unfold prepend, value_of, state_of, trace_of, Browser.tally in *.
    cbn [fst snd] in *. subst v.
    cbn [app filter Browser.is_popup_entry Browser.is_probe
         Browser.is_press Browser.clicks length Z.eqb Pos.eqb].
    rewrite clicks_app, !filter_app, !length_app, C, app_nil_r.
    split; [right; reflexivity|]. split; [lia|]. split; [lia|]. split; [lia|].
    split; [intros H; discriminate H | exact T4].
Qed.


(** The loop on a quiet page, for any list of selectors. *)
Lemma probe_first_visible (visible : string -> bool) (s0 : St) :
  (forall sel, is_visible sel 1000 s0 = (Ok (visible sel), s0)) ->
  (forall sel, visible sel = true ->
     exists s1 s2, click sel None s0 = (Ok tt, s1)
                   /\ wait_for_timeout 500 s1 = (Ok tt, s2)) ->
  forall selectors,
    value_of (probe selectors escape s0)
    = (if existsb visible selectors then Some true else None)
    /\ Browser.clicks (trace_of (probe selectors escape s0))
       = match List.find visible selectors with
         | Some sel => [(sel, None)]
         | None => []
         end
    /\ Browser.tally Browser.is_press (trace_of (probe selectors escape s0))
       = (if existsb visible selectors then 0 else 1)%nat.
Proof.
  intros Hvis Hclick selectors.
  induction selectors as [|sel rest IH].
  - cbn [existsb List.find Browser.probe_popups].
    destruct (escape_shape s0) as (V & P & _ & _ & C). auto.
  - rewrite probe_step, Hvis. cbn [existsb List.find].
    destruct (visible sel) eqn:V.
    + destruct (Hclick sel V) as (s1 & s2 & -> & ->). repeat split.
    + destruct IH as (I1 & I2 & I3).
      destruct (probe rest escape s0) as [[v s1] t].
      unfold prepend, value_of, state_of, trace_of, Browser.tally in *.
      cbn [fst snd app filter Browser.is_press Browser.clicks length orb] in *.
      auto.
Qed.

(** X13. On a page where, before any click, the waits pass and the
    visibility probes answer without changing the page, the popup handler
    clicks the first visible selector of its list and nothing else, and
    returns [True] without pressing Escape; when no selector is visible it
    clicks nothing, presses Escape once and returns nothing. *)
Theorem first_visible_popup_is_clicked (visible : string -> bool) (s0 : St) :
  wait_for_timeout 1000 s0 = (Ok tt, s0) ->
  (forall sel, is_visible sel 1000 s0 = (Ok (visible sel), s0)) ->
  (forall sel, visible sel = true ->
     exists s1 s2, click sel None s0 = (Ok tt, s1)
                   /\ wait_for_timeout 500 s1 = (Ok tt, s2)) ->
  value_of (handle_popup s0)
  = (if existsb visible Browser.popup_selectors then Some true else None)
  /\ Browser.clicks (trace_of (handle_popup s0))
     = match List.find visible Browser.popup_selectors with
       | Some sel => [(sel, None)]
       | None => []
       end
  /\ Browser.tally Browser.is_press (trace_of (handle_popup s0))
     = (if existsb visible Browser.popup_selectors then 0 else 1)%nat.
Proof.
  intros Hwait Hvis Hclick.
  rewrite handle_popup_step, Hwait.
  destruct (probe_first_visible visible s0 Hvis Hclick Browser.popup_selectors)
    as (I1 & I2 & I3).
  destruct (probe Browser.popup_selectors escape s0) as [[v s1] t].
  unfold prepend, value_of, state_of, trace_of, Browser.tally in *.
  cbn [fst snd app filter Browser.is_press Browser.clicks length] in *.
  auto.
Qed.

Lemma popup_entry_once (s : St) :
  Browser.tally Browser.is_popup_entry (trace_of (handle_popup s)) = 1%nat.
Proof.
  rewrite handle_popup_step.
  destruct (wait_for_timeout 1000 s) as [[[]|e] s1].
  - exact (proj1 (proj2 (popup_loop_bounded Browser.popup_selectors s1))).
  - reflexivity.
Qed.

(** Trying the candidate selectors, whatever the list. *)
Lemma try_page_shape (selectors : list string) (s : St) :
  value_of (try_page selectors s) = true
  /\ Browser.tally Browser.is_popup_entry (trace_of (try_page selectors s)) = 1%nat.
Proof.
  revert s. induction selectors as [|sel rest IH]; intros s.
  - cbn [Browser.try_case_status]. run_browser.
    pose proof (popup_entry_once s) as H. unfold trace_of in H.
    destruct (handle_popup s) as [[v s1] t].
    cbn [fst snd] in *. rewrite app_nil_r. split; [reflexivity | exact H].
  - cbn [Browser.try_case_status]. run_browser.
    destruct (click sel (Some 2000) s) as [[[]|e] s1]; cbn [fst snd].
    + destruct (wait_for_load_state "networkidle" s1) as [[[]|e] s2]; cbn [fst snd].
      * pose proof (popup_entry_once s2) as H. unfold trace_of in H.
        destruct (handle_popup s2) as [[v s3] t].
        cbn [fst snd] in *. rewrite app_nil_r. split; [reflexivity | exact H].
      * destruct (IH s2) as [I1 I2]. unfold value_of, trace_of in *.
        destruct (try_page rest s2) as [[v s3] t].
        cbn [fst snd] in *. split; [exact I1 | exact I2].
    + destruct (IH s1) as [I1 I2]. unfold value_of, trace_of in *.
      destruct (try_page rest s1) as [[v s3] t].
      cbn [fst snd] in *. split; [exact I1 | exact I2].
Qed.

(** X14. Opening the Case Status section always returns [True], whichever
    clicks or waits raise, and runs the popup handler exactly once. *)
Theorem open_page_always_succeeds (s : St) :
  value_of (open_page s) = true
  /\ Browser.tally Browser.is_popup_entry (trace_of (open_page s)) = 1%nat.
Proof. exact (try_page_shape Browser.case_status_selectors s). Qed.


End BrowserFacts.

Lemma first_visible_popup_is_clicked_witness :
  let run := @Browser.handle_popup_if_present (list string) nat Browser.Calm.click
               Browser.Calm.wait_for_timeout Browser.Calm.is_visible
               Browser.Calm.keyboard_press ["#popup button"; "input[value='OK']"] in
  value_of run = Some true
  /\ Browser.clicks (trace_of run) = [("input[value='OK']", None)].
Proof.
  intros run.
  pose proof (first_visible_popup_is_clicked (list string) nat Browser.Calm.click
                Browser.Calm.wait_for_timeout Browser.Calm.is_visible
                Browser.Calm.keyboard_press
                (fun sel => Browser.Calm.shows sel
                              ["#popup button"; "input[value='OK']"])
                ["#popup button"; "input[value='OK']"]
                eq_refl (fun sel => eq_refl)
                (fun sel V =>
                   ex_intro _ _ (ex_intro _ _
                     (conj (f_equal (fun b : bool =>
                                       if b
                                       then (Ok tt,
                                             filter (fun x => negb (String.eqb sel x))
                                               ["#popup button"; "input[value='OK']"])
                                       else (Raise (OtherException
                                                      "Timeout 2000ms exceeded."),
                                             ["#popup button"; "input[value='OK']"]))
                                    V)
                           eq_refl))))
    as (H1 & H2 & _).
  split; [exact H1 | exact H2].
Defined.

Section BenchFacts.

Variable St : Type.
Variable frame : Type.
Variable select_option : string -> string -> St -> outcome unit * St.
Variable page_frames : St -> list frame * St.
Variable query_selector : frame -> string -> St -> outcome bool * St.
Variable wait_for_function : option frame -> Z -> St -> outcome unit * St.
Variable eval_on_selector_all :
  option frame -> string -> St -> outcome (list Topology.dom_option) * St.

Local Abbreviation find_frame := (@Browser.find_bench_frame St frame query_selector).
Local Abbreviation poll :=
  (@Browser.poll_bench_frame St frame page_frames query_selector).
Local Abbreviation benches :=
  (@Browser.enumerate_benches St frame select_option page_frames query_selector
     wait_for_function eval_on_selector_all).

Ltac run_bench :=
  unfold Browser.print;
  unfold Browser.bind, Browser.call, Browser.emit, Browser.ret,
    value_of, state_of, trace_of; cbn [fst snd].

(** An event of the polling loop. *)
Local Abbreviation polling a :=
  (match a with
   | Browser.Frames | Browser.QuerySelector _ _ => True
   | Browser.ASleep n => n = 1
   | _ => False
   end).

(** The search of one frame list only queries frames. *)
Lemma find_frame_shape (frames : list frame) :
  forall s,
    Browser.tally Browser.is_asleep (trace_of (find_frame frames s)) = 0%nat
    /\ Browser.tally Browser.is_frames (trace_of (find_frame frames s)) = 0%nat
    /\ Forall (fun a => polling a) (trace_of (find_frame frames s))
    /\ (value_of (find_frame frames s) = None ->
        forall f, In f frames ->
                  exists s1, fst (query_selector f "#court_complex_code" s1) <> Ok true).
Proof.
  induction frames as [|f rest IH]; intros s.
  - repeat split; try constructor. intros _ f [].
  - cbn [Browser.find_bench_frame]. run_bench.
    destruct (query_selector f "#court_complex_code" s) as [q s1] eqn:Q.
    destruct (IH s1) as (I1 & I2 & I3 & I4).
    unfold value_of, trace_of, Browser.tally in *.
    destruct q as [[|]|e]; cbn [fst snd app].
    + repeat split; try (repeat constructor). intros H. discriminate H.
    + destruct (find_frame rest s1) as [[v s2] t]. cbn [fst snd app filter] in *.
      cbn [Browser.is_asleep Browser.is_frames].
      split; [exact I1|]. split; [exact I2|].
      split; [constructor; [exact I|exact I3]|].
      intros Hv g [<-|Hg]; [|exact (I4 Hv g Hg)].
      exists s. rewrite Q. discriminate.
    + destruct (find_frame rest s1) as [[v s2] t]. cbn [fst snd app filter] in *.
      cbn [Browser.is_asleep Browser.is_frames].
      split; [exact I1|]. split; [exact I2|].
      split; [constructor; [exact I|exact I3]|].
      intros Hv g [<-|Hg]; [|exact (I4 Hv g Hg)].
      exists s. rewrite Q. discriminate.
Qed.

(** The polling loop reads the frame list once per round and sleeps one
    second after every round that finds nothing. *)
Lemma poll_shape (attempts : list Z) :
  forall s,
    (Browser.tally Browser.is_asleep (trace_of (poll attempts s))
     <= length attempts)%nat
    /\ (Browser.tally Browser.is_frames (trace_of (poll attempts s))
        <= length attempts)%nat
    /\ Forall (fun a => polling a) (trace_of (poll attempts s))
    /\ (value_of (poll attempts s) = None ->
        Browser.tally Browser.is_asleep (trace_of (poll attempts s))
        = length attempts).
Proof.
  induction attempts as [|a rest IH]; intros s.
  - repeat split; try constructor; apply Nat.le_refl.
  - cbn [Browser.poll_bench_frame]. run_bench.
    destruct (page_frames s) as [fs s1].
    destruct (find_frame_shape fs s1) as (F1 & F2 & F3 & _).
    unfold value_of, trace_of, Browser.tally in *.
    destruct (find_frame fs s1) as [[[f|] s2] t]; cbn [fst snd app] in *.
    + rewrite app_nil_r. cbn [filter Browser.is_asleep Browser.is_frames length].
      rewrite F1, F2. repeat split; try lia.
      * constructor; [exact I | exact F3].
      * intros H. discriminate H.
    + destruct (IH s2) as (I1 & I2 & I3 & I4).
      destruct (poll rest s2) as [[v s3] t3]. cbn [fst snd app] in *.
      cbn [filter Browser.is_asleep Browser.is_frames length].
      rewrite !filter_app, !length_app. cbn [filter Browser.is_asleep
                                               Browser.is_frames length].
      rewrite F1, F2. repeat split; try lia.
      * constructor; [exact I|]. apply Forall_app. split; [exact F3|].
        constructor; [reflexivity | exact I3].
      * intros Hv. specialize (I4 Hv). lia.
Qed.

(** [enumerate_benches], spelled out around the polling loop. *)
Lemma benches_step (court_value : string) (s : St) :
  benches court_value s
  = match select_option "#sess_state_code" court_value s with
    | (Raise e, s1) =>
        (Raise e, s1, [Browser.SelectOption "#sess_state_code" court_value])
    | (Ok _, s1) =>
        let p := poll (range 10) s1 in
        let target := value_of p in
        let head :=
          [Browser.SelectOption "#sess_state_code" court_value;
           Browser.APrint ("Selected High Court value: " ++ court_value)]
            ++ trace_of p ++ [Browser.WaitForFunction target 20000] in
        match wait_for_function target 20000 (state_of p) with
        | (Raise _, s2) =>
            (Ok [], s2,
             head ++ [Browser.APrint
                        " Timeout waiting for bench dropdown to populate"])
        | (Ok _, s2) =>
            match eval_on_selector_all target "#court_complex_code option" s2 with
            | (Raise e, s3) =>
                (Ok [], s3,
                 head ++ [Browser.EvalOnSelectorAll target
                            "#court_complex_code option";
                          Browser.APrint
                            ("Failed to extract benches: " ++ str_of_exn e)])
            | (Ok opts, s3) =>
                (Ok (Topology.enumerate_benches
                       (Topology.BenchTarget (Ok tt) (Ok opts))),
                 s3,
                 head ++ [Browser.EvalOnSelectorAll target
                            "#court_complex_code option";
                          Browser.APrint
                            (" Found "
                               ++ str_of_int
                                    (Z.of_nat
                                       (length
                                          (Topology.enumerate_benches
                                             (Topology.BenchTarget (Ok tt)
                                                (Ok opts)))))
                               ++ " benches for court value " ++ court_value)])
            end
        end
    end.
Proof.
  unfold Browser.enumerate_benches. run_bench.
  destruct (select_option "#sess_state_code" court_value s) as [[[]|e] s1];
    cbn [fst snd]; [|reflexivity].
  destruct (poll (range 10) s1) as [[target s2] t]. cbn [fst snd].
  destruct (wait_for_function target 20000 s2) as [[[]|e] s3]; cbn [fst snd].
  - destruct (eval_on_selector_all target "#court_complex_code option" s3)
      as [[opts|e] s4]; cbn [fst snd app];
      rewrite ?app_nil_r, <- ?app_assoc; reflexivity.
  - cbn [app]. rewrite ?app_nil_r, <- ?app_assoc. reflexivity.
Qed.

Lemma tally_app (p : Browser.action frame -> bool)
    (a b : list (Browser.action frame)) :
  Browser.tally p (a ++ b) = (Browser.tally p a + Browser.tally p b)%nat.
Proof. unfold Browser.tally. rewrite filter_app, length_app. reflexivity. Qed.


(** X16. When the court is selected and no frame ever holds the bench
    selector, discovery polls ten times, sleeps ten seconds in all, and
    then waits on the page itself. *)
Theorem bench_selector_never_found (court_value : string) (s s1 : St) :
  select_option "#sess_state_code" court_value s = (Ok tt, s1) ->
  (forall f s', fst (query_selector f "#court_complex_code" s') <> Ok true) ->
  Browser.tally Browser.is_asleep (trace_of (benches court_value s)) = 10%nat
  /\ Browser.tally Browser.is_frames (trace_of (benches court_value s)) = 10%nat
  /\ In (Browser.WaitForFunction None 20000) (trace_of (benches court_value s)).
Proof.
  intros Hsel Hnever.
  assert (Hfind : forall fs s', value_of (find_frame fs s') = None).
  { induction fs as [|f rest IH]; intros s'; [reflexivity|].
    cbn [Browser.find_bench_frame]. run_bench.
    pose proof (Hnever f s') as Hq.
    destruct (query_selector f "#court_complex_code" s') as [[[|]|e] s2];
      cbn [fst snd] in *; try congruence;
      specialize (IH s2); unfold value_of in IH;
      destruct (find_frame rest s2) as [[v s3] t]; exact IH. }
  assert (Hpoll : forall l s',
             value_of (poll l s') = None
             /\ Browser.tally Browser.is_frames (trace_of (poll l s')) = length l).
  { induction l as [|a rest IH]; intros s'; [split; reflexivity|].
    cbn [Browser.poll_bench_frame]. run_bench.
    destruct (page_frames s') as [fs s2].
    pose proof (Hfind fs s2) as Hf.
    destruct (find_frame_shape fs s2) as (_ & F2 & _).
    unfold value_of, trace_of, Browser.tally in *.
    destruct (find_frame fs s2) as [[v s3] t]. cbn [fst snd] in *. subst v.
    destruct (IH s3) as [I1 I2].
    destruct (poll rest s3) as [[v s4] t4]. cbn [fst snd app] in *.
    split; [exact I1|].
    cbn [filter Browser.is_frames length]. rewrite !filter_app, !length_app.
    cbn [filter Browser.is_frames length]. lia. }
  rewrite benches_step, Hsel. cbv zeta.
  destruct (Hpoll (range 10) s1) as [Hv Hfr].
  destruct (poll_shape (range 10) s1)
    as (_ & _ & _ & P4).
  specialize (P4 Hv). rewrite range_length in P4, Hfr.
  change (Z.to_nat 10) with 10%nat in P4, Hfr.
  remember (poll (range 10) s1) as p eqn:Hp. clear Hp.
  destruct p as [[target s2] t]. unfold value_of, state_of, trace_of in *.
  cbn [fst snd] in *. subst target.
  assert (Hin : forall t0, In (Browser.WaitForFunction (frame := frame) None 20000)
                             (([Browser.SelectOption "#sess_state_code" court_value;
                                Browser.APrint
                                  ("Selected High Court value: " ++ court_value)]
                                 ++ t ++ [Browser.WaitForFunction None 20000])
                                ++ t0)).
  { intros t0. apply in_or_app. left. apply in_or_app. right.
    apply in_or_app. right. left. reflexivity. }
  destruct (wait_for_function None 20000 s2) as [[[]|e] s3].
  - destruct (eval_on_selector_all None "#court_complex_code option" s3)
      as [[opts|e] s4]; cbn [fst snd];
      (split; [|split; [|apply Hin]]);
      rewrite <- !app_assoc, !tally_app; unfold Browser.tally in *; cbn; lia.
  - cbn [fst snd]. (split; [|split; [|apply Hin]]);
      rewrite <- !app_assoc, !tally_app; unfold Browser.tally in *; cbn; lia.
Qed.

End BenchFacts.

Lemma bench_selector_never_found_witness :
  Browser.tally Browser.is_asleep
    (trace_of (@Browser.enumerate_benches (list string) nat
                 Browser.Calm.select_option Browser.Calm.page_frames
                 Browser.Calm.query_selector_absent Browser.Calm.wait_for_function
                 Browser.Calm.eval_on_selector_all "26" [])) = 10%nat.
Proof.
  refine (proj1 (bench_selector_never_found (list string) nat
                   Browser.Calm.select_option Browser.Calm.page_frames
                   Browser.Calm.query_selector_absent
                   Browser.Calm.wait_for_function
                   Browser.Calm.eval_on_selector_all "26" [] [] eq_refl _)).
  intros f s' H. discriminate H.
Defined.

(* ================================================================== *)
(** * Properties of the database manager                               *)
(* ================================================================== *)

Section StoreFacts.

Variable St : Type.
Variable conn : Type.
Variable import_psycopg : St -> outcome unit * St.
Variable psycopg_connect : string -> St -> outcome conn * St.
Variable connection_cursor : conn -> St -> outcome unit * St.
Variable cursor_execute : conn -> Store.statement -> St -> outcome unit * St.
Variable connection_commit : conn -> St -> outcome unit * St.
Variable connection_close : conn -> St -> outcome unit * St.
Variables (DB_HOST DB_NAME DB_USER DB_PASS : string) (DB_PORT : Z).

Local Abbreviation insert_case_record :=
  (@Store.insert_case_record St conn connection_cursor).
Local Abbreviation save_to_database :=
  (@Store.save_to_database St conn connection_cursor).
Local Abbreviation log_search :=
  (@Store.log_search St conn connection_cursor cursor_execute connection_commit).
Local Abbreviation init_database :=
  (@Store.init_database St conn import_psycopg psycopg_connect connection_cursor
     cursor_execute connection_commit DB_HOST DB_NAME DB_USER DB_PASS DB_PORT).
Local Abbreviation init_tables :=
  (@Store.init_tables St conn connection_cursor cursor_execute connection_commit).
Local Abbreviation close_database :=
  (@Store.close_database St conn connection_close).
Local Abbreviation the_conn_str :=
  (Store.conn_str DB_HOST DB_NAME DB_USER DB_PASS DB_PORT).

Ltac run_store :=
  unfold Store.logger;
  unfold Store.bind, Store.call, Store.emit, Store.ret, Store.get_manager,
    Store.set_manager, value_of, state_of, trace_of; cbn [fst snd app].

(** One call of [insert_case_record]. *)
Lemma insert_case_record_shape (record : result_row)
    (g : Store.global conn) (s : St) :
  value_of (insert_case_record record (g, s)) = false
  /\ Store.tally Store.is_execute (trace_of (insert_case_record record (g, s)))
     = 0%nat
  /\ Store.tally Store.is_commit (trace_of (insert_case_record record (g, s)))
     = 0%nat
  /\ Store.tally Store.is_dlog (trace_of (insert_case_record record (g, s)))
     = 1%nat
  /\ fst (state_of (insert_case_record record (g, s))) = g.
Proof.
  unfold Store.insert_case_record, Store.manager_insert_case_record,
    Store.self_cursor. run_store.
  destruct g as [[c|]|]; cbn [fst snd app]; try (repeat split; reflexivity).
  destruct (connection_cursor c s) as [[[]|e] s1]; repeat split; reflexivity.
Qed.

(** X17. [insert_case_record] never inserts: whatever the record, the
    manager and the server, it returns [False], executes no statement,
    commits nothing, logs one record and leaves the global as it was. *)
Theorem insert_case_record_never_inserts (record : result_row)
    (g : Store.global conn) (s : St) :
  value_of (insert_case_record record (g, s)) = false
  /\ Store.tally Store.is_execute (trace_of (insert_case_record record (g, s)))
     = 0%nat
  /\ Store.tally Store.is_commit (trace_of (insert_case_record record (g, s)))
     = 0%nat
  /\ Store.tally Store.is_dlog (trace_of (insert_case_record record (g, s)))
     = 1%nat
  /\ fst (state_of (insert_case_record record (g, s))) = g.
Proof. exact (insert_case_record_shape record g s). Qed.

Lemma insert_all_shape (case_results : list result_row) :
  forall (g : Store.global conn) (s : St),
    let run := Store.insert_all connection_cursor case_results (g, s) in
    Store.tally Store.is_execute (trace_of run) = 0%nat
    /\ Store.tally Store.is_commit (trace_of run) = 0%nat
    /\ Store.tally Store.is_dlog (trace_of run) = length case_results
    /\ fst (state_of run) = g.
Proof.
  induction case_results as [|record rest IH]; intros g s run; subst run.
  - repeat split.
  - cbn [Store.insert_all]. unfold Store.bind.
    destruct (insert_case_record_shape record g s)
      as (_ & E & C & L & G).
    destruct (insert_case_record record (g, s)) as [[v [g1 s1]] t1].
    unfold value_of, state_of, trace_of in *. cbn [fst snd] in *. subst g1.
    destruct (IH g s1) as (E' & C' & L' & G').
    destruct (Store.insert_all connection_cursor rest (g, s1)) as [[v2 [g2 s2]] t2].
    unfold value_of, state_of, trace_of, Store.tally in *. cbn [fst snd length] in *.
    rewrite !filter_app, !length_app. repeat split; try lia. exact G'.
Qed.

(** X18. [save_to_database] returns [True] for every list of records while
    storing none of them: no statement is executed, nothing is committed,
    and each record leaves one log record behind. *)
Theorem save_to_database_stores_nothing (case_results : list result_row)
    (g : Store.global conn) (s : St) :
  value_of (save_to_database case_results (g, s)) = true
  /\ Store.tally Store.is_execute (trace_of (save_to_database case_results (g, s)))
     = 0%nat
  /\ Store.tally Store.is_commit (trace_of (save_to_database case_results (g, s)))
     = 0%nat
  /\ Store.tally Store.is_dlog (trace_of (save_to_database case_results (g, s)))
     = length case_results.
Proof.
  unfold Store.save_to_database, Store.bind, Store.ret.
  destruct (insert_all_shape case_results g s) as (E & C & L & _).
  destruct (Store.insert_all connection_cursor case_results (g, s))
    as [[v [g1 s1]] t1].
  unfold value_of, trace_of in *. cbn [fst snd] in *. rewrite app_nil_r.
  auto.
Qed.

(** Creating the tables does not touch the global. *)
Lemma init_tables_global (connection : option conn) (g : Store.global conn) (s : St) :
  fst (state_of (init_tables connection (g, s))) = g.
Proof.
  unfold Store.init_tables, Store.self_cursor. run_store.
  destruct connection as [c|]; cbn [fst snd]; [|reflexivity].
  destruct (connection_cursor c s) as [[[]|e] s1]; cbn [fst snd]; [|reflexivity].
  assert (H : forall sts s',
             fst (snd (fst (Store.execute_all cursor_execute c sts (g, s')))) = g).
  { induction sts as [|st rest IH]; intros s'; [reflexivity|].
    cbn [Store.execute_all]. run_store.
    destruct (cursor_execute c st s') as [[[]|e] s2]; cbn [fst snd];
      [|reflexivity].
    specialize (IH s2).
    destruct (Store.execute_all cursor_execute c rest (g, s2)) as [[v [g3 s3]] t3].
    exact IH. }
  specialize (H Store.schema s1).
  destruct (Store.execute_all cursor_execute c Store.schema (g, s1))
    as [[[[]|e] [g2 s2]] t2]; cbn [fst snd] in *; subst g2; [|reflexivity].
  destruct (connection_commit c s2) as [[[]|e] s3]; reflexivity.
Qed.

(** X19. [init_database] leaves a manager in the global whether it returns
    or raises, and does nothing at all when the global already holds one:
    after a failed initialisation a second call returns normally without
    connecting. *)
Theorem init_database_runs_once (g : Store.global conn) (s : St) :
  fst (state_of (init_database (g, s))) <> None
  /\ (g <> None -> init_database (g, s) = (Ok tt, (g, s), [])).
Proof.
  split.
  - unfold Store.init_database, Store.connect. run_store.
    destruct g as [m|]; cbn [fst snd]; [discriminate|]. 
    destruct (import_psycopg s) as [[[]|e] s1]; cbn [fst snd]; [|discriminate].
    destruct (psycopg_connect the_conn_str s1) as [[c|e] s2]; cbn [fst snd];
      [|discriminate].
    pose proof (init_tables_global (Some c) (Some (Some c)) s2) as H.
    unfold state_of in H.
    destruct (init_tables _ _) as [[v [g3 s3]] t3].
    cbn [fst snd] in *. subst g3. discriminate.
  - intros Hg. destruct g as [m|]; [reflexivity | congruence].
Qed.

(** X20. When the server refuses the connection, [init_database] raises
    and leaves a manager without connection in the global; from then on
    [log_search] and [insert_case_record] return [False] with one error
    record each and never reach the server. *)
Theorem refused_connection_leaves_dead_manager (s s1 s2 : St) (e : exn) :
  import_psycopg s = (Ok tt, s1) ->
  psycopg_connect the_conn_str s1 = (Raise e, s2) ->
  init_database (None, s)
  = (Raise e, (Some None, s2),
     [Store.ImportPsycopg; Store.Connect the_conn_str;
      Store.DLog (LogRecord ERROR (" Failed to connect to database: "
                                     ++ str_of_exn e))])
  /\ (forall row s',
         log_search row (Some None, s')
         = (false, (Some None, s'),
            [Store.DLog
               (LogRecord ERROR
                  " Failed to log search: 'NoneType' object has no attribute 'cursor'")]))
  /\ (forall record s',
         insert_case_record record (Some None, s')
         = (false, (Some None, s'),
            [Store.DLog
               (LogRecord ERROR
                  " Failed to insert case record: 'NoneType' object has no attribute 'cursor'")])).
Proof.
  intros Himp Hconn. split; [|split].
  - unfold Store.init_database, Store.connect. run_store.
    rewrite Himp. cbn [fst snd]. rewrite Hconn. reflexivity.
  - intros row s'. reflexivity.
  - intros record s'. reflexivity.
Qed.

(** X21. Closing the database: when the connection closes, the global is
    emptied, and [log_search] then returns [False] with a warning and does
    not reach the server; when closing raises, the exception reaches the
    caller and the manager stays in the global. *)
Theorem close_database_empties_global (c : conn) (s : St) (row : search_log) :
  match connection_close c s with
  | (Ok _, s1) =>
      close_database (Some (Some c), s)
      = (Ok tt, (None, s1),
         [Store.Close c; Store.DLog (LogRecord INFO " Database connection closed")])
      /\ log_search row (None, s1)
         = (false, (None, s1),
            [Store.DLog (LogRecord WARNING
                           " Database not initialized, skipping search log")])
  | (Raise e, s1) =>
      close_database (Some (Some c), s) = (Raise e, (Some (Some c), s1), [Store.Close c])
  end.
Proof.
  unfold Store.close_database. run_store.
  destruct (connection_close c s) as [[[]|e] s1]; cbn [fst snd].
  - split; reflexivity.
  - reflexivity.
Qed.

End StoreFacts.

Lemma refused_connection_leaves_dead_manager_witness :
  value_of (Store.init_database Store.Local.import_psycopg
              (Store.Local.connect true) Store.Local.cursor Store.Local.execute
              Store.Local.commit "localhost" "ecourts" "postgres" "" 5432
              (None, []))
  = Raise (OtherException "connection refused")
  /\ value_of (Store.log_search Store.Local.cursor Store.Local.execute
                 Store.Local.commit Store.Local.a_row (Some None, [])) = false.
Proof.
  pose proof (refused_connection_leaves_dead_manager (list Store.statement) nat
                Store.Local.import_psycopg (Store.Local.connect true)
                Store.Local.cursor Store.Local.execute Store.Local.commit
                "localhost" "ecourts" "postgres" "" 5432
                [] [] [] (OtherException "connection refused") eq_refl eq_refl)
    as (H1 & H2 & _).
  split.
  - rewrite H1. reflexivity.
  - rewrite (H2 Store.Local.a_row []). reflexivity.
Defined.

(* ================================================================== *)
(** * Properties of the comprehensive search                           *)
(* ================================================================== *)

Section DriverFacts.

Variable St : Type.
Variable get_all_high_courts : St -> list Topology.entry * St.
Variable get_benches_for_court : string -> string -> St -> list Topology.entry * St.
Variable search_by_party_name :
  string -> string -> string -> string -> string -> St
  -> outcome (list result_row) * St.
Variable save_to_database : list result_row -> St -> bool * St.
Variable repr_list : list string -> string.

Local Abbreviation search_benches :=
  (@Driver.search_benches St search_by_party_name save_to_database).
Local Abbreviation process_courts :=
  (@Driver.process_courts St get_benches_for_court search_by_party_name
     save_to_database).
Local Abbreviation run :=
  (@Driver.run_comprehensive_search St get_all_high_courts get_benches_for_court
     search_by_party_name save_to_database repr_list).

(** What a step of the search over the courts [courts] may be. *)
Local Abbreviation allowed courts x :=
  (match x with
   | Driver.SLog _ => True
   | Driver.GetCourts => False
   | Driver.GetBenches cv cn => In (Topology.Entry cv cn) courts
   | Driver.Search cn cv _ _ p => In (Topology.Entry cv cn) courts /\ p = "kumar"
   | Driver.Save rs => rs <> []
   end).

Ltac run_driver :=
  unfold Driver.perform_search, Driver.logger;
  unfold Driver.bind, Driver.call, Driver.emit, Driver.ret,
    value_of, state_of, trace_of; cbn [fst snd].

Lemma driver_tally_app (p : Driver.step -> bool) (a b : list Driver.step) :
  Driver.tally p (a ++ b) = (Driver.tally p a + Driver.tally p b)%nat.
Proof. unfold Driver.tally. rewrite filter_app, length_app. reflexivity. Qed.

(** The loop over the benches of the court [(cv, cn)] searches once per
    bench, for "kumar", and saves only non-empty results. *)
Lemma search_benches_shape (cn cv : string) (benches : list Topology.entry) :
  forall (total : Z) (s : St),
    Forall (fun x => allowed [Topology.Entry cv cn] x)
      (trace_of (search_benches cn cv benches total s))
    /\ Driver.tally Driver.is_search (trace_of (search_benches cn cv benches total s))
       = length benches
    /\ (Driver.tally Driver.is_save (trace_of (search_benches cn cv benches total s))
        <= length benches)%nat
    /\ Driver.tally Driver.is_get_benches
         (trace_of (search_benches cn cv benches total s)) = 0%nat.
Proof.
  induction benches as [|bench rest IH]; intros total s.
  - repeat split; try constructor.
  - cbn [Driver.search_benches]. run_driver.
    destruct (search_by_party_name cn cv (Topology.value bench)
                (Topology.text bench) "kumar" s) as [[[|d ds]|e] s1];
      cbn [fst snd].
    + destruct (IH total s1) as (I1 & I2 & I3 & I4).
      destruct (search_benches cn cv rest total s1) as [[v s2] t].
      unfold trace_of, Driver.tally in *. cbn [fst snd app filter length
        Driver.is_search Driver.is_save Driver.is_get_benches] in *.
      split; [|repeat split; lia].
      repeat constructor; auto.
    + destruct (save_to_database (d :: ds) s1) as [ok s2]. cbn [fst snd].
      destruct (IH (total + Z.of_nat (length (d :: ds))) s2) as (I1 & I2 & I3 & I4).
      destruct (search_benches cn cv rest (total + Z.of_nat (length (d :: ds))) s2)
        as [[v s3] t].
      unfold trace_of, Driver.tally in *. cbn [fst snd app filter length
        Driver.is_search Driver.is_save Driver.is_get_benches] in *.
      split; [|repeat split; lia].
      repeat constructor; auto. discriminate.
    + destruct (IH total s1) as (I1 & I2 & I3 & I4).
      destruct (search_benches cn cv rest total s1) as [[v s2] t].
      unfold trace_of, Driver.tally in *. cbn [fst snd app filter length
        Driver.is_search Driver.is_save Driver.is_get_benches] in *.
      split; [|repeat split; lia].
      repeat constructor; auto.
Qed.

Lemma allowed_weaken (a b : list Topology.entry) (t : list Driver.step) :
  (forall c, In c a -> In c b) ->
  Forall (fun x => allowed a x) t -> Forall (fun x => allowed b x) t.
Proof.
  intros Hab. apply Forall_impl. intros x.
  destruct x; auto; try (intros [H1 H2]; split); auto.
Qed.

(** The loop over the courts lists the benches of each court once and
    never saves more often than it searches. *)
Lemma process_courts_shape (courts : list Topology.entry) :
  forall (p c : Z) (s : St),
    Forall (fun x => allowed courts x) (trace_of (process_courts courts p c s))
    /\ (Driver.tally Driver.is_save (trace_of (process_courts courts p c s))
        <= Driver.tally Driver.is_search (trace_of (process_courts courts p c s)))%nat
    /\ Driver.tally Driver.is_get_benches (trace_of (process_courts courts p c s))
       = length courts.
Proof.
  induction courts as [|[cv cn] rest IH]; intros p c s.
  - repeat split; try constructor.
  - cbn [Driver.process_courts Topology.value Topology.text]. run_driver.
    destruct (get_benches_for_court cv cn s) as [[|b bs] s1]; cbn [fst snd].
    + destruct (IH p c s1) as (I1 & I2 & I3).
      destruct (process_courts rest p c s1) as [[v s2] t].
      unfold trace_of, Driver.tally in *. cbn [fst snd app filter length
        Driver.is_search Driver.is_save Driver.is_get_benches] in *.
      split; [|split; lia].
      constructor; [exact I|]. constructor; [left; reflexivity|].
      constructor; [exact I|]. constructor; [exact I|].
      revert I1. apply allowed_weaken. intros x Hx. right. exact Hx.
    + destruct (search_benches_shape cn cv (b :: bs) c s1) as (B1 & B2 & B3 & B4).
      destruct (search_benches cn cv (b :: bs) c s1) as [[c' s2] t1].
      cbn [fst snd] in *.
      destruct (IH (p + 1) c' s2) as (I1 & I2 & I3).
      destruct (process_courts rest (p + 1) c' s2) as [[v s3] t2].
      unfold trace_of in *. cbn [fst snd app] in *.
      split; [|split].
      * constructor; [exact I|]. constructor; [left; reflexivity|].
        constructor; [exact I|]. apply Forall_app. split.
        -- revert B1. apply allowed_weaken. intros x [<-|[]]. left. reflexivity.
        -- revert I1. apply allowed_weaken. intros x Hx. right. exact Hx.
      * unfold Driver.tally in *.
        cbn [filter length Driver.is_search Driver.is_save].
        rewrite !filter_app, !length_app. lia.
      * unfold Driver.tally in *.
        cbn [filter length Driver.is_get_benches].
        rewrite !filter_app, !length_app. lia.
Qed.

Lemma bench_listings_app (a b : list Driver.step) :
  Driver.bench_listings (a ++ b)
  = Driver.bench_listings a ++ Driver.bench_listings b.
Proof.
  induction a as [|x a IH]; [reflexivity|].
  destruct x; cbn [app Driver.bench_listings]; rewrite IH; reflexivity.
Qed.

Lemma searches_app (a b : list Driver.step) :
  Driver.searches (a ++ b) = Driver.searches a ++ Driver.searches b.
Proof.
  induction a as [|x a IH]; [reflexivity|].
  destruct x; cbn [app Driver.searches]; rewrite IH; reflexivity.
Qed.

Lemma in_searches (cn cv bv bn p : string) (t : list Driver.step) :
  In (Driver.Search cn cv bv bn p) t -> In (cn, cv, bv, bn, p) (Driver.searches t).
Proof.
  induction t as [|x t IH]; [intros []|].
  intros [->|Hin].
  - left. reflexivity.
  - destruct x; cbn [Driver.searches]; auto. right. auto.
Qed.

(** The loop over the benches of the court [(cv, cn)] lists no benches; its
    searches are, in order, one per bench, each with the court's name and
    value, the bench's value and name, and the party "kumar"; and it leaves
    the court listed last as it was. *)
Lemma search_benches_calls (cn cv : string) (benches : list Topology.entry) :
  forall (total : Z) (s : St),
    Driver.bench_listings (trace_of (search_benches cn cv benches total s)) = []
    /\ Driver.searches (trace_of (search_benches cn cv benches total s))
       = map (fun b => (cn, cv, Topology.value b, Topology.text b, "kumar")) benches
    /\ (forall rest,
           Driver.scoped (Some (cv, cn))
             (trace_of (search_benches cn cv benches total s) ++ rest)
           = Driver.scoped (Some (cv, cn)) rest).
Proof.
  induction benches as [|bench more IH]; intros total s.
  - repeat split.
  - cbn [Driver.search_benches]. run_driver.
    destruct (search_by_party_name cn cv (Topology.value bench)
                (Topology.text bench) "kumar" s) as [[[|d ds]|e] s1];
      cbn [fst snd].
    + destruct (IH total s1) as (I1 & I2 & I3).
      destruct (search_benches cn cv more total s1) as [[v s2] t].
      unfold trace_of in *. cbn [fst snd app map Driver.bench_listings
        Driver.searches Driver.scoped] in *.
      rewrite !String.eqb_refl. cbn [andb].
      repeat split; [exact I1 | rewrite I2; reflexivity | exact I3].
    + destruct (save_to_database (d :: ds) s1) as [ok s2]. cbn [fst snd].
      destruct (IH (total + Z.of_nat (length (d :: ds))) s2) as (I1 & I2 & I3).
      destruct (search_benches cn cv more (total + Z.of_nat (length (d :: ds))) s2)
        as [[v s3] t].
      unfold trace_of in *. cbn [fst snd app map Driver.bench_listings
        Driver.searches Driver.scoped] in *.
      rewrite !String.eqb_refl. cbn [andb].
      repeat split; [exact I1 | rewrite I2; reflexivity | exact I3].
    + destruct (IH total s1) as (I1 & I2 & I3).
      destruct (search_benches cn cv more total s1) as [[v s2] t].
      unfold trace_of in *. cbn [fst snd app map Driver.bench_listings
        Driver.searches Driver.scoped] in *.
      rewrite !String.eqb_refl. cbn [andb].
      repeat split; [exact I1 | rewrite I2; reflexivity | exact I3].
Qed.

(** The loop over the courts lists the benches of each court in turn, with
    the court's value and name; each of its searches is for a bench that the
    listing of that court returned, and is made while that court is the one
    listed last. *)
Lemma process_courts_calls (courts : list Topology.entry) :
  forall (p c : Z) (s : St),
    Driver.bench_listings (trace_of (process_courts courts p c s))
    = map (fun x => (Topology.value x, Topology.text x)) courts
    /\ (forall cn cv bv bn q,
           In (cn, cv, bv, bn, q)
              (Driver.searches (trace_of (process_courts courts p c s))) ->
           exists s', In (Topology.Entry bv bn)
                         (fst (get_benches_for_court cv cn s')))
    /\ (forall current rest,
           (forall current', Driver.scoped current' rest = true) ->
           Driver.scoped current (trace_of (process_courts courts p c s) ++ rest)
           = true).
Proof.
  induction courts as [|[cv cn] more IH]; intros p c s.
  - repeat split.
    + intros cn cv bv bn q [].
    + intros current rest H. apply H.
  - cbn [Driver.process_courts Topology.value Topology.text]. run_driver.
    destruct (get_benches_for_court cv cn s) as [[|b bs] s1] eqn:G; cbn [fst snd].
    + destruct (IH p c s1) as (I1 & I2 & I3).
      destruct (process_courts more p c s1) as [[v s2] t].
      unfold trace_of in *. cbn [fst snd app map Driver.bench_listings
        Driver.searches Driver.scoped Topology.value Topology.text] in *.
      repeat split.
      * rewrite I1. reflexivity.
      * exact I2.
      * intros _ rest H. apply I3. exact H.
    + remember (b :: bs) as benches eqn:Eb.
      destruct (search_benches_calls cn cv benches c s1) as (B1 & B2 & B3).
      destruct (search_benches cn cv benches c s1) as [[c' s2] t1].
      cbn [fst snd] in *.
      destruct (IH (p + 1) c' s2) as (I1 & I2 & I3).
      destruct (process_courts more (p + 1) c' s2) as [[v s3] t2].
      unfold trace_of in *. cbn [fst snd app map Driver.bench_listings
        Driver.searches Driver.scoped Topology.value Topology.text] in *.
      repeat split.
      * rewrite bench_listings_app, B1, I1. reflexivity.
      * intros cn' cv' bv bn q Hin. rewrite searches_app in Hin.
        apply in_app_or in Hin. destruct Hin as [Hin|Hin].
        -- rewrite B2 in Hin. apply in_map_iff in Hin.
           destruct Hin as (x & E & Hx). inversion E; subst.
           exists s. rewrite G. cbn [fst]. destruct x; exact Hx.
        -- exact (I2 _ _ _ _ _ Hin).
      * intros _ rest H. rewrite <- app_assoc, B3. apply I3. exact H.
Qed.

(** X22. The comprehensive search lists the benches of exactly the courts
    whose value is ["26"] or ["3"], once each and in the order of the court
    list, handing each listing that court's value and name; every search it
    performs is for the party ["kumar"], in the court whose benches were
    listed last before it, which is one of those courts, and for a bench
    that a listing of that court returned; it saves only result lists that
    are not empty, and never more often than it searches. *)
Theorem comprehensive_search_stays_on_target (s : St) :
  let courts := filter Driver.is_target (fst (get_all_high_courts s)) in
  let t := trace_of (run s) in
  Driver.bench_listings t
  = map (fun c => (Topology.value c, Topology.text c)) courts
  /\ Driver.scoped None t = true
  /\ (forall cn cv bv bn p,
         In (Driver.Search cn cv bv bn p) t ->
         p = "kumar" /\ (cv = "26" \/ cv = "3")
         /\ In (Topology.Entry cv cn) courts
         /\ exists s', In (Topology.Entry bv bn)
                          (fst (get_benches_for_court cv cn s')))
  /\ (forall rs, In (Driver.Save rs) t -> rs <> [])
  /\ (Driver.tally Driver.is_save t <= Driver.tally Driver.is_search t)%nat
  /\ Driver.tally Driver.is_get_benches t = length courts.
Proof.
  intros courts t. subst courts t.
  unfold Driver.run_comprehensive_search. run_driver.
  destruct (get_all_high_courts s) as [all s1]. cbn [fst snd].
  assert (Htarget : forall cv cn,
             In (Topology.Entry cv cn) (filter Driver.is_target all) ->
             cv = "26" \/ cv = "3").
  { intros cv cn Hin. apply filter_In in Hin. destruct Hin as [_ H].
    unfold Driver.is_target, Driver.target_court_values in H.
    cbn [existsb Topology.value] in H.
    destruct (String.eqb_spec cv "26") as [->|_]; [left; reflexivity|].
    destruct (String.eqb_spec cv "3") as [->|_]; [right; reflexivity|].
    discriminate H. }
  destruct (filter Driver.is_target all) as [|c0 cs] eqn:F.
  - cbn [fst snd app]. unfold Driver.tally.
    cbn [filter length Driver.is_search Driver.is_save Driver.is_get_benches].
    split; [reflexivity|]. split; [reflexivity|].
    split; [|split; [|split; [lia | reflexivity]]].
    + intros cn cv bv bn p Hin. cbn [In] in Hin.
      repeat (destruct Hin as [Hin|Hin]; [discriminate Hin|]). destruct Hin.
    + intros rs Hin. cbn [In] in Hin.
      repeat (destruct Hin as [Hin|Hin]; [discriminate Hin|]). destruct Hin.
  - destruct (process_courts_shape (c0 :: cs) 0 0 s1) as (P1 & P2 & P3).
    destruct (process_courts_calls (c0 :: cs) 0 0 s1) as (Q1 & Q2 & Q3).
    destruct (process_courts (c0 :: cs) 0 0 s1) as [[totals s2] t].
    unfold trace_of in *. cbn [fst snd app] in *.
    rewrite Forall_forall in P1.
    split; [|split; [|split; [|split; [|split]]]].
    + cbn [Driver.bench_listings]. rewrite bench_listings_app, Q1.
      cbn [Driver.bench_listings]. apply app_nil_r.
    + cbn [Driver.scoped]. apply Q3. intros current'. reflexivity.
    + intros cn cv bv bn p Hin.
      destruct Hin as [H|[H|[H|[H|Hin]]]]; try discriminate H.
      apply in_app_or in Hin. destruct Hin as [Hin|Hin].
      * destruct (P1 _ Hin) as [Hc ->].
        split; [reflexivity|]. split; [exact (Htarget _ _ Hc)|].
        split; [exact Hc|].
        exact (Q2 _ _ _ _ _ (in_searches _ _ _ _ _ _ Hin)).
      * cbn [In] in Hin.
        repeat (destruct Hin as [Hin|Hin]; [discriminate Hin|]). destruct Hin.
    + intros rs Hin.
      destruct Hin as [H|[H|[H|[H|Hin]]]]; try discriminate H.
      apply in_app_or in Hin. destruct Hin as [Hin|Hin].
      * exact (P1 _ Hin).
      * cbn [In] in Hin.
        repeat (destruct Hin as [Hin|Hin]; [discriminate Hin|]). destruct Hin.
    + unfold Driver.tally in *.
      cbn [filter length Driver.is_search Driver.is_save].
      rewrite !filter_app, !length_app.
      cbn [filter length Driver.is_search Driver.is_save]. lia.
    + unfold Driver.tally in *.
      cbn [filter length Driver.is_get_benches] in *.
      rewrite !filter_app, !length_app.
      cbn [filter length Driver.is_get_benches]. lia.
Qed.

End DriverFacts.

Lemma comprehensive_search_stays_on_target_witness :
  In (Driver.Search "High Court of Delhi" "26" "1" "Principal Bench" "kumar")
     (trace_of Driver.Toy.run)
  /\ Driver.bench_listings (trace_of Driver.Toy.run)
     = [("3", "High Court of Karnataka"); ("26", "High Court of Delhi")].
Proof.
  split; [vm_compute; repeat (first [left; reflexivity | right])|].
  exact (proj1 (comprehensive_search_stays_on_target nat
                  Driver.Toy.get_all_high_courts
                  Driver.Toy.get_benches_for_court
                  Driver.Toy.search_by_party_name
                  Driver.Toy.save_to_database
                  Driver.Toy.repr_list 0%nat)).
Defined.

Section InitFacts.

Variable St : Type.
Variable frame : Type.
Variable page_goto : string -> string -> St -> outcome unit * St.
Variable click : string -> option Z -> St -> outcome unit * St.
Variable wait_for_load_state : string -> St -> outcome unit * St.
Variable wait_for_timeout : Z -> St -> outcome unit * St.
Variable is_visible : string -> Z -> St -> outcome bool * St.
Variable keyboard_press : string -> St -> outcome unit * St.

Local Abbreviation initialize :=
  (@Browser.initialize St frame page_goto click wait_for_load_state
     wait_for_timeout is_visible keyboard_press).

(** X23. Initialisation succeeds exactly when the navigation to the entry
    page and the wait of two seconds behind it both return: no failure to
    click the Case Status link or to dismiss a popup makes it fail. *)
Theorem initialize_fails_only_on_navigation (s : St) :
  value_of (initialize s) = true
  <-> exists s1 s2,
      page_goto Browser.BASE_URL "networkidle" s = (Ok tt, s1)
      /\ wait_for_timeout 2000 s1 = (Ok tt, s2).
Proof.
  unfold Browser.initialize, Browser.logger.
  unfold Browser.bind, Browser.call, Browser.emit, Browser.ret, value_of.
  cbn [fst snd].
  destruct (page_goto Browser.BASE_URL "networkidle" s) as [[[]|e] s1] eqn:G;
    cbn [fst snd].
  - destruct (wait_for_timeout 2000 s1) as [[[]|e] s2] eqn:W; cbn [fst snd].
    + pose proof (try_page_shape St frame click wait_for_load_state
                    wait_for_timeout is_visible keyboard_press
                    Browser.case_status_selectors s2) as [Hv _].
      unfold value_of in Hv. fold (@Browser.open_case_status_page St frame click
        wait_for_load_state wait_for_timeout is_visible keyboard_press) in Hv.
      destruct (Browser.open_case_status_page _ _ _ _ _ _) as [[v s3] t].
      cbn [fst snd] in *. subst v. cbn [negb fst snd].
      split; [intros _; exists s1, s2; split; [reflexivity | exact W]
             | reflexivity].
    + split; [intros H; discriminate H|].
      intros (s1' & s2' & H1 & H2). inversion H1; subst. congruence.
  - split; [intros H; discriminate H|].
    intros (s1' & s2' & H1 & _). discriminate H1.
Qed.

End InitFacts.
